(** * f4pga flow configuration: override store, raw aggregation, flow config

    A shallow embedding of [f4pga/flow_config.py].  The Python program works
    on JSON-like documents made of shared, mutable dictionaries and lists, so
    the embedding keeps an explicit object store: every dictionary and list is
    a cell of the store, values refer to cells by address, and each Python
    function is a computation that threads the store, the text printed so far
    and a possible exception. *)

From Stdlib Require Import ZArith String List Lia Bool DecimalString Sorting.Sorted.
From stdpp Require Import base list strings.

(** ** Values and the object store *)

(** A Python value as it appears in a loaded JSON document: [None], a boolean,
    an integer, a string, or a reference to a list or a dictionary of the
    store.  (JSON floats are not represented.) *)
Inductive val : Type :=
| VNone
| VBool (b : bool)
| VInt (n : Z)
| VStr (s : string)
| VRef (l : nat).

(** A dictionary keeps its keys in insertion order, as Python's [dict] does. *)
Abbreviation pydict := (list (string * val)).

Inductive obj : Type :=
| OList (xs : list val)
| ODict (d : pydict).

(** Addresses are positions in the store; a new object is put at the end. *)
Record state : Type := mkState {
  heap : list obj;
  stdout : list string
}.

Inductive exn : Type :=
| KeyError (k : string)
| AttributeError
| TypeError
| IndexError.

Inductive outcome (A : Type) : Type :=
| Ok (a : A)
| Raise (e : exn).
Arguments Ok {A} a.
Arguments Raise {A} e.

(** A computation: runs on a state, ends normally or with an exception, and
    leaves a state either way (an exception undoes nothing). *)
Definition M (A : Type) : Type := state -> outcome A * state.

Definition ret {A} (a : A) : M A := fun s => (Ok a, s).

Definition raise {A} (e : exn) : M A := fun s => (Raise e, s).

Definition bind {A B} (m : M A) (k : A -> M B) : M B :=
  fun s => match m s with
           | (Ok a, s') => k a s'
           | (Raise e, s') => (Raise e, s')
           end.

Notation "'let*' x ':=' m 'in' k" := (bind m (fun x => k))
  (at level 10, x name, m at level 100, k at level 200).

Definition get_heap : M (list obj) := fun s => (Ok (heap s), s).

Definition put_heap (h : list obj) : M unit :=
  fun s => (Ok tt, mkState h (stdout s)).

(** [print(line)] *)
Definition print (line : string) : M unit :=
  fun s => (Ok tt, mkState (heap s) (stdout s ++ [line])).

(** A new object: its address is the end of the store. *)
Definition alloc (o : obj) : M val :=
  fun s => (Ok (VRef (length (heap s))), mkState (heap s ++ [o]) (stdout s)).

(** [for x in xs: body(x)] *)
Fixpoint for_each {A} (xs : list A) (body : A -> M unit) : M unit :=
  match xs with
  | [] => ret tt
  | x :: rest => let* _ := body x in for_each rest body
  end.

(** ** Dictionaries *)

Fixpoint dict_get (k : string) (d : pydict) : option val :=
  match d with
  | [] => None
  | (k', v) :: rest => if String.eqb k k' then Some v else dict_get k rest
  end.

(** [d[k] = v]: an existing key keeps its place, a new key goes last. *)
Fixpoint dict_set (k : string) (v : val) (d : pydict) : pydict :=
  match d with
  | [] => [(k, v)]
  | (k', v') :: rest =>
      if String.eqb k k' then (k, v) :: rest else (k', v') :: dict_set k v rest
  end.

(** [d.update(e)]: the items of [e], in order, each by [d[k] = v]. *)
Definition dict_update (d e : pydict) : pydict :=
  fold_left (fun acc kv => dict_set (fst kv) (snd kv) acc) e d.

Fixpoint dict_pop (k : string) (d : pydict) : pydict :=
  match d with
  | [] => []
  | (k', v') :: rest =>
      if String.eqb k k' then rest else (k', v') :: dict_pop k rest
  end.

(** ** Python primitives on the store *)

(** [x is None] *)
Definition is_None (v : val) : bool :=
  match v with VNone => true | _ => false end.

(** The classes [type(x)] can return for a document value. *)
Inductive pytype : Type :=
| TyNoneType | TyBool | TyInt | TyStr | TyList | TyDict.

(** [type(v)]; a dangling reference has no type, which no run produces. *)
Definition py_type (v : val) : M pytype :=
  fun s => match v with
           | VNone => (Ok TyNoneType, s)
           | VBool _ => (Ok TyBool, s)
           | VInt _ => (Ok TyInt, s)
           | VStr _ => (Ok TyStr, s)
           | VRef l => match heap s !! l with
                       | Some (OList _) => (Ok TyList, s)
                       | Some (ODict _) => (Ok TyDict, s)
                       | None => (Raise TypeError, s)
                       end
           end.

(** [t is list] for a class [t]. *)
Definition is_list_type (t : pytype) : bool :=
  match t with TyList => true | _ => false end.

(** [t is None] for a class [t]: a class object is never the [None] object. *)
Definition type_is_None (t : pytype) : bool := false.

(** [d.get(k)]: only a dictionary has the method. *)
Definition py_get (d : val) (k : string) : M val :=
  fun s => match d with
           | VRef l => match heap s !! l with
                       | Some (ODict items) =>
                           (Ok (default VNone (dict_get k items)), s)
                       | _ => (Raise AttributeError, s)
                       end
           | _ => (Raise AttributeError, s)
           end.

(** [d[k]] for a string key. *)
Definition py_getitem (d : val) (k : string) : M val :=
  fun s => match d with
           | VRef l => match heap s !! l with
                       | Some (ODict items) =>
                           match dict_get k items with
                           | Some v => (Ok v, s)
                           | None => (Raise (KeyError k), s)
                           end
                       | _ => (Raise TypeError, s)
                       end
           | _ => (Raise TypeError, s)
           end.

(** [d[k] = v] for a string key. *)
Definition py_setitem (d : val) (k : string) (v : val) : M unit :=
  fun s => match d with
           | VRef l => match heap s !! l with
                       | Some (ODict items) =>
                           (Ok tt, mkState (<[l := ODict (dict_set k v items)]> (heap s))
                                           (stdout s))
                       | _ => (Raise TypeError, s)
                       end
           | _ => (Raise TypeError, s)
           end.

(** [d.pop(k)] of a dictionary. *)
Definition py_dict_pop (d : val) (k : string) : M val :=
  fun s => match d with
           | VRef l => match heap s !! l with
                       | Some (ODict items) =>
                           match dict_get k items with
                           | Some v =>
                               (Ok v, mkState (<[l := ODict (dict_pop k items)]> (heap s))
                                              (stdout s))
                           | None => (Raise (KeyError k), s)
                           end
                       | _ => (Raise AttributeError, s)
                       end
           | _ => (Raise AttributeError, s)
           end.

(** [d.update(e)]: mutates the dictionary [d] in place. *)
Definition py_update (d e : val) : M unit :=
  fun s => match d, e with
           | VRef l, VRef l' =>
               match heap s !! l, heap s !! l' with
               | Some (ODict items), Some (ODict items') =>
                   (Ok tt, mkState (<[l := ODict (dict_update items items')]> (heap s))
                                   (stdout s))
               | Some (ODict _), _ => (Raise TypeError, s)
               | _, _ => (Raise AttributeError, s)
               end
           | VRef l, _ =>
               match heap s !! l with
               | Some (ODict _) => (Raise TypeError, s)
               | _ => (Raise AttributeError, s)
               end
           | _, _ => (Raise AttributeError, s)
           end.

(** The elements Python iterates over: those of a list, the keys of a
    dictionary, the characters of a string. *)
Definition py_iter (v : val) : M (list val) :=
  fun s => match v with
           | VStr str =>
               (Ok (map (fun c => VStr (String c EmptyString)) (list_ascii_of_string str)), s)
           | VRef l => match heap s !! l with
                       | Some (OList xs) => (Ok xs, s)
                       | Some (ODict items) => (Ok (map (fun kv => VStr (fst kv)) items), s)
                       | None => (Raise TypeError, s)
                       end
           | _ => (Raise TypeError, s)
           end.

(** [xs += values] on a list: extends the list object in place. *)
Definition py_list_iadd (xs values : val) : M unit :=
  let* ys := py_iter values in
  fun s => match xs with
           | VRef l => match heap s !! l with
                       | Some (OList elems) =>
                           (Ok tt, mkState (<[l := OList (elems ++ ys)]> (heap s)) (stdout s))
                       | _ => (Raise TypeError, s)
                       end
           | _ => (Raise TypeError, s)
           end.

(** [len(xs)] of a list or a dictionary. *)
Definition py_len (v : val) : M Z :=
  fun s => match v with
           | VStr str => (Ok (Z.of_nat (String.length str)), s)
           | VRef l => match heap s !! l with
                       | Some (OList xs) => (Ok (Z.of_nat (length xs)), s)
                       | Some (ODict items) => (Ok (Z.of_nat (length items)), s)
                       | None => (Raise TypeError, s)
                       end
           | _ => (Raise TypeError, s)
           end.

(** [xs.pop(idx)]: a negative index counts from the end; an index outside the
    list raises [IndexError]. *)
Definition py_list_pop (xs : val) (idx : Z) : M val :=
  fun s => match xs with
           | VRef l =>
               match heap s !! l with
               | Some (OList elems) =>
                   let n := Z.of_nat (length elems) in
                   let i := if (idx <? 0)%Z then (idx + n)%Z else idx in
                   if ((i <? 0) || (n <=? i))%Z then (Raise IndexError, s)
                   else (Ok (default VNone (elems !! Z.to_nat i)),
                         mkState (<[l := OList (delete (Z.to_nat i) elems)]> (heap s))
                                 (stdout s))
               | _ => (Raise AttributeError, s)
               end
           | _ => (Raise AttributeError, s)
           end.

(** Truth value of [v] in a condition. *)
Definition py_truthy (v : val) : M bool :=
  fun s => match v with
           | VNone => (Ok false, s)
           | VBool b => (Ok b, s)
           | VInt n => (Ok (negb (n =? 0)%Z), s)
           | VStr str => (Ok (negb (String.eqb str "")), s)
           | VRef l => match heap s !! l with
                       | Some (OList xs) => (Ok (negb (length xs =? 0)%nat), s)
                       | Some (ODict items) => (Ok (negb (length items =? 0)%nat), s)
                       | None => (Raise TypeError, s)
                       end
           end.

(** Truth value of an optional string argument ([None] and [''] are false). *)
Definition str_truthy (o : option string) : bool :=
  match o with
  | None => false
  | Some str => negb (String.eqb str "")
  end.

(** [set(vals)] needs hashable elements; lists and dictionaries are not. *)
Definition hashable (v : val) : bool :=
  match v with VRef _ => false | _ => true end.

(** [x == y] on hashable values: a boolean equals the integer 0 or 1. *)
Definition py_eqb (x y : val) : bool :=
  match x, y with
  | VNone, VNone => true
  | VBool a, VBool b => Bool.eqb a b
  | VBool a, VInt n | VInt n, VBool a => (n =? (if a then 1 else 0))%Z
  | VInt n, VInt m => (n =? m)%Z
  | VStr a, VStr b => String.eqb a b
  | _, _ => false
  end.

(** [set(vals)], kept as the sequence of its elements. *)
Definition py_set (vals : val) : M (list val) :=
  let* elems := py_iter vals in
  if forallb hashable elems then ret elems else raise TypeError.

(** [x in st] for a set [st]. *)
Definition py_in_set (x : val) (st : list val) : M bool :=
  if hashable x then ret (existsb (py_eqb x) st) else raise TypeError.

(** [[x for x in xs if cond(x)]] *)
Fixpoint comprehension (xs : list val) (cond : val -> M bool) : M (list val) :=
  match xs with
  | [] => ret []
  | x :: rest =>
      let* keep := cond x in
      let* tail := comprehension rest cond in
      ret (if keep then x :: tail else tail)
  end.

(** [idcs.sort(reverse=True)] on a list of integers. *)
Fixpoint insert_desc (x : Z) (l : list Z) : list Z :=
  match l with
  | [] => [x]
  | y :: rest => if (y <=? x)%Z then x :: l else y :: insert_desc x rest
  end.

Definition sort_reverse (l : list Z) : list Z := foldr insert_desc [] l.

(** [str(n)] of an integer, as an f-string prints it. *)
Definition str_of_int (n : Z) : string := NilZero.string_of_int (Z.to_int n).

(** ** The override store *)

Definition _get_lazy_dict (parent : val) (name : string) : M val :=
  let* d := py_get parent name in
  if is_None d then
    let* d := alloc (ODict []) in
    let* _ := py_setitem parent name d in
    ret d
  else ret d.

Definition _get_ov_dict (dname : string) (flow : val)
    (platform stage : option string) : M val :=
  if negb (str_truthy platform) then _get_lazy_dict flow dname
  else
    let* platform_dict := py_getitem flow (default "" platform) in
    if str_truthy stage then
      let* stage_dict := _get_lazy_dict platform_dict (default "" stage) in
      _get_lazy_dict stage_dict dname
    else _get_lazy_dict platform_dict dname.

Definition _get_dep_dict (flow : val) (platform stage : option string) : M val :=
  _get_ov_dict "dependencies" flow platform stage.

Definition _get_vals_dict (flow : val) (platform stage : option string) : M val :=
  _get_ov_dict "values" flow platform stage.

(** The accessor and the message builders are arguments, as in the source. *)
Definition _add_ov (ov_dict_getter : val -> option string -> option string -> M val)
    (failstr_constr : string -> string)
    (flow_cfg : val) (name : string) (values : val)
    (platform stage : option string) : M bool :=
  let* d := ov_dict_getter flow_cfg platform stage in
  let* deps := py_get d name in
  let* t := py_type deps in
  if is_list_type t then
    let* _ := py_list_iadd deps values in
    ret true
  else if is_None deps then
    let* _ := py_setitem d name values in
    ret true
  else
    let* _ := print (failstr_constr name) in
    ret false.

Definition _rm_ov_by_values (ov_dict_getter : val -> option string -> option string -> M val)
    (notset_str_constr notlist_str_constr : string -> string)
    (flow : val) (name : string) (vals : val)
    (platform stage : option string) : M bool :=
  let* d := ov_dict_getter flow platform stage in
  let* vallist := py_get d name in
  let* t := py_type vallist in
  if is_list_type t then
    let* elems := py_iter vallist in
    let* kept := comprehension elems (fun v =>
                   let* st := py_set vals in
                   let* found := py_in_set v st in
                   ret (negb found)) in
    let* filtered := alloc (OList kept) in
    let* _ := py_setitem d name filtered in
    ret true
  else
    let* t := py_type vallist in
    if type_is_None t then
      let* _ := print (notset_str_constr name) in
      ret false
    else
      let* _ := print (notlist_str_constr name) in
      ret false.

(** The index list is the caller's own list of integers; its in-place sort is
    kept as the sorted sequence the rest of the function reads.  The caller's
    list object is no cell of the store: after the call it holds
    [sort_reverse idcs]. *)
Definition _rm_ov_by_idx (ov_dict_getter : val -> option string -> option string -> M val)
    (notset_str_constr notlist_str_constr : string -> string)
    (flow : val) (name : string) (idcs : list Z)
    (platform stage : option string) : M bool :=
  let idcs := sort_reverse idcs in
  if (length idcs =? 0)%nat then
    let* _ := print "Index list is emtpy!" in
    ret false
  else
    let* d := ov_dict_getter flow platform stage in
    let* vallist := py_get d name in
    let* t := py_type vallist in
    if is_list_type t then
      let* n := py_len vallist in
      if ((n <=? List.hd 0 idcs) || (List.last idcs 0 <? 0))%Z then
        let* _ := print ("Index out of range (max: " +:+ str_of_int n +:+ "!") in
        ret false
      else
        let* _ := for_each idcs (fun idx =>
                    let* _ := py_list_pop vallist idx in ret tt) in
        ret true
    else if is_None vallist then
      let* _ := print (notset_str_constr name) in
      ret false
    else
      let* _ := print (notlist_str_constr name) in
      ret false.

(** ** The raw aggregator *)

Definition _get_ovs_raw (dict_name : string) (flow_cfg : val)
    (platform stage : option string) : M val :=
  let* vals := py_get flow_cfg dict_name in
  let* vals := if is_None vals then alloc (ODict []) else ret vals in
  let* _ :=
    match platform with
    | Some p =>
        let* platform_dict := py_getitem flow_cfg p in
        let* platform_vals := py_get platform_dict dict_name in
        let* _ := if negb (is_None platform_vals)
                  then py_update vals platform_vals else ret tt in
        match stage with
        | Some st =>
            let* platform_dict := py_getitem flow_cfg p in
            let* stage_dict := py_getitem platform_dict st in
            let* stage_deps := py_get stage_dict dict_name in
            if negb (is_None stage_deps)
            then py_update vals stage_deps else ret tt
        | None => ret tt
        end
    | None => ret tt
    end in
  ret vals.

(** ** Removal wrappers, with the messages they print *)

Definition _remove_dependencies_by_values (flow : val) (name : string) (deps : val)
    (platform stage : option string) : M bool :=
  _rm_ov_by_values _get_dep_dict
    (fun dname => "Dependency `" +:+ dname +:+ "` is not set. Nothing to remove.")
    (fun dname => "Dependency `" +:+ dname +:+ "` is not a list! Use unsetd instead.")
    flow name deps platform stage.

Definition _remove_dependencies_by_idx (flow : val) (name : string) (idcs : list Z)
    (platform stage : option string) : M bool :=
  _rm_ov_by_idx _get_dep_dict
    (fun dname => "Dependency `" +:+ dname +:+ "` is not set. Nothing to remove.")
    (fun dname => "Dependency `" +:+ dname +:+ "` is not a list! Use unsetd instead.")
    flow name idcs platform stage.

Definition _remove_values_by_values (flow : val) (name : string) (deps : val)
    (platform stage : option string) : M bool :=
  _rm_ov_by_values _get_vals_dict
    (fun vname => "Value `" +:+ vname +:+ "` is not set. Nothing to remove.")
    (fun vname => "Value `" +:+ vname +:+ "` is not a list! Use unsetv instead.")
    flow name deps platform stage.

Definition _remove_values_by_idx (flow : val) (name : string) (idcs : list Z)
    (platform stage : option string) : M bool :=
  _rm_ov_by_idx _get_vals_dict
    (fun dname => "Dependency `" +:+ dname +:+ "` is not set. Nothing to remove.")
    (fun dname => "Dependency `" +:+ dname +:+ "` is not a list! Use unsetv instead.")
    flow name idcs platform stage.

Definition unset_dependency (flow : val) (name : string)
    (platform stage : option string) : M bool :=
  let* d := _get_dep_dict flow platform stage in
  let* v := py_get d name in
  if is_None v then
    let* _ := print ("Dependency `" +:+ name +:+ "` is not set!") in
    ret false
  else
    let* _ := py_dict_pop d name in
    ret true.

Definition _is_kword (w : string) : bool :=
  String.eqb w "dependencies" || String.eqb w "values" ||
  String.eqb w "default_platform" || String.eqb w "default_target".

(** [d.items()] of a dictionary. *)
Definition py_items (d : val) : M pydict :=
  fun s => match d with
           | VRef l => match heap s !! l with
                       | Some (ODict items) => (Ok items, s)
                       | _ => (Raise AttributeError, s)
                       end
           | _ => (Raise AttributeError, s)
           end.

(** ** Project flow configuration *)

Module ProjectFlowConfig.

Record t : Type := mk {
  flow_cfg : val;
  path : string
}.

Definition __init__ (path : string) : M t :=
  let* cfg := alloc (ODict []) in
  ret (mk cfg path).

(** The generator's yields, in order. *)
Definition platforms (self : t) : M (list string) :=
  let* items := py_items (flow_cfg self) in
  ret (filter (fun platform => negb (_is_kword platform)) (map fst items)).

Definition add_platform (self : t) (device : string) : M bool :=
  let* d := py_get (flow_cfg self) device in
  let* exists_already := py_truthy d in
  if exists_already then
    let* _ := print ("Device " +:+ device +:+ " already exists") in
    ret false
  else
    let* fresh := alloc (ODict []) in
    let* _ := py_setitem (flow_cfg self) device fresh in
    ret true.

Definition set_default_platform (self : t) (device : string) : M bool :=
  let* _ := py_setitem (flow_cfg self) "default_platform" (VStr device) in
  ret true.

Definition set_default_target (self : t) (platform target : string) : M bool :=
  let* platform_dict := py_getitem (flow_cfg self) platform in
  let* _ := py_setitem platform_dict "default_target" (VStr target) in
  ret true.

Definition get_default_platform (self : t) : M val :=
  py_get (flow_cfg self) "default_platform".

Definition get_default_target (self : t) (platform : string) : M val :=
  let* platform_dict := py_getitem (flow_cfg self) platform in
  py_get platform_dict "default_target".

Definition get_dependencies_raw (self : t) (platform : option string) : M val :=
  _get_ovs_raw "dependencies" (flow_cfg self) platform None.

Definition get_values_raw (self : t) (platform stage : option string) : M val :=
  _get_ovs_raw "values" (flow_cfg self) platform stage.

Definition get_stage_value_overrides (self : t) (platform stage : string) : M val :=
  let* platform_dict := py_getitem (flow_cfg self) platform in
  let* stage_cfg := py_get platform_dict stage in
  if is_None stage_cfg then alloc (ODict [])
  else
    let* stage_vals_ovds := py_get stage_cfg "values" in
    if is_None stage_vals_ovds then alloc (ODict [])
    else ret stage_vals_ovds.

Definition get_dependency_platform_overrides (self : t) (platform : string) : M val :=
  let* platform_dict := py_getitem (flow_cfg self) platform in
  let* platform_ovds := py_get platform_dict "dependencies" in
  if is_None platform_ovds then alloc (ODict [])
  else ret platform_ovds.

End ProjectFlowConfig.

(** ** Collaborators that are not among the sources *)

Module ResolutionEnv.

(** Modelled from the spec: the value-resolution environment (class
    [ResolutionEnv] of [f4pga.common], which is not among the sources).  It is
    an object that holds a mapping from names to values; [add_values] lays a
    mapping over it (later values override earlier ones for the same name,
    other names are kept), and copy-construction gives a new environment with
    the same mapping that shares no state with the original. *)
Record t : Type := mk { values : val }.

Definition add_values (self : t) (mapping : val) : M unit :=
  py_update (values self) mapping.

Definition __copy__ (self : t) : M t :=
  let* items := py_items (values self) in
  let* fresh := alloc (ODict items) in
  ret (mk fresh).

End ResolutionEnv.

Module Stage.

(** Modelled from the spec: the stage collaborator (class [Stage] of
    [f4pga.stage], which is not among the sources), of which the flow
    configuration uses the name and the mutable mapping of value overrides. *)
Record t : Type := mk {
  name : string;
  value_overrides : val
}.

End Stage.

(** ** Flow definition *)

Module FlowDefinition.

(** The stage dictionary is filled once by the constructor and only read
    afterwards; it is kept as the sequence of its items.  What is shared and
    mutated later are the stages' override mappings, which are store cells. *)
Record t : Type := mk {
  flow_def : val;
  r_env : ResolutionEnv.t;
  stages : list (string * Stage.t)
}.

Section Constructor.

(** The constructor of the absent [Stage] class: from the stage's name, its
    module reference and its options. *)
Variable new_Stage : string -> val -> val -> M Stage.t.

Fixpoint build_stages (modopts_d : val) (items : pydict) : M (list (string * Stage.t)) :=
  match items with
  | [] => ret []
  | (stage_name, modstr) :: rest =>
      let* opts := py_get modopts_d stage_name in
      let* stage := new_Stage stage_name modstr opts in
      let* others := build_stages modopts_d rest in
      ret ((stage_name, stage) :: others)
  end.

Definition __init__ (flow_def : val) (r_env : ResolutionEnv.t) : M t :=
  let* global_vals := py_get flow_def "values" in
  let* _ := if negb (is_None global_vals)
            then ResolutionEnv.add_values r_env global_vals else ret tt in
  let* stages_d := py_getitem flow_def "stages" in
  let* modopts_d := py_get flow_def "stage_options" in
  let* modopts_d := if is_None modopts_d then alloc (ODict []) else ret modopts_d in
  let* items := py_items stages_d in
  let* stages := build_stages modopts_d items in
  ret (mk flow_def r_env stages).

End Constructor.

Definition stage_names (self : t) : list string := map fst (stages self).

(** [self.stages[stage_name]] *)
Definition lookup_stage (stages : list (string * Stage.t)) (stage_name : string) : M Stage.t :=
  match find (fun entry => String.eqb stage_name (fst entry)) stages with
  | Some entry => ret (snd entry)
  | None => raise (KeyError stage_name)
  end.

Definition get_stage_r_env (self : t) (stage_name : string) : M ResolutionEnv.t :=
  let* stage := lookup_stage (stages self) stage_name in
  let* r_env := ResolutionEnv.__copy__ (r_env self) in
  let* _ := ResolutionEnv.add_values r_env (Stage.value_overrides stage) in
  ret r_env.

End FlowDefinition.

(** ** Flow configuration *)

Module FlowConfig.

Section WithResolver.

(** The resolved dependency mapping is the work of collaborators outside the
    sources: the environment's [resolve] and the expansion of every string to
    an absolute path.  Both read the environment and the raw mapping and
    return a new structure, whose type is left open here. *)
Variable Resolved : Type.
Variable resolve_paths : list obj -> ResolutionEnv.t -> val -> Resolved.

Record t : Type := mk {
  platform : string;
  r_env : ResolutionEnv.t;
  dependencies_explicit : Resolved;
  stages : list (string * Stage.t)
}.

Definition __init__ (project_config : ProjectFlowConfig.t)
    (platform_def : FlowDefinition.t) (platform : string) : M t :=
  let r_env := FlowDefinition.r_env platform_def in
  let* platform_vals :=
    ProjectFlowConfig.get_values_raw project_config (Some platform) None in
  let* _ := ResolutionEnv.add_values r_env platform_vals in
  let stages := FlowDefinition.stages platform_def in
  let* raw_project_deps :=
    ProjectFlowConfig.get_dependencies_raw project_config (Some platform) in
  let* h := get_heap in
  let dependencies_explicit := resolve_paths h r_env raw_project_deps in
  let* _ := for_each (FlowDefinition.stages platform_def) (fun entry =>
              let* project_val_ovds :=
                ProjectFlowConfig.get_stage_value_overrides
                  project_config platform (fst entry) in
              py_update (Stage.value_overrides (snd entry)) project_val_ovds) in
  ret (mk platform r_env dependencies_explicit stages).

Definition get_dependency_overrides (self : t) : Resolved :=
  dependencies_explicit self.

Definition get_r_env (self : t) (stage_name : string) : M ResolutionEnv.t :=
  let* stage := FlowDefinition.lookup_stage (stages self) stage_name in
  let* r_env := ResolutionEnv.__copy__ (r_env self) in
  let* _ := ResolutionEnv.add_values r_env (Stage.value_overrides stage) in
  ret r_env.

Definition get_stage (self : t) (stage_name : string) : M Stage.t :=
  FlowDefinition.lookup_stage (stages self) stage_name.

End WithResolver.

Arguments platform {Resolved} _.
Arguments r_env {Resolved} _.
Arguments dependencies_explicit {Resolved} _.
Arguments stages {Resolved} _.
Arguments __init__ {Resolved} _ _ _ _.
Arguments get_dependency_overrides {Resolved} _.
Arguments get_r_env {Resolved} _ _.
Arguments get_stage {Resolved} _ _.

End FlowConfig.

(** ** Reading the store *)

(** The document a value stands for: the tree reached from it in the store.
    The depth bound makes the reading total on stores with cycles. *)
#[local] Set Warnings "-register-all".
Inductive json : Type :=
| JNull
| JBool (b : bool)
| JInt (n : Z)
| JStr (s : string)
| JList (xs : list json)
| JDict (items : list (string * json)).

Fixpoint reify (depth : nat) (h : list obj) (v : val) : option json :=
  match depth with
  | O => None
  | S depth' =>
      match v with
      | VNone => Some JNull
      | VBool b => Some (JBool b)
      | VInt n => Some (JInt n)
      | VStr str => Some (JStr str)
      | VRef l =>
          match h !! l with
          | Some (OList xs) => JList <$> mapM (reify depth' h) xs
          | Some (ODict d) =>
              JDict <$> mapM (fun kv => pair (fst kv) <$> reify depth' h (snd kv)) d
          | None => None
          end
      end
  end.

(** The name-to-value map a scope holds under a slot kind: the dictionary the
    value refers to, or the empty map when the scope has none. *)
Definition slot_items (h : list obj) (v : val) : option pydict :=
  match v with
  | VNone => Some []
  | VRef l => match h !! l with
              | Some (ODict d) => Some d
              | _ => None
              end
  | _ => None
  end.

(** [v] is a cell of its own: if it is a reference, none of [others] is a
    reference to the same cell. *)
Definition apart (v : val) (others : list val) : Prop :=
  forall l, v = VRef l -> VRef l ∉ others.

(** What remains of a list once the positions [idcs] are taken out, the first
    element counting as position [k]. *)
Fixpoint keep_from {A} (k : Z) (idcs : list Z) (l : list A) : list A :=
  match l with
  | [] => []
  | x :: rest =>
      if existsb (Z.eqb k) idcs then keep_from (k + 1) idcs rest
      else x :: keep_from (k + 1) idcs rest
  end.

Definition remove_positions {A} (idcs : list Z) (l : list A) : list A :=
  keep_from 0 idcs l.

(** What remains of [elems] once every element that equals one of [vs] is
    taken out: order and the other duplicates are kept. *)
Definition keep_unless_in (vs elems : list val) : list val :=
  List.filter (fun v => negb (existsb (py_eqb v) vs)) elems.

(** The state after a run, and its result. *)
Definition result_of {A} (r : outcome A * state) : outcome A := fst r.
Definition state_of {A} (r : outcome A * state) : state := snd r.


(** ** What the construction of a flow configuration reads and writes *)

(** The cells a list of values refers to. *)
Definition ref_cells (vs : list val) : list nat :=
  omap (fun v => match v with VRef l => Some l | _ => None end) vs.

(** The value overrides a project document holds for a stage of a platform
    (the platform's map being [pitems]): the stage's [values] map, or the
    empty map when the platform has no such stage or the stage no values. *)
Definition stage_values (h : list obj) (pitems : pydict) (stage_name : string)
  : option pydict :=
  match default VNone (dict_get stage_name pitems) with
  | VNone => Some []
  | VRef sl =>
      match h !! sl with
      | Some (ODict sitems) => slot_items h (default VNone (dict_get "values" sitems))
      | _ => None
      end
  | _ => None
  end.

(** The cells [stage_values] reads. *)
Definition stage_cells (h : list obj) (pitems : pydict) (stage_name : string)
  : list nat :=
  match default VNone (dict_get stage_name pitems) with
  | VRef sl =>
      sl :: match h !! sl with
            | Some (ODict sitems) => ref_cells [default VNone (dict_get "values" sitems)]
            | _ => []
            end
  | _ => []
  end.

(** A stage of a flow definition whose override mapping is a dictionary of
    the store and whose project-level overrides can be read. *)
Definition stage_ready (h : list obj) (pitems : pydict) (entry : string * Stage.t) : Prop :=
  exists vo ov proj,
    Stage.value_overrides (snd entry) = VRef vo /\
    h !! vo = Some (ODict ov) /\
    stage_values h pitems (fst entry) = Some proj.

(** The cells that hold the override mappings of the stages. *)
Definition stage_override_cells (stages : list (string * Stage.t)) : list nat :=
  omap (fun entry => match Stage.value_overrides (snd entry) with
                     | VRef l => Some l
                     | _ => None
                     end) stages.

(** The cells the construction of a flow configuration writes: the
    environment's mapping, the document's global [values] and [dependencies]
    maps (the raw getters update them in place), and the override mappings of
    the stages. *)
Definition init_written (root : pydict) (D : FlowDefinition.t) (e : nat) : list nat :=
  e :: ref_cells [default VNone (dict_get "values" root);
                  default VNone (dict_get "dependencies" root)]
    ++ stage_override_cells (FlowDefinition.stages D).

(** A store in which a flow configuration can be constructed from the project
    configuration [cfg], the flow definition [D] and the platform [p]: the
    document has the platform, its slot maps are dictionaries, the
    environment and the stages' overrides are dictionaries, and the written
    cells are distinct objects, apart from the cells that are only read. *)
Record init_ready (h : list obj) (cfg : ProjectFlowConfig.t) (D : FlowDefinition.t)
    (p : string) (flow pl e : nat)
    (root pitems gvals pvals gdeps pdeps base : pydict) : Prop := mk_init_ready {
  ready_cfg : ProjectFlowConfig.flow_cfg cfg = VRef flow;
  ready_root : h !! flow = Some (ODict root);
  ready_platform : dict_get p root = Some (VRef pl);
  ready_pitems : h !! pl = Some (ODict pitems);
  ready_gvals : slot_items h (default VNone (dict_get "values" root)) = Some gvals;
  ready_pvals : slot_items h (default VNone (dict_get "values" pitems)) = Some pvals;
  ready_gdeps : slot_items h (default VNone (dict_get "dependencies" root)) = Some gdeps;
  ready_pdeps : slot_items h (default VNone (dict_get "dependencies" pitems)) = Some pdeps;
  ready_env : ResolutionEnv.values (FlowDefinition.r_env D) = VRef e;
  ready_base : h !! e = Some (ODict base);
  ready_stages : Forall (stage_ready h pitems) (FlowDefinition.stages D);
  ready_written : NoDup (init_written root D e);
  ready_apart : forall l, l ∈ init_written root D e ->
      l <> flow /\ l <> pl /\
      default VNone (dict_get "values" pitems) <> VRef l /\
      default VNone (dict_get "dependencies" pitems) <> VRef l /\
      forall entry, entry ∈ FlowDefinition.stages D -> l ∉ stage_cells h pitems (fst entry)
}.

(** ** Example documents *)

(** [{"p": {}}]: one platform, nothing else. *)
Definition doc_one_platform : state :=
  mkState [ODict [("p", VRef 1)]; ODict []] [].

(** [{"values": {"X": [1, 2]}, "p": {"values": {"X": [3]}}}], and after the
    document an empty mapping that serves as an environment's own. *)
Definition doc_global_and_platform : state :=
  mkState [ODict [("values", VRef 1); ("p", VRef 3)];
           ODict [("X", VRef 2)];
           OList [VInt 1; VInt 2];
           ODict [("values", VRef 4)];
           ODict [("X", VRef 5)];
           OList [VInt 3];
           ODict []] [].

(** [{"values": {"X": ["a"]}}] *)
Definition doc_single_value : state :=
  mkState [ODict [("values", VRef 1)]; ODict [("X", VRef 2)]; OList [VStr "a"]] [].

(** [{"values": {"X": ["a", "b", "c", "d"]}}] *)
Definition doc_four_values : state :=
  mkState [ODict [("values", VRef 1)]; ODict [("X", VRef 2)];
           OList [VStr "a"; VStr "b"; VStr "c"; VStr "d"]] [].

(** [{"values": {}}], and after the document the list [["a"]] of a caller. *)
Definition doc_empty_values : state :=
  mkState [ODict [("values", VRef 1)]; ODict []; OList [VStr "a"]] [].

(** [{}]: the document of a new project configuration. *)
Definition doc_empty : state := mkState [ODict []] [].

(** The project configuration whose document is cell 0. *)
Definition cfg0 : ProjectFlowConfig.t := ProjectFlowConfig.mk (VRef 0) "flow.json".

(** [{"values": {}}], and after the document two lists of a caller. *)
Definition doc_empty_values_two_lists : state :=
  mkState [ODict [("values", VRef 1)]; ODict [];
           OList [VStr "a"; VStr "b"]; OList [VStr "b"; VStr "c"]] [].

(** [{"values": {"X": [1, 2], "W": [0]},
      "p": {"values": {"X": [3]}, "s": {"values": {"X": [4], "Y": [5]}}}}] *)
Definition doc_three_scopes : state :=
  mkState [ODict [("values", VRef 1); ("p", VRef 4)];
           ODict [("X", VRef 2); ("W", VRef 3)];
           OList [VInt 1; VInt 2];
           OList [VInt 0];
           ODict [("values", VRef 5); ("s", VRef 7)];
           ODict [("X", VRef 6)];
           OList [VInt 3];
           ODict [("values", VRef 8)];
           ODict [("X", VRef 9); ("Y", VRef 10)];
           OList [VInt 4];
           OList [VInt 5]] [].

(** A project document [{"p": {"values": {"Y": 2}, "s": {"values": {"Y": 3}}}}]
    (cells 0 to 4), the mapping [{"Y": 1, "Z": 9}] of a flow definition's
    environment (cell 5), the empty override mapping of its stage [s]
    (cell 6) and its pipeline template (cells 7 and 8). *)
Definition doc_flow_precedence : state :=
  mkState [ODict [("p", VRef 1)];
           ODict [("values", VRef 2); ("s", VRef 3)];
           ODict [("Y", VInt 2)];
           ODict [("values", VRef 4)];
           ODict [("Y", VInt 3)];
           ODict [("Y", VInt 1); ("Z", VInt 9)];
           ODict [];
           ODict [("stages", VRef 8)];
           ODict [("s", VStr "synth")]] [].

(** The flow definition that goes with [doc_flow_precedence]. *)
Definition flow_def_one_stage : FlowDefinition.t :=
  FlowDefinition.mk (VRef 7) (ResolutionEnv.mk (VRef 5)) [("s", Stage.mk "s" (VRef 6))].

(** A project document [{"p": {"values": {"Y": 2}}, "q": {"values": {"W": 7}}}]
    with two platforms (cells 0 to 4), followed by the same flow definition
    cells as in [doc_flow_precedence]. *)
Definition doc_two_platforms : state :=
  mkState [ODict [("p", VRef 1); ("q", VRef 3)];
           ODict [("values", VRef 2)];
           ODict [("Y", VInt 2)];
           ODict [("values", VRef 4)];
           ODict [("W", VInt 7)];
           ODict [("Y", VInt 1); ("Z", VInt 9)];
           ODict [];
           ODict [("stages", VRef 8)];
           ODict [("s", VStr "synth")]] [].

(** [doc_two_platforms] once a flow configuration has been constructed for
    platform [p]: the environment's mapping (cell 5) has [p]'s value of [Y],
    and the three mappings the construction made are cells 9 to 11. *)
Definition doc_two_platforms_after_p : state :=
  mkState [ODict [("p", VRef 1); ("q", VRef 3)];
           ODict [("values", VRef 2)];
           ODict [("Y", VInt 2)];
           ODict [("values", VRef 4)];
           ODict [("W", VInt 7)];
           ODict [("Y", VInt 2); ("Z", VInt 9)];
           ODict [];
           ODict [("stages", VRef 8)];
           ODict [("s", VStr "synth")];
           ODict [("Y", VInt 2)];
           ODict [];
           ODict []] [].

(** [{"values": {"X": ["a", "b", "a", "c"]}}], and after the document the
    list [["a", "z"]] of a caller. *)
Definition doc_values_with_repeats : state :=
  mkState [ODict [("values", VRef 1)]; ODict [("X", VRef 2)];
           OList [VStr "a"; VStr "b"; VStr "a"; VStr "c"];
           OList [VStr "a"; VStr "z"]] [].


(** [{"dependencies": {"build_dir": "build", "xdc": ["a.xdc"]}}] *)
Definition doc_two_dependencies : state :=
  mkState [ODict [("dependencies", VRef 1)];
           ODict [("build_dir", VStr "build"); ("xdc", VRef 2)];
           OList [VStr "a.xdc"]] [].

(** [{"default_platform": "q", "p": {"default_target": "bitstream"}, "q": {}}] *)
Definition doc_defaults : state :=
  mkState [ODict [("default_platform", VStr "q"); ("p", VRef 1); ("q", VRef 2)];
           ODict [("default_target", VStr "bitstream")];
           ODict []] [].

(** [{"values": {"X": ["a"], "E": []}}], and after the document a list that
    holds a list. *)
Definition doc_nested_values : state :=
  mkState [ODict [("values", VRef 1)]; ODict [("X", VRef 2); ("E", VRef 3)];
           OList [VStr "a"]; OList []; OList [VRef 2]] [].

(** The positions the elements [ys] take when they are added at the end of
    [elems]. *)
Definition appended_positions (elems ys : list val) : list Z :=
  map Z.of_nat (seq (length elems) (length ys)).

(** A pipeline template [{"values": {"Y": 1}, "stages": {"synth": "synth",
    "route": "route"}, "stage_options": {"route": {}}}] (cells 0 to 4) and the
    mapping [{"Z": 9}] of the environment a flow definition is given
    (cell 5). *)
Definition doc_template : state :=
  mkState [ODict [("values", VRef 1); ("stages", VRef 2); ("stage_options", VRef 3)];
           ODict [("Y", VInt 1)];
           ODict [("synth", VStr "synth"); ("route", VStr "route")];
           ODict [("route", VRef 4)];
           ODict [];
           ODict [("Z", VInt 9)]] [].

(** A stand-in for the stage constructor: a stage with the given name and a
    new empty override mapping. *)
Definition new_stage_with_empty_overrides (stage_name : string) (modstr opts : val)
  : M Stage.t :=
  let* overrides := alloc (ODict []) in
  ret (Stage.mk stage_name overrides).

(** * Properties *)

(** ** Dictionaries *)

Lemma dict_get_set_eq k v d : dict_get k (dict_set k v d) = Some v.
Proof.
  induction d as [|[k' v'] d IH]; simpl.
  - by rewrite String.eqb_refl.
  - destruct (String.eqb k k') eqn:E; simpl; [by rewrite String.eqb_refl | by rewrite E].
Qed.

Lemma dict_get_set_ne k k' v d : k <> k' -> dict_get k' (dict_set k v d) = dict_get k' d.
Proof.
  intros Hne. induction d as [|[k1 v1] d IH]; simpl.
  - destruct (String.eqb k' k) eqn:E; [|done]. apply String.eqb_eq in E. congruence.
  - destruct (String.eqb k k1) eqn:E; simpl.
    + apply String.eqb_eq in E. subst k1.
      destruct (String.eqb k' k) eqn:E'; [|done]. apply String.eqb_eq in E'. congruence.
    + by rewrite IH.
Qed.

Lemma dict_set_absent k v d : dict_get k d = None -> dict_set k v d = d ++ [(k, v)].
Proof.
  induction d as [|[k1 v1] d IH]; simpl; [done|].
  destruct (String.eqb k k1); [done|]. intros H. by rewrite IH.
Qed.

Lemma dict_get_None_keys k d : dict_get k d = None <-> k ∉ map fst d.
Proof.
  induction d as [|[k1 v1] d IH]; simpl.
  - split; [intros _; apply not_elem_of_nil | done].
  - destruct (String.eqb k k1) eqn:E.
    + apply String.eqb_eq in E. subst. split; [done|]. intros H. exfalso. apply H. left.
    + apply String.eqb_neq in E. rewrite IH. rewrite not_elem_of_cons. tauto.
Qed.

Lemma dict_get_update k d e :
  NoDup (map fst e) ->
  dict_get k (dict_update d e) =
    match dict_get k e with Some v => Some v | None => dict_get k d end.
Proof.
  unfold dict_update. revert d. induction e as [|[k1 v1] e IH]; intros d Hnd; simpl; [done|].
  apply NoDup_cons in Hnd as [Hk1 Hnd]. rewrite IH by done.
  destruct (String.eqb k k1) eqn:E.
  - apply String.eqb_eq in E. subst k1.
    simpl in Hk1. apply dict_get_None_keys in Hk1. rewrite Hk1. apply dict_get_set_eq.
  - apply String.eqb_neq in E. destruct (dict_get k e); [done|].
    apply dict_get_set_ne. congruence.
Qed.

(** ** Running the primitives *)

Lemma lookup_alloc_old (h : list obj) o l x : h !! l = Some x -> (h ++ [o]) !! l = Some x.
Proof. apply lookup_app_l_Some. Qed.

Lemma lookup_alloc_new (h : list obj) o : (h ++ [o]) !! length h = Some o.
Proof. rewrite lookup_app_r by lia. by rewrite Nat.sub_diag. Qed.

Lemma bind_ok {A B} (m : M A) (k : A -> M B) s a s' :
  m s = (Ok a, s') -> bind m k s = k a s'.
Proof. intros H. unfold bind. by rewrite H. Qed.

Lemma bind_raise {A B} (m : M A) (k : A -> M B) s e s' :
  m s = (Raise e, s') -> bind m k s = (Raise e, s').
Proof. intros H. unfold bind. by rewrite H. Qed.

Lemma py_get_dict l k items s :
  heap s !! l = Some (ODict items) ->
  py_get (VRef l) k s = (Ok (default VNone (dict_get k items)), s).
Proof. intros H. unfold py_get. by rewrite H. Qed.

Lemma py_getitem_dict l k items v s :
  heap s !! l = Some (ODict items) -> dict_get k items = Some v ->
  py_getitem (VRef l) k s = (Ok v, s).
Proof. intros H Hk. unfold py_getitem. by rewrite H, Hk. Qed.

Lemma py_getitem_absent l k items s :
  heap s !! l = Some (ODict items) -> dict_get k items = None ->
  py_getitem (VRef l) k s = (Raise (KeyError k), s).
Proof. intros H Hk. unfold py_getitem. by rewrite H, Hk. Qed.

Lemma py_setitem_dict l k v items s :
  heap s !! l = Some (ODict items) ->
  py_setitem (VRef l) k v s =
    (Ok tt, mkState (<[l := ODict (dict_set k v items)]> (heap s)) (stdout s)).
Proof. intros H. unfold py_setitem. by rewrite H. Qed.

(** [_get_lazy_dict] on a dictionary without the entry: a new empty map is
    stored under the name and returned. *)
Lemma get_lazy_dict_creates l name items s :
  heap s !! l = Some (ODict items) ->
  default VNone (dict_get name items) = VNone ->
  _get_lazy_dict (VRef l) name s =
    (Ok (VRef (length (heap s))),
     mkState (<[l := ODict (dict_set name (VRef (length (heap s))) items)]>
                (heap s ++ [ODict []])) (stdout s)).
Proof.
  intros H Hn. unfold _get_lazy_dict.
  rewrite (bind_ok _ _ _ _ _ (py_get_dict _ _ _ _ H)). rewrite Hn. simpl.
  unfold bind at 1. unfold alloc at 1.
  rewrite (bind_ok _ _ _ tt (mkState (<[l := ODict (dict_set name (VRef (length (heap s))) items)]>
                (heap s ++ [ODict []])) (stdout s))).
  - done.
  - rewrite (py_setitem_dict l _ _ items); [done|]. simpl. by apply lookup_alloc_old.
Qed.

Lemma get_lazy_dict_existing l name items v s :
  heap s !! l = Some (ODict items) ->
  dict_get name items = Some v -> is_None v = false ->
  _get_lazy_dict (VRef l) name s = (Ok v, s).
Proof.
  intros H Hk Hv. unfold _get_lazy_dict.
  rewrite (bind_ok _ _ _ _ _ (py_get_dict _ _ _ _ H)). rewrite Hk. simpl. by rewrite Hv.
Qed.

(** ** Scope access *)






Section RemovalByIndex.

Local Open Scope Z_scope.

(** ** Sorting the index list *)

Lemma insert_desc_elem x y l : y ∈ insert_desc x l <-> y = x \/ y ∈ l.
Proof.
  induction l as [|z l IH]; simpl.
  - rewrite list_elem_of_singleton. rewrite elem_of_nil. tauto.
  - destruct (z <=? x); rewrite !elem_of_cons; [tauto|]. rewrite IH. tauto.
Qed.

Lemma sort_reverse_elem y l : y ∈ sort_reverse l <-> y ∈ l.
Proof.
  induction l as [|x l IH]; simpl; [done|].
  rewrite insert_desc_elem, IH, elem_of_cons. tauto.
Qed.

Lemma insert_desc_sorted x l :
  StronglySorted (fun a b => b <= a) l -> StronglySorted (fun a b => b <= a) (insert_desc x l).
Proof.
  induction 1 as [|z l Hs IH Hall]; simpl.
  - constructor; constructor.
  - destruct (z <=? x) eqn:E.
    + apply Z.leb_le in E. constructor; [by constructor|].
      constructor; [done|]. eapply Forall_impl; [exact Hall|]. simpl. intros. lia.
    + apply Z.leb_gt in E. constructor; [done|].
      apply Forall_forall. intros y Hy. apply insert_desc_elem in Hy as [->|Hy]; [lia|].
      rewrite Forall_forall in Hall. by apply Hall.
Qed.

Lemma sort_reverse_sorted l : StronglySorted (fun a b => b <= a) (sort_reverse l).
Proof.
  induction l as [|x l IH]; simpl; [constructor|]. by apply insert_desc_sorted.
Qed.

Lemma insert_desc_NoDup x l : x ∉ l -> NoDup l -> NoDup (insert_desc x l).
Proof.
  induction l as [|z l IH]; simpl; intros Hx Hnd.
  - apply NoDup_singleton.
  - destruct (z <=? x).
    + by constructor.
    + apply NoDup_cons in Hnd as [Hz Hnd]. apply not_elem_of_cons in Hx as [Hxz Hx].
      constructor; [|by apply IH]. rewrite insert_desc_elem. intros [->|?]; done.
Qed.

Lemma sort_reverse_NoDup l : NoDup l -> NoDup (sort_reverse l).
Proof.
  induction 1 as [|x l Hx Hnd IH]; simpl; [constructor|].
  apply insert_desc_NoDup; [by rewrite sort_reverse_elem | done].
Qed.

Lemma sorted_NoDup_strict l :
  StronglySorted (fun a b => b <= a) l -> NoDup l -> StronglySorted (fun a b => b < a) l.
Proof.
  induction 1 as [|z l Hs IH Hall]; intros Hnd; [constructor|].
  apply NoDup_cons in Hnd as [Hz Hnd]. constructor; [by apply IH|].
  rewrite Forall_forall in *. intros y Hy. specialize (Hall y Hy).
  assert (y <> z) by (intros ->; done). lia.
Qed.

Lemma sorted_hd_max l x :
  StronglySorted (fun a b => b <= a) l -> x ∈ l -> x <= List.hd 0 l.
Proof.
  intros Hs Hx. destruct Hs as [|z l Hs Hall]; [by apply elem_of_nil in Hx|]. simpl.
  apply elem_of_cons in Hx as [->|Hx]; [lia|]. rewrite Forall_forall in Hall. by apply Hall.
Qed.

Lemma last_elem (l : list Z) : l <> [] -> List.last l 0 ∈ l.
Proof.
  induction l as [|a l IH]; [done|]. intros _. destruct l as [|b l]; simpl; [left|].
  right. apply IH. done.
Qed.

Lemma sorted_last_min l x :
  StronglySorted (fun a b => b <= a) l -> x ∈ l -> List.last l 0 <= x.
Proof.
  induction 1 as [|z l Hs IH Hall]; intros Hx; [by apply elem_of_nil in Hx|].
  rewrite Forall_forall in Hall.
  destruct l as [|w l]; simpl.
  - apply list_elem_of_singleton in Hx. lia.
  - apply elem_of_cons in Hx as [->|Hx]; [|by apply IH].
    apply (Hall (List.last (w :: l) 0)). by apply last_elem.
Qed.

Lemma hd_elem (l : list Z) : l <> [] -> List.hd 0 l ∈ l.
Proof. destruct l; [done|]. intros _. left. Qed.

(** ** Taking positions out of a list *)

Lemma existsb_eqb_elem k (idcs : list Z) : existsb (Z.eqb k) idcs = true <-> k ∈ idcs.
Proof.
  rewrite existsb_exists. split.
  - intros (x & Hin & E). apply Z.eqb_eq in E. subst. by apply list_elem_of_In.
  - intros H. exists k. split; [by apply list_elem_of_In | apply Z.eqb_refl].
Qed.

Lemma keep_from_ext {A} k (a b : list Z) (l : list A) :
  (forall x, x ∈ a <-> x ∈ b) -> keep_from k a l = keep_from k b l.
Proof.
  intros Hab. revert k. induction l as [|y l IH]; intros k; simpl; [done|].
  assert (E : existsb (Z.eqb k) a = existsb (Z.eqb k) b).
  { apply eq_true_iff_eq. rewrite !existsb_eqb_elem. apply Hab. }
  rewrite E, IH. done.
Qed.

Lemma keep_from_all_below {A} k (idcs : list Z) (l : list A) :
  (forall j, j ∈ idcs -> j < k) -> keep_from k idcs l = l.
Proof.
  revert k. induction l as [|y l IH]; intros k Hlt; simpl; [done|].
  destruct (existsb (Z.eqb k) idcs) eqn:E.
  - apply existsb_eqb_elem in E. apply Hlt in E. lia.
  - rewrite IH; [done|]. intros j Hj. apply Hlt in Hj. lia.
Qed.

Lemma keep_from_delete {A} (l : list A) k (n : nat) (rest : list Z) :
  (n < length l)%nat ->
  (forall j, j ∈ rest -> j < k + Z.of_nat n) ->
  keep_from k rest (delete n l) = keep_from k ((k + Z.of_nat n) :: rest) l.
Proof.
  revert k n. induction l as [|y l IH]; intros k n Hn Hrest; simpl in Hn; [lia|].
  destruct n as [|n].
  - change (Z.of_nat 0) with 0 in *. rewrite Z.add_0_r in *. simpl.
    rewrite Z.eqb_refl. simpl.
    rewrite keep_from_all_below by done.
    rewrite keep_from_all_below; [done|].
    intros j Hj. apply elem_of_cons in Hj as [->|Hj]; [lia|]. apply Hrest in Hj. lia.
  - remember (k + Z.of_nat (S n)) as i eqn:Hi. simpl.
    assert (E : (k =? i) = false) by (apply Z.eqb_neq; lia).
    rewrite E. simpl.
    assert (IH' : keep_from (k + 1) rest (delete n l) = keep_from (k + 1) (i :: rest) l).
    { replace i with ((k + 1) + Z.of_nat n) by lia.
      apply IH; [lia|]. intros j Hj. apply Hrest in Hj. lia. }
    rewrite IH'. done.
Qed.

(** ** Removal by index *)

Lemma state_eta s : mkState (heap s) (stdout s) = s.
Proof. by destruct s. Qed.

Lemma py_type_list vl elems s :
  heap s !! vl = Some (OList elems) -> py_type (VRef vl) s = (Ok TyList, s).
Proof. intros H. unfold py_type. by rewrite H. Qed.

Lemma py_len_list vl elems s :
  heap s !! vl = Some (OList elems) ->
  py_len (VRef vl) s = (Ok (Z.of_nat (length elems)), s).
Proof. intros H. unfold py_len. by rewrite H. Qed.

Lemma py_list_pop_in_range vl elems i s :
  heap s !! vl = Some (OList elems) ->
  0 <= i < Z.of_nat (length elems) ->
  py_list_pop (VRef vl) i s =
    (Ok (default VNone (elems !! Z.to_nat i)),
     mkState (<[vl := OList (delete (Z.to_nat i) elems)]> (heap s)) (stdout s)).
Proof.
  intros H Hi. unfold py_list_pop. rewrite H. cbv zeta.
  assert (E1 : (i <? 0) = false) by (apply Z.ltb_ge; lia).
  assert (E2 : (Z.of_nat (length elems) <=? i) = false) by (apply Z.leb_gt; lia).
  rewrite E1. cbn match. rewrite E1, E2. reflexivity.
Qed.

Lemma pops_descending vl idcs : forall elems s,
  StronglySorted (fun a b => b < a) idcs ->
  (forall i, i ∈ idcs -> 0 <= i < Z.of_nat (length elems)) ->
  heap s !! vl = Some (OList elems) ->
  for_each idcs (fun idx => let* _ := py_list_pop (VRef vl) idx in ret tt) s
    = (Ok tt, mkState (<[vl := OList (keep_from 0 idcs elems)]> (heap s)) (stdout s)).
Proof.
  induction idcs as [|i rest IH]; intros elems s Hs Hrange Hvl.
  - simpl. unfold ret. rewrite keep_from_all_below by (intros j Hj; by apply elem_of_nil in Hj).
    rewrite list_insert_id by done. by rewrite state_eta.
  - apply StronglySorted_inv in Hs as [Hs Hall]. rewrite Forall_forall in Hall.
    assert (Hi : 0 <= i < Z.of_nat (length elems)) by (apply Hrange; left).
    assert (Hlt : (vl < length (heap s))%nat) by (by apply lookup_lt_Some in Hvl).
    cbn [for_each].
    rewrite (bind_ok _ _ s tt
               (mkState (<[vl := OList (delete (Z.to_nat i) elems)]> (heap s)) (stdout s))).
    2:{ by rewrite (bind_ok _ _ _ _ _ (py_list_pop_in_range _ _ _ _ Hvl Hi)). }
    rewrite (IH (delete (Z.to_nat i) elems)).
    + simpl. rewrite list_insert_insert_eq.
      rewrite (keep_from_delete elems 0 (Z.to_nat i) rest).
      * rewrite Z2Nat.id by lia. done.
      * lia.
      * intros j Hj. rewrite Z2Nat.id by lia. specialize (Hall j Hj). lia.
    + done.
    + intros j Hj. rewrite length_delete by (apply lookup_lt_is_Some; lia).
      specialize (Hall j Hj).
      assert (0 <= j < Z.of_nat (length elems)) by (apply Hrange; by right). lia.
    + simpl. by rewrite list_lookup_insert_eq.
Qed.

Lemma sort_reverse_nonempty idcs : idcs <> [] -> sort_reverse idcs <> [].
Proof.
  destruct idcs as [|i idcs]; [done|]. intros _ E.
  assert (H : i ∈ sort_reverse (i :: idcs)) by (apply sort_reverse_elem; left).
  rewrite E in H. by apply elem_of_nil in H.
Qed.

(** C3.  Removal by index on a slot that holds a list, for any accessor that
    returns the slot's map: with an empty index list it fails, printing that
    the index list is empty, before anything is looked up; with distinct
    indices that all lie in [0, len-1] it succeeds and leaves in the list
    exactly the elements at the other positions, in their order; if any index
    lies outside [0, len-1] it fails, printing that the index is out of range,
    and the store is as the accessor left it, the list unchanged. *)
Theorem rm_ov_by_idx_spec
    (getter : val -> option string -> option string -> M val)
    (notset notlist : string -> string) (flow : val) (name : string)
    (platform stage : option string) :
  (forall s,
     _rm_ov_by_idx getter notset notlist flow name [] platform stage s
       = (Ok false, mkState (heap s) (stdout s ++ ["Index list is emtpy!"])))
  /\
  (forall idcs s s1 d items vl elems,
     idcs <> [] ->
     getter flow platform stage s = (Ok (VRef d), s1) ->
     heap s1 !! d = Some (ODict items) ->
     dict_get name items = Some (VRef vl) ->
     heap s1 !! vl = Some (OList elems) ->
     (NoDup idcs ->
      (forall i, i ∈ idcs -> 0 <= i <= Z.of_nat (length elems) - 1) ->
      _rm_ov_by_idx getter notset notlist flow name idcs platform stage s
        = (Ok true,
           mkState (<[vl := OList (remove_positions idcs elems)]> (heap s1)) (stdout s1)))
     /\
     ((exists i, i ∈ idcs /\ ~ (0 <= i <= Z.of_nat (length elems) - 1)) ->
      _rm_ov_by_idx getter notset notlist flow name idcs platform stage s
        = (Ok false,
           mkState (heap s1)
             (stdout s1 ++ ["Index out of range (max: "
                            +:+ str_of_int (Z.of_nat (length elems)) +:+ "!"])))).
Proof.
  split.
  - intros s. reflexivity.
  - intros idcs s s1 d items vl elems Hne Hget Hd Hname Hvl.
    assert (Hsne := sort_reverse_nonempty idcs Hne).
    assert (Hlen : (length (sort_reverse idcs) =? 0)%nat = false).
    { destruct (sort_reverse idcs); [done|]. reflexivity. }
    assert (Hrun :
      _rm_ov_by_idx getter notset notlist flow name idcs platform stage s
      = (if (Z.of_nat (length elems) <=? List.hd 0 (sort_reverse idcs))
            || (List.last (sort_reverse idcs) 0 <? 0)
         then
           let* _ := print ("Index out of range (max: "
                            +:+ str_of_int (Z.of_nat (length elems)) +:+ "!") in
           ret false
         else
           let* _ := for_each (sort_reverse idcs) (fun idx =>
                       let* _ := py_list_pop (VRef vl) idx in ret tt) in
           ret true) s1).
    { unfold _rm_ov_by_idx. cbv zeta. rewrite Hlen.
      rewrite (bind_ok _ _ _ _ _ Hget).
      rewrite (bind_ok _ _ _ _ _ (py_get_dict _ name _ _ Hd)). rewrite Hname. simpl.
      rewrite (bind_ok _ _ _ _ _ (py_type_list _ _ _ Hvl)). simpl.
      rewrite (bind_ok _ _ _ _ _ (py_len_list _ _ _ Hvl)). done. }
    split.
    + intros Hnd Hrange. rewrite Hrun.
      assert (E1 : (Z.of_nat (length elems) <=? List.hd 0 (sort_reverse idcs)) = false).
      { apply Z.leb_gt. assert (H := hd_elem _ Hsne). apply (proj1 (sort_reverse_elem _ _)) in H.
        apply Hrange in H. lia. }
      assert (E2 : (List.last (sort_reverse idcs) 0 <? 0) = false).
      { apply Z.ltb_ge. assert (H := last_elem _ Hsne). apply (proj1 (sort_reverse_elem _ _)) in H.
        apply Hrange in H. lia. }
      rewrite E1, E2. simpl.
      rewrite (bind_ok _ _ s1 tt
        (mkState (<[vl := OList (keep_from 0 (sort_reverse idcs) elems)]> (heap s1)) (stdout s1))).
      * unfold ret, remove_positions.
        rewrite (keep_from_ext 0 (sort_reverse idcs) idcs); [done|].
        intros x. apply sort_reverse_elem.
      * apply pops_descending; [| |done].
        -- apply sorted_NoDup_strict; [apply sort_reverse_sorted | by apply sort_reverse_NoDup].
        -- intros i Hi. apply (proj1 (sort_reverse_elem _ _)) in Hi. apply Hrange in Hi. lia.
    + intros (i & Hi & Hout). rewrite Hrun.
      assert (E : (Z.of_nat (length elems) <=? List.hd 0 (sort_reverse idcs))
                  || (List.last (sort_reverse idcs) 0 <? 0) = true).
      { apply orb_true_iff. apply (proj2 (sort_reverse_elem _ _)) in Hi.
        destruct (Z_lt_dec i 0) as [Hneg|Hpos].
        - right. apply Z.ltb_lt.
          assert (H := sorted_last_min _ _ (sort_reverse_sorted idcs) Hi). lia.
        - left. apply Z.leb_le.
          assert (H := sorted_hd_max _ _ (sort_reverse_sorted idcs) Hi). lia. }
      rewrite E. reflexivity.
Qed.

Lemma rm_ov_by_idx_spec_witness :
  _remove_values_by_idx (VRef 0) "X" [0; 2] None None doc_four_values
    = (Ok true,
       mkState [ODict [("values", VRef 1)]; ODict [("X", VRef 2)];
                OList [VStr "b"; VStr "d"]] [])
  /\ _remove_values_by_idx (VRef 0) "X" [0; 7] None None doc_four_values
    = (Ok false,
       mkState (heap doc_four_values) ["Index out of range (max: 4!"]).
Proof.
  destruct (rm_ov_by_idx_spec _get_vals_dict
              (fun dname => "Dependency `" +:+ dname +:+ "` is not set. Nothing to remove.")
              (fun dname => "Dependency `" +:+ dname +:+ "` is not a list! Use unsetv instead.")
              (VRef 0) "X" None None) as [_ H].
  split.
  - destruct (H [0; 2] doc_four_values doc_four_values 1%nat [("X", VRef 2)] 2%nat
                [VStr "a"; VStr "b"; VStr "c"; VStr "d"]
                ltac:(discriminate) eq_refl eq_refl eq_refl eq_refl) as [Hok _].
    apply Hok.
    + apply NoDup_cons. split; [|apply NoDup_singleton].
      intros Hin. apply list_elem_of_singleton in Hin. discriminate.
    + intros i Hi. simpl.
      apply elem_of_cons in Hi as [->|Hi]; [lia|].
      apply list_elem_of_singleton in Hi. subst. lia.
  - destruct (H [0; 7] doc_four_values doc_four_values 1%nat [("X", VRef 2)] 2%nat
                [VStr "a"; VStr "b"; VStr "c"; VStr "d"]
                ltac:(discriminate) eq_refl eq_refl eq_refl eq_refl) as [_ Hbad].
    apply Hbad. exists 7. split; [right; left|]. simpl. lia.
Defined.

End RemovalByIndex.

(** ** Append *)

Lemma py_iter_list vl elems s :
  heap s !! vl = Some (OList elems) -> py_iter (VRef vl) s = (Ok elems, s).
Proof. intros H. unfold py_iter. by rewrite H. Qed.

Lemma py_list_iadd_list vl elems values ys s :
  heap s !! vl = Some (OList elems) ->
  py_iter values s = (Ok ys, s) ->
  py_list_iadd (VRef vl) values s
    = (Ok tt, mkState (<[vl := OList (elems ++ ys)]> (heap s)) (stdout s)).
Proof.
  intros H Hit. unfold py_list_iadd. rewrite (bind_ok _ _ _ _ _ Hit). by rewrite H.
Qed.

(** C5.  Append, for any accessor that returns the slot's map.  On a slot
    that is not set the slot becomes the given value list (the very list
    object of the caller).  On a slot that holds a list the given values are
    added at its end, in order, duplicates kept.  On a slot that holds
    anything else the run fails, prints the message of the failure and leaves
    the store as the accessor left it.  Hence appending to an unset slot and
    appending again leaves the concatenation of both value lists, in call
    order. *)
Theorem add_ov_spec
    (getter : val -> option string -> option string -> M val)
    (failstr : string -> string) (flow : val) (name : string)
    (platform stage : option string) :
  (forall s s1 d items values,
     getter flow platform stage s = (Ok (VRef d), s1) ->
     heap s1 !! d = Some (ODict items) ->
     default VNone (dict_get name items) = VNone ->
     _add_ov getter failstr flow name values platform stage s
       = (Ok true,
          mkState (<[d := ODict (dict_set name values items)]> (heap s1)) (stdout s1)))
  /\
  (forall s s1 d items vl elems values ys,
     getter flow platform stage s = (Ok (VRef d), s1) ->
     heap s1 !! d = Some (ODict items) ->
     dict_get name items = Some (VRef vl) ->
     heap s1 !! vl = Some (OList elems) ->
     py_iter values s1 = (Ok ys, s1) ->
     _add_ov getter failstr flow name values platform stage s
       = (Ok true,
          mkState (<[vl := OList (elems ++ ys)]> (heap s1)) (stdout s1)))
  /\
  (forall s s1 d items v t values,
     getter flow platform stage s = (Ok (VRef d), s1) ->
     heap s1 !! d = Some (ODict items) ->
     dict_get name items = Some v ->
     py_type v s1 = (Ok t, s1) ->
     is_list_type t = false ->
     is_None v = false ->
     _add_ov getter failstr flow name values platform stage s
       = (Ok false, mkState (heap s1) (stdout s1 ++ [failstr name])))
  /\
  (forall s s1 d items v1 l1 v2 l2,
     getter flow platform stage s = (Ok (VRef d), s1) ->
     heap s1 !! d = Some (ODict items) ->
     default VNone (dict_get name items) = VNone ->
     heap s1 !! v1 = Some (OList l1) ->
     heap s1 !! v2 = Some (OList l2) ->
     let s2 := mkState (<[d := ODict (dict_set name (VRef v1) items)]> (heap s1))
                       (stdout s1) in
     getter flow platform stage s2 = (Ok (VRef d), s2) ->
     (let* _ := _add_ov getter failstr flow name (VRef v1) platform stage in
      _add_ov getter failstr flow name (VRef v2) platform stage) s
       = (Ok true,
          mkState (<[v1 := OList (l1 ++ l2)]> (heap s2)) (stdout s1))).
Proof.
  assert (Hunset : forall s s1 d items values,
     getter flow platform stage s = (Ok (VRef d), s1) ->
     heap s1 !! d = Some (ODict items) ->
     default VNone (dict_get name items) = VNone ->
     _add_ov getter failstr flow name values platform stage s
       = (Ok true,
          mkState (<[d := ODict (dict_set name values items)]> (heap s1)) (stdout s1))).
  { intros s s1 d items values Hget Hd Hn. unfold _add_ov.
    rewrite (bind_ok _ _ _ _ _ Hget).
    rewrite (bind_ok _ _ _ _ _ (py_get_dict _ name _ _ Hd)). rewrite Hn. simpl.
    rewrite (bind_ok _ _ s1 TyNoneType s1 eq_refl). simpl.
    by rewrite (bind_ok _ _ _ _ _ (py_setitem_dict _ name values _ _ Hd)). }
  assert (Hlist : forall s s1 d items vl elems values ys,
     getter flow platform stage s = (Ok (VRef d), s1) ->
     heap s1 !! d = Some (ODict items) ->
     dict_get name items = Some (VRef vl) ->
     heap s1 !! vl = Some (OList elems) ->
     py_iter values s1 = (Ok ys, s1) ->
     _add_ov getter failstr flow name values platform stage s
       = (Ok true,
          mkState (<[vl := OList (elems ++ ys)]> (heap s1)) (stdout s1))).
  { intros s s1 d items vl elems values ys Hget Hd Hname Hvl Hit. unfold _add_ov.
    rewrite (bind_ok _ _ _ _ _ Hget).
    rewrite (bind_ok _ _ _ _ _ (py_get_dict _ name _ _ Hd)). rewrite Hname. simpl.
    rewrite (bind_ok _ _ _ _ _ (py_type_list _ _ _ Hvl)). simpl.
    by rewrite (bind_ok _ _ _ _ _ (py_list_iadd_list _ _ _ _ _ Hvl Hit)). }
  split; [exact Hunset|]. split; [exact Hlist|]. split.
  - intros s s1 d items v t values Hget Hd Hname Hty Hnl Hnn. unfold _add_ov.
    rewrite (bind_ok _ _ _ _ _ Hget).
    rewrite (bind_ok _ _ _ _ _ (py_get_dict _ name _ _ Hd)). rewrite Hname. simpl.
    rewrite (bind_ok _ _ _ _ _ Hty). rewrite Hnl, Hnn. reflexivity.
  - intros s s1 d items v1 l1 v2 l2 Hget Hd Hn Hv1 Hv2 s2 Hget2.
    assert (Hdlt : d < length (heap s1)) by (by apply lookup_lt_Some in Hd).
    assert (Hne1 : d <> v1) by (intros ->; congruence).
    assert (Hne2 : d <> v2) by (intros ->; congruence).
    rewrite (bind_ok _ _ _ _ _ (Hunset s s1 d items (VRef v1) Hget Hd Hn)).
    fold s2.
    rewrite (Hlist s2 s2 d (dict_set name (VRef v1) items) v1 l1 (VRef v2) l2); try done.
    + simpl. by rewrite list_lookup_insert_eq.
    + apply dict_get_set_eq.
    + simpl. by rewrite list_lookup_insert_ne.
    + apply py_iter_list. simpl. by rewrite list_lookup_insert_ne.
Qed.

Lemma add_ov_spec_witness :
  (let* _ := _add_ov _get_vals_dict (fun n => n) (VRef 0) "X" (VRef 2) None None in
   _add_ov _get_vals_dict (fun n => n) (VRef 0) "X" (VRef 3) None None)
    doc_empty_values_two_lists
  = (Ok true,
     mkState [ODict [("values", VRef 1)]; ODict [("X", VRef 2)];
              OList [VStr "a"; VStr "b"; VStr "b"; VStr "c"];
              OList [VStr "b"; VStr "c"]] []).
Proof.
  destruct (add_ov_spec _get_vals_dict (fun n => n) (VRef 0) "X" None None)
    as (_ & _ & _ & H).
  apply (H doc_empty_values_two_lists doc_empty_values_two_lists 1 [] 2
           [VStr "a"; VStr "b"] 3 [VStr "b"; VStr "c"]); reflexivity.
Defined.

(** ** Raw aggregation *)

Lemma dict_update_nil d : dict_update d [] = d.
Proof. reflexivity. Qed.

Lemma slot_items_ref h l items : h !! l = Some (ODict items) -> slot_items h (VRef l) = Some items.
Proof. intros H. simpl. by rewrite H. Qed.

(** A slot map read in a store is read the same in any store that agrees
    with it on the cells of the first. *)
Lemma slot_items_agree h h' v items :
  (forall l, l < length h -> h' !! l = h !! l) ->
  slot_items h v = Some items -> slot_items h' v = Some items.
Proof.
  intros Hag. destruct v as [| | | |l]; simpl; try done.
  destruct (h !! l) as [o|] eqn:E; [|done].
  rewrite Hag by (by apply lookup_lt_Some in E). by rewrite E.
Qed.

(** [if v is not None: vals.update(v)] when [v] is a slot map or [None]. *)
Lemma update_if_present r cur v items s :
  heap s !! r = Some (ODict cur) ->
  slot_items (heap s) v = Some items ->
  (if negb (is_None v) then py_update (VRef r) v else ret tt) s
    = (Ok tt, mkState (<[r := ODict (dict_update cur items)]> (heap s)) (stdout s)).
Proof.
  intros Hr Hv. destruct v as [| | | |l]; simpl in *; try done.
  - injection Hv as <-. rewrite dict_update_nil, list_insert_id by done.
    unfold ret. by rewrite state_eta.
  - destruct (heap s !! l) as [[|d]|] eqn:E; try done. injection Hv as <-.
    unfold py_update. by rewrite Hr.
Qed.

Lemma ovs_platform_step {A} dict_name flow p pl root pitems r cur pd (K : M A) s :
  heap s !! flow = Some (ODict root) ->
  dict_get p root = Some (VRef pl) ->
  heap s !! pl = Some (ODict pitems) ->
  heap s !! r = Some (ODict cur) ->
  slot_items (heap s) (default VNone (dict_get dict_name pitems)) = Some pd ->
  (let* platform_dict := py_getitem (VRef flow) p in
   let* platform_vals := py_get platform_dict dict_name in
   let* _ := if negb (is_None platform_vals)
             then py_update (VRef r) platform_vals else ret tt in
   K) s
  = K (mkState (<[r := ODict (dict_update cur pd)]> (heap s)) (stdout s)).
Proof.
  intros Hflow Hp Hpl Hr Hpd.
  rewrite (bind_ok _ _ _ _ _ (py_getitem_dict _ _ _ _ _ Hflow Hp)).
  rewrite (bind_ok _ _ _ _ _ (py_get_dict _ dict_name _ _ Hpl)).
  by rewrite (bind_ok _ _ _ _ _ (update_if_present _ _ _ _ _ Hr Hpd)).
Qed.

Lemma ovs_stage_step dict_name flow p pl st sl root pitems sitems r cur sd s :
  heap s !! flow = Some (ODict root) ->
  dict_get p root = Some (VRef pl) ->
  heap s !! pl = Some (ODict pitems) ->
  dict_get st pitems = Some (VRef sl) ->
  heap s !! sl = Some (ODict sitems) ->
  heap s !! r = Some (ODict cur) ->
  slot_items (heap s) (default VNone (dict_get dict_name sitems)) = Some sd ->
  (let* platform_dict := py_getitem (VRef flow) p in
   let* stage_dict := py_getitem platform_dict st in
   let* stage_deps := py_get stage_dict dict_name in
   if negb (is_None stage_deps)
   then py_update (VRef r) stage_deps else ret tt) s
  = (Ok tt, mkState (<[r := ODict (dict_update cur sd)]> (heap s)) (stdout s)).
Proof.
  intros Hflow Hp Hpl Hst Hsl Hr Hsd.
  rewrite (bind_ok _ _ _ _ _ (py_getitem_dict _ _ _ _ _ Hflow Hp)).
  rewrite (bind_ok _ _ _ _ _ (py_getitem_dict _ _ _ _ _ Hpl Hst)).
  rewrite (bind_ok _ _ _ _ _ (py_get_dict _ dict_name _ _ Hsl)).
  by apply update_if_present.
Qed.

(** The first two lines of [_get_ovs_raw]: the document's own global map, or
    a new empty map when the document has none. *)
Lemma ovs_start {A} dict_name flow root gd (K : val -> M A) s :
  heap s !! flow = Some (ODict root) ->
  slot_items (heap s) (default VNone (dict_get dict_name root)) = Some gd ->
  let gv := default VNone (dict_get dict_name root) in
  let r := match gv with VRef gl => gl | _ => length (heap s) end in
  exists s0,
    (let* vals := py_get (VRef flow) dict_name in
     let* vals := if is_None vals then alloc (ODict []) else ret vals in
     K vals) s = K (VRef r) s0 /\
    heap s0 !! r = Some (ODict gd) /\
    (forall l, l < length (heap s) -> heap s0 !! l = heap s !! l) /\
    length (heap s) <= length (heap s0) /\
    (gv = VNone -> r = length (heap s)) /\
    stdout s0 = stdout s.
Proof.
  intros Hflow Hgd gv r.
  rewrite (bind_ok _ _ _ _ _ (py_get_dict _ dict_name _ _ Hflow)). fold gv.
  unfold r. fold gv in Hgd. destruct gv as [| | | |gl]; simpl in Hgd; try done.
  - injection Hgd as <-. eexists. split; [reflexivity|]. simpl.
    split; [apply lookup_alloc_new|]. split; [|split; [|done]].
    + intros l Hl. by rewrite lookup_app_l.
    + rewrite length_app. lia.
  - destruct (heap s !! gl) as [[|d]|] eqn:E; try done. injection Hgd as <-.
    exists s. split; [reflexivity|]. repeat split; try done. 
Qed.

Lemma slot_items_insert_ne h r o v items :
  v <> VRef r ->
  slot_items h v = Some items -> slot_items (<[r := o]> h) v = Some items.
Proof.
  intros Hne. destruct v as [| | | |l]; simpl; try done.
  rewrite list_lookup_insert_ne; [done|]. congruence.
Qed.

Lemma slot_items_ref_lt h v l items :
  slot_items h v = Some items -> v = VRef l -> l < length h.
Proof.
  intros H ->. simpl in H. destruct (h !! l) eqn:E; [|done]. by apply lookup_lt_Some in E.
Qed.

(** C1.  Aggregation at a platform of the document, for any slot kind.  The
    result is the global name-to-list map (a new empty map if the document has
    none) in which every name of the platform's slot map has been given the
    platform's value: the platform's list replaces the global list whole, the
    two are never concatenated.  With a stage, the names of the stage's slot
    map are replaced once more in the same way.  No other cell of the store
    changes, so the lists the result refers to are the scopes' own. *)
Theorem get_ovs_raw_replaces_per_name
    (dict_name p : string) (flow pl : nat) (root pitems gd pd : pydict) (s : state) :
  heap s !! flow = Some (ODict root) ->
  dict_get p root = Some (VRef pl) ->
  heap s !! pl = Some (ODict pitems) ->
  slot_items (heap s) (default VNone (dict_get dict_name root)) = Some gd ->
  slot_items (heap s) (default VNone (dict_get dict_name pitems)) = Some pd ->
  let gv := default VNone (dict_get dict_name root) in
  let r := match gv with VRef gl => gl | _ => length (heap s) end in
  (exists s',
     _get_ovs_raw dict_name (VRef flow) (Some p) None s = (Ok (VRef r), s') /\
     heap s' !! r = Some (ODict (dict_update gd pd)) /\
     (forall l, l <> r -> l < length (heap s) -> heap s' !! l = heap s !! l) /\
     stdout s' = stdout s)
  /\
  (forall st sl sitems sd,
     dict_get st pitems = Some (VRef sl) ->
     heap s !! sl = Some (ODict sitems) ->
     slot_items (heap s) (default VNone (dict_get dict_name sitems)) = Some sd ->
     apart gv [VRef flow; VRef pl; VRef sl; default VNone (dict_get dict_name sitems)] ->
     exists s',
       _get_ovs_raw dict_name (VRef flow) (Some p) (Some st) s = (Ok (VRef r), s') /\
       heap s' !! r = Some (ODict (dict_update (dict_update gd pd) sd)) /\
       (forall l, l <> r -> l < length (heap s) -> heap s' !! l = heap s !! l) /\
       stdout s' = stdout s)
  /\
  (NoDup (map fst pd) ->
   forall name,
     dict_get name (dict_update gd pd)
       = match dict_get name pd with
         | Some v => Some v
         | None => dict_get name gd
         end).
Proof.
  intros Hflow Hp Hpl Hgd Hpd gv r.
  assert (Hflt : flow < length (heap s)) by (by apply lookup_lt_Some in Hflow).
  assert (Hplt : pl < length (heap s)) by (by apply lookup_lt_Some in Hpl).
  split; [|split].
  - destruct (ovs_start dict_name flow root gd
                (fun vals =>
                   let* _ :=
                     (let* platform_dict := py_getitem (VRef flow) p in
                      let* platform_vals := py_get platform_dict dict_name in
                      let* _ := if negb (is_None platform_vals)
                                then py_update vals platform_vals else ret tt in
                      ret tt) in
                   ret vals) s Hflow Hgd)
      as (s0 & Hrun & Hr & Hold & Hlen & _ & Hout).
    fold gv r in Hrun, Hr. cbv beta in Hrun.
    eexists. split; [|split; [|split]].
    + unfold _get_ovs_raw. rewrite Hrun.
      erewrite bind_ok; [reflexivity|].
      apply (ovs_platform_step dict_name flow p pl root pitems r gd pd (ret tt) s0);
        rewrite ?Hold by done; try done.
      by apply (slot_items_agree (heap s)).
    + simpl. rewrite list_lookup_insert_eq; [done|]. by apply lookup_lt_Some in Hr.
    + intros l Hne Hl. simpl. rewrite list_lookup_insert_ne by done. by apply Hold.
    + done.
  - intros st sl sitems sd Hst Hsl Hsd Hap.
    assert (Hslt : sl < length (heap s)) by (by apply lookup_lt_Some in Hsl).
    destruct (ovs_start dict_name flow root gd
                (fun vals =>
                   let* _ :=
                     (let* platform_dict := py_getitem (VRef flow) p in
                      let* platform_vals := py_get platform_dict dict_name in
                      let* _ := if negb (is_None platform_vals)
                                then py_update vals platform_vals else ret tt in
                      let* platform_dict := py_getitem (VRef flow) p in
                      let* stage_dict := py_getitem platform_dict st in
                      let* stage_deps := py_get stage_dict dict_name in
                      if negb (is_None stage_deps)
                      then py_update vals stage_deps else ret tt) in
                   ret vals) s Hflow Hgd)
      as (s0 & Hrun & Hr & Hold & Hlen & Hfresh & Hout).
    fold gv r in Hrun, Hr, Hfresh. cbv beta in Hrun.
    assert (Hrlt : r < length (heap s0)) by (by apply lookup_lt_Some in Hr).
    assert (Hdiff : r <> flow /\ r <> pl /\ r <> sl
                    /\ default VNone (dict_get dict_name sitems) <> VRef r).
    { subst r gv. unfold apart in Hap.
      destruct (default VNone (dict_get dict_name root)) as [| | | |gl] eqn:Egv;
        try (simpl in Hgd; discriminate).
      - repeat split; try lia.
        intros E. apply (slot_items_ref_lt _ _ _ _ Hsd) in E. lia.
      - specialize (Hap gl eq_refl). rewrite !not_elem_of_cons in Hap.
        destruct Hap as (H1 & H2 & H3 & H4 & _).
        repeat split; congruence. }
    destruct Hdiff as (Hrf & Hrp & Hrs & Hrsv).
    eexists. split; [|split; [|split]].
    + unfold _get_ovs_raw. rewrite Hrun.
      erewrite bind_ok; [reflexivity|].
      rewrite (ovs_platform_step dict_name flow p pl root pitems r gd pd _ s0);
        rewrite ?Hold by done; try done.
      2:{ by apply (slot_items_agree (heap s)). }
      apply (ovs_stage_step dict_name flow p pl st sl root pitems sitems r
               (dict_update gd pd) sd); simpl.
      * rewrite list_lookup_insert_ne by done. by rewrite Hold.
      * done.
      * rewrite list_lookup_insert_ne by done. by rewrite Hold.
      * done.
      * rewrite list_lookup_insert_ne by done. by rewrite Hold.
      * by rewrite list_lookup_insert_eq.
      * apply slot_items_insert_ne; [done|]. by apply (slot_items_agree (heap s)).
    + simpl. rewrite list_insert_insert_eq. by rewrite list_lookup_insert_eq.
    + intros l Hne Hl. simpl. rewrite !list_lookup_insert_ne by done. by apply Hold.
    + done.
  - intros Hnd name. by apply dict_get_update.
Qed.

Lemma get_ovs_raw_replaces_per_name_witness :
  (exists s',
     _get_ovs_raw "values" (VRef 0) (Some "p") None doc_global_and_platform
       = (Ok (VRef 1), s') /\
     heap s' !! 1 = Some (ODict [("X", VRef 5)]) /\
     heap s' !! 5 = Some (OList [VInt 3]))
  /\
  (exists s',
     _get_ovs_raw "values" (VRef 0) (Some "p") (Some "s") doc_three_scopes
       = (Ok (VRef 1), s') /\
     heap s' !! 1 = Some (ODict [("X", VRef 9); ("W", VRef 3); ("Y", VRef 10)]) /\
     heap s' !! 9 = Some (OList [VInt 4])).
Proof.
  split.
  - destruct (get_ovs_raw_replaces_per_name "values" "p" 0 3
                [("values", VRef 1); ("p", VRef 3)] [("values", VRef 4)]
                [("X", VRef 2)] [("X", VRef 5)] doc_global_and_platform
                eq_refl eq_refl eq_refl eq_refl eq_refl) as ((s' & R & A & F & _) & _ & _).
    exists s'. split; [exact R|]. split; [exact A|].
    rewrite F; [reflexivity | discriminate | simpl; lia].
  - destruct (get_ovs_raw_replaces_per_name "values" "p" 0 4
                [("values", VRef 1); ("p", VRef 4)] [("values", VRef 5); ("s", VRef 7)]
                [("X", VRef 2); ("W", VRef 3)] [("X", VRef 6)] doc_three_scopes
                eq_refl eq_refl eq_refl eq_refl eq_refl) as (_ & H & _).
    destruct (H "s" 7 [("values", VRef 8)] [("X", VRef 9); ("Y", VRef 10)]
                eq_refl eq_refl eq_refl) as (s' & R & A & F & _).
    + intros l E. injection E as <-. rewrite !not_elem_of_cons.
      repeat split; try discriminate. apply not_elem_of_nil.
    + exists s'. split; [exact R|]. split; [exact A|].
      rewrite F; [reflexivity | discriminate | simpl; lia].
Defined.

(** ** Flow configuration *)

Lemma stage_values_agree h h' pitems n :
  (forall l, l ∈ stage_cells h pitems n -> h' !! l = h !! l) ->
  stage_values h' pitems n = stage_values h pitems n.
Proof.
  unfold stage_values, stage_cells.
  destruct (default VNone (dict_get n pitems)) as [| | | |sl]; try done.
  intros Hag. rewrite (Hag sl) by left.
  destruct (h !! sl) as [[|sitems]|]; try done.
  destruct (default VNone (dict_get "values" sitems)) as [| | | |svl]; try done.
  simpl. rewrite (Hag svl); [done|]. right. simpl. left.
Qed.

Lemma stage_cells_lt h pitems n l x :
  stage_values h pitems n = Some x -> l ∈ stage_cells h pitems n -> l < length h.
Proof.
  unfold stage_values, stage_cells.
  destruct (default VNone (dict_get n pitems)) as [| | | |sl]; try (intros _ H; by apply elem_of_nil in H).
  destruct (h !! sl) as [[|sitems]|] eqn:E; try done.
  intros Hsv Hl. apply elem_of_cons in Hl as [->|Hl]; [by apply lookup_lt_Some in E|].
  destruct (default VNone (dict_get "values" sitems)) as [| | | |svl]; simpl in Hl;
    try (by apply elem_of_nil in Hl).
  apply list_elem_of_singleton in Hl. subst. simpl in Hsv.
  destruct (h !! svl) eqn:E'; [|done]. by apply lookup_lt_Some in E'.
Qed.

(** The project's overrides for a stage, as [get_stage_value_overrides]
    returns them: a map of the document, or a new empty map. *)
Lemma get_stage_value_overrides_run cfg flow p pl root pitems n proj s :
  ProjectFlowConfig.flow_cfg cfg = VRef flow ->
  heap s !! flow = Some (ODict root) ->
  dict_get p root = Some (VRef pl) ->
  heap s !! pl = Some (ODict pitems) ->
  stage_values (heap s) pitems n = Some proj ->
  exists c s1,
    ProjectFlowConfig.get_stage_value_overrides cfg p n s = (Ok (VRef c), s1) /\
    heap s1 !! c = Some (ODict proj) /\
    (c ∈ stage_cells (heap s) pitems n \/ length (heap s) <= c) /\
    (forall l, l < length (heap s) -> heap s1 !! l = heap s !! l) /\
    length (heap s) <= length (heap s1) /\
    stdout s1 = stdout s.
Proof.
  intros Hcfg Hflow Hp Hpl Hsv.
  unfold ProjectFlowConfig.get_stage_value_overrides. rewrite Hcfg.
  rewrite (bind_ok _ _ _ _ _ (py_getitem_dict _ _ _ _ _ Hflow Hp)).
  rewrite (bind_ok _ _ _ _ _ (py_get_dict _ n _ _ Hpl)).
  unfold stage_values, stage_cells in *.
  assert (Hfresh : exists c s1,
            alloc (ODict []) s = (Ok (VRef c), s1) /\
            heap s1 !! c = Some (ODict []) /\ length (heap s) <= c /\
            (forall l, l < length (heap s) -> heap s1 !! l = heap s !! l) /\
            length (heap s) <= length (heap s1) /\ stdout s1 = stdout s).
  { eexists _, _. split; [reflexivity|]. simpl. split; [apply lookup_alloc_new|].
    split; [lia|]. split; [|split; [rewrite length_app; lia | done]].
    intros l Hl. by rewrite lookup_app_l. }
  destruct (default VNone (dict_get n pitems)) as [| | | |sl]; try done; simpl.
  - injection Hsv as <-. destruct Hfresh as (c & s1 & R & A & B & C & D & E).
    exists c, s1. rewrite R. auto 10.
  - destruct (heap s !! sl) as [[|sitems]|] eqn:Esl; try done.
    rewrite (bind_ok _ _ _ _ _ (py_get_dict _ "values" _ _ Esl)).
    destruct (default VNone (dict_get "values" sitems)) as [| | | |svl]; try done; simpl in *.
    + injection Hsv as <-. destruct Hfresh as (c & s1 & R & A & B & C & D & E).
      exists c, s1. rewrite R. auto 10.
    + destruct (heap s !! svl) as [[|d]|] eqn:Esv; try done. injection Hsv as <-.
      exists svl, s. split; [reflexivity|]. split; [done|]. split.
      * left. right. left.
      * auto.
Qed.

Lemma override_cell_elem stages entry vo :
  entry ∈ stages -> Stage.value_overrides (snd entry) = VRef vo ->
  vo ∈ stage_override_cells stages.
Proof.
  intros Hin E. apply list_elem_of_omap. exists entry. split; [done|]. by rewrite E.
Qed.

Lemma stage_cells_agree h h' pitems n :
  (forall l, l ∈ stage_cells h pitems n -> h' !! l = h !! l) ->
  stage_cells h' pitems n = stage_cells h pitems n.
Proof.
  unfold stage_cells.
  destruct (default VNone (dict_get n pitems)) as [| | | |sl]; try done.
  intros Hag. rewrite (Hag sl) by left. done.
Qed.

Lemma py_update_dicts l l' items items' s :
  heap s !! l = Some (ODict items) ->
  heap s !! l' = Some (ODict items') ->
  py_update (VRef l) (VRef l') s
    = (Ok tt, mkState (<[l := ODict (dict_update items items')]> (heap s)) (stdout s)).
Proof. intros H H'. unfold py_update. by rewrite H, H'. Qed.

Lemma stage_loop cfg flow p pl root pitems : forall todo t,
  ProjectFlowConfig.flow_cfg cfg = VRef flow ->
  heap t !! flow = Some (ODict root) ->
  dict_get p root = Some (VRef pl) ->
  heap t !! pl = Some (ODict pitems) ->
  Forall (stage_ready (heap t) pitems) todo ->
  NoDup (stage_override_cells todo) ->
  (forall l, l ∈ stage_override_cells todo ->
     l <> flow /\ l <> pl /\
     forall entry, entry ∈ todo -> l ∉ stage_cells (heap t) pitems (fst entry)) ->
  exists t',
    for_each todo (fun entry =>
        let* project_val_ovds :=
          ProjectFlowConfig.get_stage_value_overrides cfg p (fst entry) in
        py_update (Stage.value_overrides (snd entry)) project_val_ovds) t
      = (Ok tt, t') /\
    (forall l, l < length (heap t) -> l ∉ stage_override_cells todo ->
               heap t' !! l = heap t !! l) /\
    (forall entry vo ov proj,
       entry ∈ todo ->
       Stage.value_overrides (snd entry) = VRef vo ->
       heap t !! vo = Some (ODict ov) ->
       stage_values (heap t) pitems (fst entry) = Some proj ->
       heap t' !! vo = Some (ODict (dict_update ov proj))) /\
    length (heap t) <= length (heap t') /\
    stdout t' = stdout t.
Proof.
  induction todo as [|entry rest IH]; intros t Hcfg Hflow Hp Hpl Hready Hnd Hsep.
  - exists t. split; [reflexivity|]. split; [done|]. split; [|done].
    intros entry vo ov proj Hin. by apply elem_of_nil in Hin.
  - apply Forall_cons in Hready as [(vo & ov & proj & Evo & Hvo & Hsv) Hready].
    assert (Ecells : stage_override_cells (entry :: rest) = vo :: stage_override_cells rest).
    { unfold stage_override_cells. simpl. by rewrite Evo. }
    rewrite Ecells in Hnd, Hsep.
    apply NoDup_cons in Hnd as [Hvo_rest Hnd].
    assert (Hvolt : vo < length (heap t)) by (by apply lookup_lt_Some in Hvo).
    destruct (Hsep vo ltac:(left)) as (Hvf & Hvp & Hvcells).
    destruct (get_stage_value_overrides_run cfg flow p pl root pitems (fst entry) proj t
                Hcfg Hflow Hp Hpl Hsv) as (c & t1 & R1 & Hc & Hcwhere & Hold1 & Hlen1 & Hout1).
    assert (Hcvo : c <> vo).
    { destruct Hcwhere as [Hin|Hge]; [|lia]. intros ->.
      by apply (Hvcells entry ltac:(left)). }
    set (t2 := mkState (<[vo := ODict (dict_update ov proj)]> (heap t1)) (stdout t1)).
    assert (R2 : py_update (VRef vo) (VRef c) t1 = (Ok tt, t2)).
    { apply py_update_dicts; [|done]. by rewrite Hold1. }
    assert (Hold2 : forall l, l < length (heap t) -> l <> vo -> heap t2 !! l = heap t !! l).
    { intros l Hl Hne. simpl. rewrite list_lookup_insert_ne by done. by apply Hold1. }
    assert (Hcells2 : forall entry', entry' ∈ rest ->
              forall l, l ∈ stage_cells (heap t) pitems (fst entry') -> heap t2 !! l = heap t !! l).
    { intros entry' Hin l Hl.
      assert (Hr' : stage_ready (heap t) pitems entry')
        by (rewrite Forall_forall in Hready; by apply Hready).
      destruct Hr' as (vo' & ov' & proj' & _ & _ & Hsv').
      apply Hold2; [by apply (stage_cells_lt _ _ _ _ _ Hsv')|].
      intros ->. by apply (Hvcells entry' ltac:(by right)). }
    destruct (IH t2) as (t' & R & Hframe & Hdone & Hlen & Hout); try done.
    + rewrite Hold2; [done | by apply lookup_lt_Some in Hflow | done].
    + rewrite Hold2; [done | by apply lookup_lt_Some in Hpl | done].
    + rewrite Forall_forall in Hready |- *. intros entry' Hin.
      destruct (Hready entry' Hin) as (vo' & ov' & proj' & Evo' & Hvo' & Hsv').
      exists vo', ov', proj'. split; [done|]. split.
      * rewrite Hold2; [done | by apply lookup_lt_Some in Hvo' |].
        intros ->. apply Hvo_rest. by apply (override_cell_elem _ entry').
      * rewrite (stage_values_agree (heap t)); [done|]. by apply Hcells2.
    + intros l Hl. destruct (Hsep l ltac:(by right)) as (H1 & H2 & H3).
      split; [done|]. split; [done|]. intros entry' Hin.
      rewrite (stage_cells_agree (heap t) (heap t2)) by (by apply Hcells2).
      apply H3. by right.
    + exists t'. split; [|split; [|split; [|split]]].
      * cbn [for_each]. rewrite (bind_ok _ _ t tt t2); [done|].
        rewrite (bind_ok _ _ _ _ _ R1). rewrite Evo. exact R2.
      * intros l Hl Hnot. rewrite Ecells in Hnot.
        apply not_elem_of_cons in Hnot as [Hne Hnot].
        rewrite Hframe; [by apply Hold2 | | done].
        simpl. rewrite length_insert. lia.
      * intros entry' vo' ov' proj' Hin Evo' Hvo' Hsv'.
        apply elem_of_cons in Hin as [->|Hin].
        -- assert (vo' = vo) by congruence. subst vo'.
           assert (ov' = ov) by congruence. assert (proj' = proj) by congruence. subst.
           rewrite Hframe; [| simpl; rewrite length_insert; lia | done].
           simpl. apply list_lookup_insert_eq. lia.
        -- assert (Hne : vo' <> vo).
           { intros ->. apply Hvo_rest. by apply (override_cell_elem _ entry'). }
           apply (Hdone entry'); try done.
           ++ rewrite Hold2; [done | by apply lookup_lt_Some in Hvo' | done].
           ++ rewrite (stage_values_agree (heap t)); [done|]. by apply Hcells2.
      * simpl in Hlen. rewrite length_insert in Hlen. lia.
      * rewrite Hout. simpl. done.
Qed.

Lemma get_ovs_raw_platform_run dict_name p flow pl root pitems gd pd s :
  heap s !! flow = Some (ODict root) ->
  dict_get p root = Some (VRef pl) ->
  heap s !! pl = Some (ODict pitems) ->
  slot_items (heap s) (default VNone (dict_get dict_name root)) = Some gd ->
  slot_items (heap s) (default VNone (dict_get dict_name pitems)) = Some pd ->
  exists r s',
    _get_ovs_raw dict_name (VRef flow) (Some p) None s = (Ok (VRef r), s') /\
    (default VNone (dict_get dict_name root) = VRef r \/ length (heap s) <= r) /\
    heap s' !! r = Some (ODict (dict_update gd pd)) /\
    (forall l, l <> r -> l < length (heap s) -> heap s' !! l = heap s !! l) /\
    length (heap s) <= length (heap s') /\
    stdout s' = stdout s.
Proof.
  intros Hflow Hp Hpl Hgd Hpd.
  assert (Hflt : flow < length (heap s)) by (by apply lookup_lt_Some in Hflow).
  assert (Hplt : pl < length (heap s)) by (by apply lookup_lt_Some in Hpl).
  destruct (ovs_start dict_name flow root gd
              (fun vals =>
                 let* _ :=
                   (let* platform_dict := py_getitem (VRef flow) p in
                    let* platform_vals := py_get platform_dict dict_name in
                    let* _ := if negb (is_None platform_vals)
                              then py_update vals platform_vals else ret tt in
                    ret tt) in
                 ret vals) s Hflow Hgd)
    as (s0 & Hrun & Hr & Hold & Hlen & _ & Hout).
  cbv beta zeta in Hrun, Hr.
  set (r := match default VNone (dict_get dict_name root) with
            | VRef gl => gl | _ => length (heap s) end) in *.
  exists r. eexists. split; [|split; [|split; [|split; [|split]]]].
  - unfold _get_ovs_raw. rewrite Hrun.
    erewrite bind_ok; [reflexivity|].
    apply (ovs_platform_step dict_name flow p pl root pitems r gd pd (ret tt) s0);
      rewrite ?Hold by done; try done.
    by apply (slot_items_agree (heap s)).
  - subst r. destruct (default VNone (dict_get dict_name root)); auto.
  - simpl. rewrite list_lookup_insert_eq; [done|]. by apply lookup_lt_Some in Hr.
  - intros l Hne Hl. simpl. rewrite list_lookup_insert_ne by done. by apply Hold.
  - simpl. by rewrite length_insert.
  - done.
Qed.

Lemma slot_items_frame h h' v items :
  slot_items h v = Some items ->
  (forall l, v = VRef l -> h' !! l = h !! l) ->
  slot_items h' v = Some items.
Proof.
  destruct v as [| | | |l]; simpl; try done.
  intros H Hag. by rewrite (Hag l eq_refl).
Qed.

Lemma written_distinct root D e :
  NoDup (init_written root D e) ->
  (e ∉ stage_override_cells (FlowDefinition.stages D)) /\
  NoDup (stage_override_cells (FlowDefinition.stages D)) /\
  (forall gl, default VNone (dict_get "values" root) = VRef gl ->
     gl <> e /\ (gl ∉ stage_override_cells (FlowDefinition.stages D)) /\
     default VNone (dict_get "dependencies" root) <> VRef gl) /\
  (forall gdl, default VNone (dict_get "dependencies" root) = VRef gdl ->
     gdl <> e /\ gdl ∉ stage_override_cells (FlowDefinition.stages D)).
Proof.
  unfold init_written, ref_cells.
  destruct (default VNone (dict_get "values" root)) as [| | | |gl];
    destruct (default VNone (dict_get "dependencies" root)) as [| | | |gdl]; simpl;
    rewrite ?NoDup_cons, ?not_elem_of_cons; intuition congruence.
Qed.

Lemma written_elems root D e :
  e ∈ init_written root D e /\
  (forall gl, default VNone (dict_get "values" root) = VRef gl -> gl ∈ init_written root D e) /\
  (forall gdl, default VNone (dict_get "dependencies" root) = VRef gdl ->
     gdl ∈ init_written root D e) /\
  (forall vo, vo ∈ stage_override_cells (FlowDefinition.stages D) -> vo ∈ init_written root D e).
Proof.
  unfold init_written, ref_cells. split; [left|].
  destruct (default VNone (dict_get "values" root)) as [| | | |gl];
    destruct (default VNone (dict_get "dependencies" root)) as [| | | |gdl]; simpl;
    repeat split; intros; try discriminate; rewrite ?elem_of_cons;
    try (simplify_eq; tauto); tauto.
Qed.

Lemma override_cells_lt h pitems stages l :
  Forall (stage_ready h pitems) stages -> l ∈ stage_override_cells stages -> l < length h.
Proof.
  intros Hready Hl. apply list_elem_of_omap in Hl as (entry & Hin & E).
  rewrite Forall_forall in Hready.
  destruct (Hready entry Hin) as (vo & ov & proj & Evo & Hvo & _).
  rewrite Evo in E. injection E as <-. by apply lookup_lt_Some in Hvo.
Qed.

Section Construction.

Variable Resolved : Type.
Variable resolve_paths : list obj -> ResolutionEnv.t -> val -> Resolved.

(** The whole run of the constructor of [FlowConfig]. *)
Lemma init_run cfg D p flow pl e root pitems gvals pvals gdeps pdeps base s :
  init_ready (heap s) cfg D p flow pl e root pitems gvals pvals gdeps pdeps base ->
  exists fc s',
    FlowConfig.__init__ resolve_paths cfg D p s = (Ok fc, s') /\
    FlowConfig.r_env fc = FlowDefinition.r_env D /\
    FlowConfig.stages fc = FlowDefinition.stages D /\
    FlowConfig.platform fc = p /\
    heap s' !! e = Some (ODict (dict_update base (dict_update gvals pvals))) /\
    (forall entry vo ov proj,
       entry ∈ FlowDefinition.stages D ->
       Stage.value_overrides (snd entry) = VRef vo ->
       heap s !! vo = Some (ODict ov) ->
       stage_values (heap s) pitems (fst entry) = Some proj ->
       heap s' !! vo = Some (ODict (dict_update ov proj))) /\
    (forall l, l < length (heap s) -> l ∉ init_written root D e ->
       heap s' !! l = heap s !! l) /\
    length (heap s) <= length (heap s') /\
    stdout s' = stdout s.
Proof.
  intros [Hcfg Hroot Hp Hpl Hgv Hpv Hgd Hpd Henv Hbase Hst Hnd Hap].
  destruct (written_distinct _ _ _ Hnd) as (He_soc & Hnd_soc & Hgl & Hgdl).
  destruct (written_elems root D e) as (We & Wgl & Wgdl & Wvo).
  assert (Hflt : flow < length (heap s)) by (by apply lookup_lt_Some in Hroot).
  assert (Hplt : pl < length (heap s)) by (by apply lookup_lt_Some in Hpl).
  assert (Helt : e < length (heap s)) by (by apply lookup_lt_Some in Hbase).
  (* platform_vals = project_config.get_values_raw(platform) *)
  destruct (get_ovs_raw_platform_run "values" p flow pl root pitems gvals pvals s
              Hroot Hp Hpl Hgv Hpv) as (r & sA & RA & HrA & HcA & HoldA & HlenA & HoutA).
  assert (Wr : r ∈ init_written root D e \/ length (heap s) <= r).
  { destruct HrA as [E|Hge]; [left; by apply Wgl | by right]. }
  assert (Hre : r <> e).
  { destruct HrA as [E|Hge]; [by apply Hgl in E as (? & _) | lia]. }
  assert (Hr_soc : r ∉ stage_override_cells (FlowDefinition.stages D)).
  { destruct HrA as [E|Hge]; [by apply Hgl in E as (_ & ? & _)|].
    intros Hin. apply (override_cells_lt _ _ _ _ Hst) in Hin. lia. }
  (* self.r_env.add_values(platform_vals) *)
  set (E := dict_update base (dict_update gvals pvals)).
  set (sB := mkState (<[e := ODict E]> (heap sA)) (stdout sA)).
  assert (RB : ResolutionEnv.add_values (FlowDefinition.r_env D) (VRef r) sA = (Ok tt, sB)).
  { unfold ResolutionEnv.add_values. rewrite Henv.
    apply py_update_dicts; [|done]. rewrite HoldA by (done || lia). done. }
  assert (HoldB : forall l, l < length (heap s) -> l <> r -> l <> e ->
                    heap sB !! l = heap s !! l).
  { intros l Hl H1 H2. simpl. rewrite list_lookup_insert_ne by done. by apply HoldA. }
  assert (HlenB : length (heap s) <= length (heap sB)).
  { simpl. by rewrite length_insert. }
  assert (Hsafe : forall w l0, w ∈ init_written root D e \/ length (heap s) <= w ->
            l0 < length (heap s) -> (forall l, l ∈ init_written root D e -> l <> l0) ->
            w <> l0).
  { intros w l0 [Hw|Hge] Hl0 Hnw; [by apply Hnw | lia]. }
  assert (Hnw_flow : forall l, l ∈ init_written root D e -> l <> flow).
  { intros l Hl. by destruct (Hap l Hl) as (? & _). }
  assert (Hnw_pl : forall l, l ∈ init_written root D e -> l <> pl).
  { intros l Hl. by destruct (Hap l Hl) as (_ & ? & _). }
  (* raw_project_deps = project_config.get_dependencies_raw(platform) *)
  assert (HgdB : slot_items (heap sB) (default VNone (dict_get "dependencies" root))
                 = Some gdeps).
  { apply (slot_items_frame (heap s)); [done|]. intros gdl Egdl.
    destruct (Hgdl gdl Egdl) as (Hne & _).
    apply HoldB; [by apply (slot_items_ref_lt _ _ _ _ Hgd) | | done].
    destruct HrA as [Egl|Hge].
    - destruct (Hgl r Egl) as (_ & _ & Hx). congruence.
    - apply (slot_items_ref_lt _ _ _ _ Hgd) in Egdl. lia. }
  assert (HpdB : slot_items (heap sB) (default VNone (dict_get "dependencies" pitems))
                 = Some pdeps).
  { apply (slot_items_frame (heap s)); [done|]. intros pdl Epdl.
    assert (Hlt := slot_items_ref_lt _ _ _ _ Hpd Epdl).
    assert (Hnw : forall l, l ∈ init_written root D e -> l <> pdl).
    { intros l Hl ->. by destruct (Hap pdl Hl) as (_ & _ & _ & ? & _). }
    apply HoldB; [done | | ].
    - apply not_eq_sym. by apply Hsafe.
    - apply not_eq_sym. by apply Hnw. }
  destruct (get_ovs_raw_platform_run "dependencies" p flow pl root pitems gdeps pdeps sB)
    as (r' & sC & RC & Hr'C & HcC & HoldC & HlenC & HoutC); try done.
  { rewrite HoldB; [done | done | | ]; apply not_eq_sym; auto. }
  { rewrite HoldB; [done | done | | ]; apply not_eq_sym; auto. }
  assert (Wr' : r' ∈ init_written root D e \/ length (heap s) <= r').
  { destruct Hr'C as [E'|Hge]; [left; by apply Wgdl | right; lia]. }
  assert (Hr'e : r' <> e).
  { destruct Hr'C as [E'|Hge]; [by apply Hgdl in E' as (? & _) | lia]. }
  assert (Hr'_soc : r' ∉ stage_override_cells (FlowDefinition.stages D)).
  { destruct Hr'C as [E'|Hge]; [by apply Hgdl in E' as (_ & ?)|].
    intros Hin. apply (override_cells_lt _ _ _ _ Hst) in Hin. lia. }
  assert (HoldCs : forall l, l < length (heap s) -> l <> e -> l <> r -> l <> r' ->
                     heap sC !! l = heap s !! l).
  { intros l Hl H1 H2 H3. rewrite HoldC by (done || lia). by apply HoldB. }
  assert (Hunwritten : forall l, l < length (heap s) ->
            (forall w, w ∈ init_written root D e -> w <> l) ->
            heap sC !! l = heap s !! l).
  { intros l Hl Hnw. apply HoldCs; [done | | |]; apply not_eq_sym; auto. }
  assert (HeC : heap sC !! e = Some (ODict E)).
  { rewrite HoldC; [| done | lia]. simpl. apply list_lookup_insert_eq.
    apply lookup_lt_Some in HcA. lia. }
  (* the loop over the stages *)
  assert (Hcells : forall entry, entry ∈ FlowDefinition.stages D ->
            forall l, l ∈ stage_cells (heap s) pitems (fst entry) ->
                      heap sC !! l = heap s !! l).
  { intros entry Hin l Hl. rewrite Forall_forall in Hst.
    destruct (Hst entry Hin) as (vo & ov & proj & _ & _ & Hsv).
    apply Hunwritten; [by apply (stage_cells_lt _ _ _ _ _ Hsv)|].
    intros w Hw ->. destruct (Hap l Hw) as (_ & _ & _ & _ & Hx). by apply (Hx entry). }
  assert (Hsoc_same : forall vo, vo ∈ stage_override_cells (FlowDefinition.stages D) ->
            heap sC !! vo = heap s !! vo).
  { intros vo Hvo. apply HoldCs; [by apply (override_cells_lt _ _ _ _ Hst) | | |];
      intros ->; done. }
  destruct (stage_loop cfg flow p pl root pitems (FlowDefinition.stages D) sC)
    as (sD & RD & HframeD & HdoneD & HlenD & HoutD); try done.
  { by rewrite Hunwritten. }
  { by rewrite Hunwritten. }
  { rewrite Forall_forall in Hst |- *. intros entry Hin.
    destruct (Hst entry Hin) as (vo & ov & proj & Evo & Hvo & Hsv).
    exists vo, ov, proj. split; [done|]. split.
    - rewrite Hsoc_same; [done|]. by apply (override_cell_elem _ entry).
    - rewrite (stage_values_agree (heap s)); [done|]. by apply Hcells. }
  { intros l Hl. destruct (Hap l (Wvo l Hl)) as (H1 & H2 & _ & _ & H5).
    split; [done|]. split; [done|]. intros entry Hin.
    rewrite (stage_cells_agree (heap s) (heap sC)) by (by apply Hcells). by apply H5. }
  eexists _, sD. split; [|split; [|split; [|split; [|split; [|split; [|split]]]]]].
  - unfold FlowConfig.__init__, ProjectFlowConfig.get_values_raw,
      ProjectFlowConfig.get_dependencies_raw. rewrite Hcfg.
    rewrite (bind_ok _ _ _ _ _ RA), (bind_ok _ _ _ _ _ RB), (bind_ok _ _ _ _ _ RC).
    rewrite (bind_ok get_heap _ sC (heap sC) sC eq_refl).
    rewrite (bind_ok _ _ _ _ _ RD). reflexivity.
  - done.
  - done.
  - done.
  - rewrite HframeD; [done | by apply lookup_lt_Some in HeC | done].
  - intros entry vo ov proj Hin Evo Hvo Hsv.
    apply (HdoneD entry); [done | done | |].
    + rewrite Hsoc_same; [done|]. by apply (override_cell_elem _ entry).
    + rewrite (stage_values_agree (heap s)); [done|]. by apply Hcells.
  - intros l Hl Hnw.
    rewrite HframeD; [| lia |].
    + apply Hunwritten; [done|]. intros w Hw ->. done.
    + intros Hin. apply Hnw. by apply Wvo.
  - split; [lia|]. rewrite HoutD, HoutC. simpl. done.
Qed.

End Construction.

Lemma dict_set_keys_NoDup k v d : NoDup (map fst d) -> NoDup (map fst (dict_set k v d)).
Proof.
  induction d as [|[k1 v1] d IH]; simpl; intros Hnd.
  - apply NoDup_singleton.
  - apply NoDup_cons in Hnd as [Hk1 Hnd]. destruct (String.eqb k k1) eqn:E; simpl.
    + apply String.eqb_eq in E. subst k1. by apply NoDup_cons.
    + apply String.eqb_neq in E. apply NoDup_cons. split; [|by apply IH].
      apply dict_get_None_keys. rewrite dict_get_set_ne by done.
      by apply dict_get_None_keys.
Qed.

Lemma dict_update_keys_NoDup d e : NoDup (map fst d) -> NoDup (map fst (dict_update d e)).
Proof.
  unfold dict_update. revert d. induction e as [|[k v] e IH]; intros d Hnd; simpl; [done|].
  apply IH. by apply dict_set_keys_NoDup.
Qed.

(** The most specific of three layers wins, name by name. *)
Lemma dict_get_three_layers name base mid top :
  NoDup (map fst mid) -> NoDup (map fst top) ->
  dict_get name (dict_update (dict_update base mid) top) =
    match dict_get name top with
    | Some v => Some v
    | None => match dict_get name mid with
              | Some v => Some v
              | None => dict_get name base
              end
    end.
Proof. intros H1 H2. by rewrite !dict_get_update. Qed.

Lemma lookup_stage_found stages n stage s :
  NoDup (map fst stages) -> (n, stage) ∈ stages ->
  FlowDefinition.lookup_stage stages n s = (Ok stage, s).
Proof.
  unfold FlowDefinition.lookup_stage.
  induction stages as [|[n1 st1] rest IH]; intros Hnd Hin; [by apply elem_of_nil in Hin|].
  simpl in *. apply NoDup_cons in Hnd as [Hn1 Hnd].
  apply elem_of_cons in Hin as [Heq|Hin].
  - injection Heq as <- <-. by rewrite String.eqb_refl.
  - destruct (String.eqb n n1) eqn:E; [|by apply IH].
    apply String.eqb_eq in E. subst n1. exfalso. apply Hn1.
    apply list_elem_of_fmap. by exists (n, stage).
Qed.

(** A stage's environment: a copy of the environment [env], in a new cell,
    with the stage's overrides laid over it.  This is the body that
    [FlowDefinition.get_stage_r_env] and [FlowConfig.get_r_env] share. *)
Lemma stage_env_run stages n stage env e vo E V s :
  NoDup (map fst stages) -> (n, stage) ∈ stages ->
  ResolutionEnv.values env = VRef e -> heap s !! e = Some (ODict E) ->
  Stage.value_overrides stage = VRef vo -> heap s !! vo = Some (ODict V) ->
  exists s',
    (let* stage := FlowDefinition.lookup_stage stages n in
     let* r_env := ResolutionEnv.__copy__ env in
     let* _ := ResolutionEnv.add_values r_env (Stage.value_overrides stage) in
     ret r_env) s = (Ok (ResolutionEnv.mk (VRef (length (heap s)))), s') /\
    heap s' !! length (heap s) = Some (ODict (dict_update E V)) /\
    (forall l, l < length (heap s) -> heap s' !! l = heap s !! l) /\
    stdout s' = stdout s.
Proof.
  intros Hnd Hin He HE Hvo HV.
  rewrite (bind_ok _ _ _ _ _ (lookup_stage_found _ _ _ s Hnd Hin)).
  set (s1 := mkState (heap s ++ [ODict E]) (stdout s)).
  assert (R1 : ResolutionEnv.__copy__ env s = (Ok (ResolutionEnv.mk (VRef (length (heap s)))), s1)).
  { unfold ResolutionEnv.__copy__. rewrite He.
    erewrite bind_ok; [| unfold py_items; by rewrite HE]. reflexivity. }
  rewrite (bind_ok _ _ _ _ _ R1). rewrite Hvo.
  unfold ResolutionEnv.add_values. simpl ResolutionEnv.values.
  erewrite bind_ok.
  2:{ apply (py_update_dicts _ _ E V); simpl.
      - apply lookup_alloc_new.
      - rewrite lookup_app_l; [done | by apply lookup_lt_Some in HV]. }
  eexists. split; [reflexivity|]. simpl. split; [|split; [|done]].
  - apply list_lookup_insert_eq. rewrite length_app. simpl. lia.
  - intros l Hl. rewrite list_lookup_insert_ne by lia. by rewrite lookup_app_l.
Qed.

(** C9.  After the construction of a flow configuration, the environment
    returned for a stage is a new environment whose mapping is the flow
    definition's base mapping, overlaid with the platform-level values (what
    [get_values_raw] returns for the platform: the global values with the
    platform's laid over them) and then with the stage's override mapping
    (the stage's own overrides with the project's stage-level values laid
    over them).  Name by name the most specific layer wins, and a name that
    no layer overrides keeps its base value. *)
Theorem get_r_env_layers_base_platform_stage
    (Resolved : Type) (resolve_paths : list obj -> ResolutionEnv.t -> val -> Resolved)
    (cfg : ProjectFlowConfig.t) (D : FlowDefinition.t) (p : string) (flow pl e : nat)
    (root pitems gvals pvals gdeps pdeps base : pydict) (s : state)
    (n : string) (stage : Stage.t) (vo : nat) (ov proj : pydict) :
  init_ready (heap s) cfg D p flow pl e root pitems gvals pvals gdeps pdeps base ->
  NoDup (map fst (FlowDefinition.stages D)) ->
  (n, stage) ∈ FlowDefinition.stages D ->
  Stage.value_overrides stage = VRef vo ->
  heap s !! vo = Some (ODict ov) ->
  stage_values (heap s) pitems n = Some proj ->
  let platform_values := dict_update gvals pvals in
  let stage_overrides := dict_update ov proj in
  let resolved := dict_update (dict_update base platform_values) stage_overrides in
  exists fc s1 c s2,
    FlowConfig.__init__ resolve_paths cfg D p s = (Ok fc, s1) /\
    FlowConfig.get_r_env fc n s1 = (Ok (ResolutionEnv.mk (VRef c)), s2) /\
    heap s2 !! c = Some (ODict resolved) /\
    length (heap s1) <= c /\
    (forall l, l < length (heap s1) -> heap s2 !! l = heap s1 !! l) /\
    (NoDup (map fst gvals) -> NoDup (map fst ov) ->
     forall name,
       dict_get name resolved =
         match dict_get name stage_overrides with
         | Some v => Some v
         | None => match dict_get name platform_values with
                   | Some v => Some v
                   | None => dict_get name base
                   end
         end).
Proof.
  intros Hready Hnd Hin Hvo Hov Hproj platform_values stage_overrides resolved.
  destruct (init_run Resolved resolve_paths _ _ _ _ _ _ _ _ _ _ _ _ _ _ Hready)
    as (fc & s1 & R1 & Henv & Hstages & _ & He & Hst & _ & _ & _).
  specialize (Hst (n, stage) vo ov proj Hin Hvo Hov Hproj).
  destruct (stage_env_run (FlowConfig.stages fc) n stage (FlowConfig.r_env fc) e vo
              (dict_update base platform_values) stage_overrides s1)
    as (s2 & R2 & Hc & Hold & _); try done.
  - by rewrite Hstages.
  - by rewrite Hstages.
  - rewrite Henv. by destruct Hready.
  - exists fc, s1, (length (heap s1)), s2.
    split; [done|]. split; [exact R2|]. split; [done|]. split; [done|]. split; [done|].
    intros Hg Ho name. apply dict_get_three_layers; by apply dict_update_keys_NoDup.
Qed.

Lemma doc_flow_precedence_ready :
  init_ready (heap doc_flow_precedence) cfg0 flow_def_one_stage "p" 0 1 5
    [("p", VRef 1)] [("values", VRef 2); ("s", VRef 3)]
    [] [("Y", VInt 2)] [] [] [("Y", VInt 1); ("Z", VInt 9)].
Proof.
  split; try reflexivity.
  - apply List.Forall_cons; [|apply List.Forall_nil].
    by exists 6, [], [("Y", VInt 3)].
  - change (NoDup [5; 6]). rewrite !NoDup_cons, !not_elem_of_cons.
    repeat split; try lia; try apply not_elem_of_nil. apply NoDup_nil_2.
  - intros l Hl. change (l ∈ [5; 6]) in Hl.
    assert (Hl' : l = 5 \/ l = 6).
    { rewrite !elem_of_cons in Hl. destruct Hl as [|[|Hl]]; auto. by apply elem_of_nil in Hl. }
    split; [lia|]. split; [lia|]. split; [intros [=]; lia|]. split; [done|].
    intros entry Hin. apply list_elem_of_singleton in Hin. subst entry.
    change (l ∉ [3; 4]). rewrite !not_elem_of_cons.
    repeat split; try lia. apply not_elem_of_nil.
Qed.

Lemma get_r_env_layers_base_platform_stage_witness :
  exists fc s1 c s2,
    FlowConfig.__init__ (fun _ _ raw => raw) cfg0 flow_def_one_stage "p" doc_flow_precedence
      = (Ok fc, s1) /\
    FlowConfig.get_r_env fc "s" s1 = (Ok (ResolutionEnv.mk (VRef c)), s2) /\
    heap s2 !! c = Some (ODict [("Y", VInt 3); ("Z", VInt 9)]) /\
    dict_get "Y" [("Y", VInt 3); ("Z", VInt 9)] = Some (VInt 3) /\
    dict_get "Z" [("Y", VInt 3); ("Z", VInt 9)] = Some (VInt 9).
Proof.
  destruct (get_r_env_layers_base_platform_stage val (fun _ _ raw => raw)
              cfg0 flow_def_one_stage "p" 0 1 5
              [("p", VRef 1)] [("values", VRef 2); ("s", VRef 3)]
              [] [("Y", VInt 2)] [] [] [("Y", VInt 1); ("Z", VInt 9)]
              doc_flow_precedence "s" (Stage.mk "s" (VRef 6)) 6 [] [("Y", VInt 3)]
              doc_flow_precedence_ready)
    as (fc & s1 & c & s2 & R1 & R2 & Hc & _).
  - simpl. apply NoDup_singleton.
  - simpl. left.
  - reflexivity.
  - reflexivity.
  - reflexivity.
  - exists fc, s1, c, s2. split; [exact R1|]. split; [exact R2|]. split; [exact Hc|].
    split; reflexivity.
Defined.

(** C10.  The constructor of a flow configuration keeps the flow definition's
    own environment object (no copy) and lays the platform-level values of
    the selected platform over its mapping.  So after the construction for a
    platform the definition's environment holds that platform's values; the
    stage environments [FlowDefinition.get_stage_r_env] hands out afterwards
    are built on them; and a later flow configuration constructed from the
    same definition shares the same environment object, whose mapping still
    holds the first platform's values wherever the later platform does not
    override them. *)
Theorem init_shares_definition_env
    (Resolved : Type) (resolve_paths : list obj -> ResolutionEnv.t -> val -> Resolved)
    (cfg : ProjectFlowConfig.t) (D : FlowDefinition.t) (p : string) (flow pl e : nat)
    (root pitems gvals pvals gdeps pdeps base : pydict) (s : state) :
  init_ready (heap s) cfg D p flow pl e root pitems gvals pvals gdeps pdeps base ->
  let platform_values := dict_update gvals pvals in
  let after := dict_update base platform_values in
  exists fc s1,
    FlowConfig.__init__ resolve_paths cfg D p s = (Ok fc, s1) /\
    FlowConfig.r_env fc = FlowDefinition.r_env D /\
    ResolutionEnv.values (FlowDefinition.r_env D) = VRef e /\
    heap s !! e = Some (ODict base) /\
    heap s1 !! e = Some (ODict after) /\
    (NoDup (map fst gvals) -> NoDup (map fst pvals) ->
     forall name v, dict_get name pvals = Some v -> dict_get name after = Some v) /\
    (NoDup (map fst (FlowDefinition.stages D)) ->
     forall n stage vo ov proj,
       (n, stage) ∈ FlowDefinition.stages D ->
       Stage.value_overrides stage = VRef vo ->
       heap s !! vo = Some (ODict ov) ->
       stage_values (heap s) pitems n = Some proj ->
       exists c s2,
         FlowDefinition.get_stage_r_env D n s1 = (Ok (ResolutionEnv.mk (VRef c)), s2) /\
         heap s2 !! c = Some (ODict (dict_update after (dict_update ov proj)))) /\
    (forall cfg2 p2 flow2 pl2 root2 pitems2 gvals2 pvals2 gdeps2 pdeps2,
       init_ready (heap s1) cfg2 D p2 flow2 pl2 e
                  root2 pitems2 gvals2 pvals2 gdeps2 pdeps2 after ->
       exists fc2 s2,
         FlowConfig.__init__ resolve_paths cfg2 D p2 s1 = (Ok fc2, s2) /\
         FlowConfig.r_env fc2 = FlowConfig.r_env fc /\
         heap s2 !! e = Some (ODict (dict_update after (dict_update gvals2 pvals2))) /\
         (NoDup (map fst gvals2) ->
          forall name v,
            dict_get name after = Some v ->
            dict_get name (dict_update gvals2 pvals2) = None ->
            dict_get name (dict_update after (dict_update gvals2 pvals2)) = Some v)).
Proof.
  intros Hready platform_values after.
  destruct (init_run Resolved resolve_paths _ _ _ _ _ _ _ _ _ _ _ _ _ _ Hready)
    as (fc & s1 & R1 & Henv & Hstages & _ & He & Hst & _ & _ & _).
  exists fc, s1. split; [done|]. split; [done|].
  split; [by destruct Hready|]. split; [by destruct Hready|]. split; [done|].
  split; [|split].
  - intros Hg Hp name v Hv. unfold after, platform_values.
    rewrite dict_get_update by (by apply dict_update_keys_NoDup).
    rewrite (dict_get_update name gvals pvals) by done. by rewrite Hv.
  - intros Hnd n stage vo ov proj Hin Hvo Hov Hproj.
    specialize (Hst (n, stage) vo ov proj Hin Hvo Hov Hproj).
    destruct (stage_env_run (FlowDefinition.stages D) n stage (FlowDefinition.r_env D)
                e vo after (dict_update ov proj) s1)
      as (s2 & R2 & Hc & _); try done; [by destruct Hready|].
    by exists (length (heap s1)), s2.
  - intros cfg2 p2 flow2 pl2 root2 pitems2 gvals2 pvals2 gdeps2 pdeps2 Hready2.
    destruct (init_run Resolved resolve_paths _ _ _ _ _ _ _ _ _ _ _ _ _ _ Hready2)
      as (fc2 & s2 & R2 & Henv2 & _ & _ & He2 & _).
    exists fc2, s2. split; [done|]. split; [congruence|]. split; [done|].
    intros Hg2 name v Hv Hnone.
    rewrite dict_get_update by (by apply dict_update_keys_NoDup). by rewrite Hnone.
Qed.

Lemma doc_two_platforms_ready :
  init_ready (heap doc_two_platforms) cfg0 flow_def_one_stage "p" 0 1 5
    [("p", VRef 1); ("q", VRef 3)] [("values", VRef 2)]
    [] [("Y", VInt 2)] [] [] [("Y", VInt 1); ("Z", VInt 9)].
Proof.
  split; try reflexivity.
  - apply List.Forall_cons; [|apply List.Forall_nil].
    by exists 6, [], [].
  - change (NoDup [5; 6]). rewrite !NoDup_cons, !not_elem_of_cons.
    repeat split; try lia; try apply not_elem_of_nil. apply NoDup_nil_2.
  - intros l Hl. change (l ∈ [5; 6]) in Hl.
    assert (Hl' : l = 5 \/ l = 6).
    { rewrite !elem_of_cons in Hl. destruct Hl as [|[|Hl]]; auto. by apply elem_of_nil in Hl. }
    split; [lia|]. split; [lia|]. split; [intros [=]; lia|]. split; [done|].
    intros entry Hin. apply list_elem_of_singleton in Hin. subst entry.
    apply not_elem_of_nil.
Qed.

Lemma doc_two_platforms_after_p_ready :
  init_ready (heap doc_two_platforms_after_p) cfg0 flow_def_one_stage "q" 0 3 5
    [("p", VRef 1); ("q", VRef 3)] [("values", VRef 4)]
    [] [("W", VInt 7)] [] [] [("Y", VInt 2); ("Z", VInt 9)].
Proof.
  split; try reflexivity.
  - apply List.Forall_cons; [|apply List.Forall_nil].
    by exists 6, [], [].
  - change (NoDup [5; 6]). rewrite !NoDup_cons, !not_elem_of_cons.
    repeat split; try lia; try apply not_elem_of_nil. apply NoDup_nil_2.
  - intros l Hl. change (l ∈ [5; 6]) in Hl.
    assert (Hl' : l = 5 \/ l = 6).
    { rewrite !elem_of_cons in Hl. destruct Hl as [|[|Hl]]; auto. by apply elem_of_nil in Hl. }
    split; [lia|]. split; [lia|]. split; [intros [=]; lia|]. split; [done|].
    intros entry Hin. apply list_elem_of_singleton in Hin. subst entry.
    apply not_elem_of_nil.
Qed.

Lemma init_shares_definition_env_witness :
  exists fc s1,
    FlowConfig.__init__ (fun _ _ raw => raw) cfg0 flow_def_one_stage "p" doc_two_platforms
      = (Ok fc, s1) /\
    FlowConfig.r_env fc = FlowDefinition.r_env flow_def_one_stage /\
    heap s1 !! 5 = Some (ODict [("Y", VInt 2); ("Z", VInt 9)]) /\
    (exists c s2,
       FlowDefinition.get_stage_r_env flow_def_one_stage "s" s1
         = (Ok (ResolutionEnv.mk (VRef c)), s2) /\
       heap s2 !! c = Some (ODict [("Y", VInt 2); ("Z", VInt 9)])) /\
    (exists fc2 s2,
       FlowConfig.__init__ (fun _ _ raw => raw) cfg0 flow_def_one_stage "q" s1
         = (Ok fc2, s2) /\
       FlowConfig.r_env fc2 = FlowConfig.r_env fc /\
       heap s2 !! 5 = Some (ODict [("Y", VInt 2); ("Z", VInt 9); ("W", VInt 7)])).
Proof.
  destruct (init_shares_definition_env val (fun _ _ raw => raw)
              cfg0 flow_def_one_stage "p" 0 1 5
              [("p", VRef 1); ("q", VRef 3)] [("values", VRef 2)]
              [] [("Y", VInt 2)] [] [] [("Y", VInt 1); ("Z", VInt 9)]
              doc_two_platforms doc_two_platforms_ready)
    as (fc & s1 & R1 & Halias & _ & _ & He & _ & Hget & Hlater).
  assert (Es1 : s1 = doc_two_platforms_after_p).
  { pose proof R1 as R. vm_compute in R. by injection R as _ <-. }
  exists fc, s1. split; [exact R1|]. split; [exact Halias|]. split; [exact He|]. split.
  - destruct (Hget ltac:(simpl; apply NoDup_singleton) "s" (Stage.mk "s" (VRef 6)) 6 [] [])
      as (c & s2 & R2 & Hc); [simpl; left | reflexivity | reflexivity | reflexivity |].
    by exists c, s2.
  - subst s1.
    destruct (Hlater cfg0 "q" 0 3 [("p", VRef 1); ("q", VRef 3)] [("values", VRef 4)]
                [] [("W", VInt 7)] [] [] doc_two_platforms_after_p_ready)
      as (fc2 & s2 & R2 & Halias2 & He2 & _).
    by exists fc2, s2.
Defined.

(** ** Removal by value *)

Lemma comprehension_not_in_set vals vs s : forall elems,
  py_iter vals s = (Ok vs, s) ->
  forallb hashable vs = true ->
  forallb hashable elems = true ->
  comprehension elems (fun v =>
      let* st := py_set vals in
      let* found := py_in_set v st in
      ret (negb found)) s
    = (Ok (keep_unless_in vs elems), s).
Proof.
  intros elems Hit Hvs. induction elems as [|x rest IH]; intros Hel; [done|].
  simpl in Hel. apply andb_true_iff in Hel as [Hx Hrest].
  cbn [comprehension].
  assert (Hcond : (let* st := py_set vals in
                   let* found := py_in_set x st in
                   ret (negb found)) s = (Ok (negb (existsb (py_eqb x) vs)), s)).
  { assert (Hset : py_set vals s = (Ok vs, s)).
    { unfold py_set. rewrite (bind_ok _ _ _ _ _ Hit). by rewrite Hvs. }
    rewrite (bind_ok _ _ _ _ _ Hset). unfold py_in_set. by rewrite Hx. }
  rewrite (bind_ok _ _ _ _ _ Hcond).
  rewrite (bind_ok _ _ _ _ _ (IH Hrest)).
  unfold keep_unless_in. simpl. by destruct (negb (existsb (py_eqb x) vs)).
Qed.

(** The run of removal by value on a slot that holds a list of hashable
    elements, with hashable values to take out. *)
Lemma rm_ov_by_values_list_run
    (getter : val -> option string -> option string -> M val)
    (notset notlist : string -> string) (flow : val) (name : string) (vals : val)
    (platform stage : option string)
    (s s1 : state) (d vl : nat) (items : pydict) (elems vs : list val) :
  getter flow platform stage s = (Ok (VRef d), s1) ->
  heap s1 !! d = Some (ODict items) ->
  dict_get name items = Some (VRef vl) ->
  heap s1 !! vl = Some (OList elems) ->
  py_iter vals s1 = (Ok vs, s1) ->
  forallb hashable vs = true ->
  forallb hashable elems = true ->
  _rm_ov_by_values getter notset notlist flow name vals platform stage s
    = (Ok true,
       mkState (<[d := ODict (dict_set name (VRef (length (heap s1))) items)]>
                  (heap s1 ++ [OList (keep_unless_in vs elems)]))
               (stdout s1)).
Proof.
  intros Hget Hd Hname Hvl Hit Hvs Hel. unfold _rm_ov_by_values.
  rewrite (bind_ok _ _ _ _ _ Hget).
  rewrite (bind_ok _ _ _ _ _ (py_get_dict _ name _ _ Hd)). rewrite Hname. simpl default.
  rewrite (bind_ok _ _ _ _ _ (py_type_list _ _ _ Hvl)).
  change (is_list_type TyList) with true. cbv iota.
  rewrite (bind_ok _ _ _ _ _ (py_iter_list _ _ _ Hvl)).
  rewrite (bind_ok _ _ _ _ _ (comprehension_not_in_set vals vs s1 elems Hit Hvs Hel)).
  set (s2 := mkState (heap s1 ++ [OList (keep_unless_in vs elems)]) (stdout s1)).
  rewrite (bind_ok (alloc _) _ s1 (VRef (length (heap s1))) s2 eq_refl).
  assert (Hd2 : heap s2 !! d = Some (ODict items)).
  { simpl. rewrite lookup_app_l; [done|]. by apply lookup_lt_Some in Hd. }
  by rewrite (bind_ok _ _ _ _ _ (py_setitem_dict d name _ items s2 Hd2)).
Qed.

Lemma keep_unless_in_idempotent (vs elems : list val) :
  keep_unless_in vs (keep_unless_in vs elems) = keep_unless_in vs elems.
Proof.
  unfold keep_unless_in. induction elems as [|x rest IH]; [done|].
  simpl. destruct (negb (existsb (py_eqb x) vs)) eqn:E; [|done].
  simpl. rewrite E. by rewrite IH.
Qed.

(** ** Platform enumeration *)



(** ** Scope lookups are stable *)

Lemma bind_inv_ok {A B} (m : M A) (k : A -> M B) s b s' :
  bind m k s = (Ok b, s') -> exists a s0, m s = (Ok a, s0) /\ k a s0 = (Ok b, s').
Proof.
  unfold bind. destruct (m s) as [[a|e] s0]; [|done]. intros H. by exists a, s0.
Qed.

Lemma py_getitem_inv v k s a s0 :
  py_getitem v k s = (Ok a, s0) ->
  s0 = s /\ exists l items, v = VRef l /\ heap s !! l = Some (ODict items) /\
                            dict_get k items = Some a.
Proof.
  unfold py_getitem. destruct v as [| | | |l]; try done.
  destruct (heap s !! l) as [[|items]|] eqn:E; try done.
  destruct (dict_get k items) as [v|] eqn:Ek; [|done].
  intros [= <- <-]. split; [done|]. by exists l, items.
Qed.

(** The two ways a lazy lookup succeeds: the entry is made, or it was there. *)
Lemma get_lazy_dict_cases parent name s d s1 :
  _get_lazy_dict parent name s = (Ok d, s1) ->
  exists l items, parent = VRef l /\ heap s !! l = Some (ODict items) /\
    ((default VNone (dict_get name items) = VNone /\
      d = VRef (length (heap s)) /\
      s1 = mkState (<[l := ODict (dict_set name (VRef (length (heap s))) items)]>
                      (heap s ++ [ODict []])) (stdout s))
     \/ (dict_get name items = Some d /\ is_None d = false /\ s1 = s)).
Proof.
  intros H.
  assert (Hp : exists l items, parent = VRef l /\ heap s !! l = Some (ODict items)).
  { unfold _get_lazy_dict in H. apply bind_inv_ok in H as (v & s0 & Hget & _).
    unfold py_get in Hget. destruct parent as [| | | |l]; try done.
    destruct (heap s !! l) as [[|items]|] eqn:E; try done. by exists l, items. }
  destruct Hp as (l & items & -> & E). exists l, items. split; [done|]. split; [done|].
  destruct (dict_get name items) as [v|] eqn:Ek; [destruct (is_None v) eqn:Ev|].
  - destruct v; try done. left.
    rewrite (get_lazy_dict_creates l name items s E) in H by (by rewrite Ek).
    by injection H as <- <-.
  - right. rewrite (get_lazy_dict_existing l name items v s E Ek Ev) in H.
    by injection H as <- <-.
  - left. rewrite (get_lazy_dict_creates l name items s E) in H by (by rewrite Ek).
    by injection H as <- <-.
Qed.

(** After a lazy lookup that succeeded the entry is there and is not [None]. *)
Lemma get_lazy_dict_result parent name s d s1 :
  _get_lazy_dict parent name s = (Ok d, s1) ->
  exists l items, parent = VRef l /\ heap s1 !! l = Some (ODict items) /\
                  dict_get name items = Some d /\ is_None d = false.
Proof.
  intros H. apply get_lazy_dict_cases in H as (l & items & -> & E & [(Hn & -> & ->)|(Hk & Hd & ->)]).
  - exists l, (dict_set name (VRef (length (heap s))) items). split; [done|]. simpl. split.
    + apply list_lookup_insert_eq. rewrite length_app. apply lookup_lt_Some in E. lia.
    + split; [apply dict_get_set_eq | done].
  - by exists l, items.
Qed.

(** A lazy lookup keeps every entry of every dictionary that is not [None]. *)
Lemma get_lazy_dict_keeps parent name s d s1 l items k v :
  _get_lazy_dict parent name s = (Ok d, s1) ->
  heap s !! l = Some (ODict items) -> dict_get k items = Some v -> is_None v = false ->
  exists items', heap s1 !! l = Some (ODict items') /\ dict_get k items' = Some v.
Proof.
  intros H Hl Hk Hv.
  apply get_lazy_dict_cases in H as (l0 & items0 & -> & E & [(Hn & -> & ->)|(_ & _ & ->)]);
    [|by exists items].
  assert (Hlt : l < length (heap s)) by (by apply lookup_lt_Some in Hl).
  destruct (decide (l = l0)) as [->|Hne].
  - assert (items0 = items) by congruence. subst items0.
    exists (dict_set name (VRef (length (heap s))) items). simpl. split.
    + apply list_lookup_insert_eq. rewrite length_app. lia.
    + rewrite dict_get_set_ne; [done|]. intros ->. rewrite Hk in Hn. simpl in Hn. by subst v.
  - exists items. simpl. split; [|done].
    rewrite list_lookup_insert_ne by done. by rewrite lookup_app_l.
Qed.

(** A second lookup of a scope returns the same map object as the first and
    changes nothing: whatever the first lookup had to create is found by the
    second. *)
Theorem get_ov_dict_stable (dname : string) (flow : val) (platform stage : option string)
    (s s1 : state) (d : val) :
  _get_ov_dict dname flow platform stage s = (Ok d, s1) ->
  _get_ov_dict dname flow platform stage s1 = (Ok d, s1).
Proof.
  assert (Hlazy : forall parent name t d' t1,
            _get_lazy_dict parent name t = (Ok d', t1) ->
            _get_lazy_dict parent name t1 = (Ok d', t1)).
  { intros parent name t d' t1 H.
    apply get_lazy_dict_result in H as (l & items & -> & E & Hk & Hd).
    by apply (get_lazy_dict_existing l name items). }
  unfold _get_ov_dict. destruct (str_truthy platform); simpl; [|by apply Hlazy].
  intros H. apply bind_inv_ok in H as (pd & s0 & Hget & H).
  apply py_getitem_inv in Hget as (-> & fl & root & -> & Hroot & Hp).
  destruct (str_truthy stage).
  - apply bind_inv_ok in H as (sd & s2 & Hst & Hd).
    assert (Hpd : is_None pd = false).
    { apply get_lazy_dict_cases in Hst as (l & items & -> & _). done. }
    destruct (get_lazy_dict_keeps _ _ _ _ _ fl root _ pd Hst Hroot Hp Hpd) as (root1 & Hroot1 & Hp1).
    destruct (get_lazy_dict_keeps _ _ _ _ _ fl root1 _ pd Hd Hroot1 Hp1 Hpd) as (root2 & Hroot2 & Hp2).
    rewrite (bind_ok _ _ _ _ _ (py_getitem_dict _ _ _ _ _ Hroot2 Hp2)).
    assert (Hsd : is_None sd = false).
    { apply get_lazy_dict_cases in Hd as (l & items & -> & _). done. }
    apply get_lazy_dict_result in Hst as (pl & pitems & -> & Hpl & Hsk & _).
    destruct (get_lazy_dict_keeps _ _ _ _ _ pl pitems _ sd Hd Hpl Hsk Hsd) as (pitems2 & Hpl2 & Hsk2).
    rewrite (bind_ok _ _ _ _ _ (get_lazy_dict_existing _ _ _ _ _ Hpl2 Hsk2 Hsd)).
    exact (Hlazy _ _ _ _ _ Hd).
  - assert (Hpd : is_None pd = false).
    { apply get_lazy_dict_cases in H as (l & items & -> & _). done. }
    destruct (get_lazy_dict_keeps _ _ _ _ _ fl root _ pd H Hroot Hp Hpd) as (root1 & Hroot1 & Hp1).
    rewrite (bind_ok _ _ _ _ _ (py_getitem_dict _ _ _ _ _ Hroot1 Hp1)).
    exact (Hlazy _ _ _ _ _ H).
Qed.

Lemma get_ov_dict_stable_witness :
  let first := _get_ov_dict "values" (VRef 0) (Some "p") (Some "s") doc_one_platform in
  first = (Ok (VRef 3),
           mkState [ODict [("p", VRef 1)]; ODict [("s", VRef 2)];
                    ODict [("values", VRef 3)]; ODict []] []) /\
  _get_ov_dict "values" (VRef 0) (Some "p") (Some "s") (snd first) = (Ok (VRef 3), snd first).
Proof.
  split; [reflexivity|].
  exact (get_ov_dict_stable "values" (VRef 0) (Some "p") (Some "s") doc_one_platform _ _ eq_refl).
Defined.

(** ** Removal by index on a slot that holds no list *)

(** Removal by index, for any accessor that returns the slot's map and a
    non-empty index list: on a slot that is not set (or is set to [None]) the
    run fails with the not-set message, on a slot that holds anything but a
    list it fails with the not-a-list message; both leave the store as the
    accessor left it. *)
Theorem rm_ov_by_idx_unset_or_not_list
    (getter : val -> option string -> option string -> M val)
    (notset notlist : string -> string) (flow : val) (name : string) (idcs : list Z)
    (platform stage : option string) (s s1 : state) (d : nat) (items : pydict) :
  idcs <> [] ->
  getter flow platform stage s = (Ok (VRef d), s1) ->
  heap s1 !! d = Some (ODict items) ->
  (default VNone (dict_get name items) = VNone ->
   _rm_ov_by_idx getter notset notlist flow name idcs platform stage s
     = (Ok false, mkState (heap s1) (stdout s1 ++ [notset name])))
  /\
  (forall v t,
     dict_get name items = Some v ->
     py_type v s1 = (Ok t, s1) ->
     is_list_type t = false ->
     is_None v = false ->
     _rm_ov_by_idx getter notset notlist flow name idcs platform stage s
       = (Ok false, mkState (heap s1) (stdout s1 ++ [notlist name]))).
Proof.
  intros Hne Hget Hd.
  assert (Hlen : (length (sort_reverse idcs) =? 0)%nat = false).
  { assert (H := sort_reverse_nonempty idcs Hne). by destruct (sort_reverse idcs). }
  split.
  - intros Hn. unfold _rm_ov_by_idx. cbv zeta. rewrite Hlen.
    rewrite (bind_ok _ _ _ _ _ Hget).
    rewrite (bind_ok _ _ _ _ _ (py_get_dict _ name _ _ Hd)). rewrite Hn.
    by rewrite (bind_ok _ _ s1 TyNoneType s1 eq_refl).
  - intros v t Hv Ht Hl Hnn. unfold _rm_ov_by_idx. cbv zeta. rewrite Hlen.
    rewrite (bind_ok _ _ _ _ _ Hget).
    rewrite (bind_ok _ _ _ _ _ (py_get_dict _ name _ _ Hd)). rewrite Hv. simpl default.
    rewrite (bind_ok _ _ _ _ _ Ht). by rewrite Hl, Hnn.
Qed.

Lemma rm_ov_by_idx_unset_or_not_list_witness :
  _remove_values_by_idx (VRef 0) "X" [0%Z] None None doc_empty_values
    = (Ok false,
       mkState (heap doc_empty_values)
               ["Dependency `X` is not set. Nothing to remove."])
  /\ _remove_dependencies_by_idx (VRef 0) "build_dir" [0%Z] None None doc_two_dependencies
    = (Ok false,
       mkState (heap doc_two_dependencies)
               ["Dependency `build_dir` is not a list! Use unsetd instead."]).
Proof.
  split.
  - unfold _remove_values_by_idx.
    refine (proj1 (rm_ov_by_idx_unset_or_not_list _get_vals_dict _ _ (VRef 0) "X" [0%Z]
                     None None doc_empty_values doc_empty_values 1 [] _ eq_refl eq_refl)
              eq_refl).
    done.
  - unfold _remove_dependencies_by_idx.
    refine (proj2 (rm_ov_by_idx_unset_or_not_list _get_dep_dict _ _ (VRef 0) "build_dir"
                     [0%Z] None None doc_two_dependencies doc_two_dependencies 1
                     [("build_dir", VStr "build"); ("xdc", VRef 2)] _ eq_refl eq_refl)
              (VStr "build") TyStr eq_refl eq_refl eq_refl eq_refl).
    done.
Defined.

(** ** Unsetting a dependency *)

Lemma dict_get_pop_ne k name d : k <> name -> dict_get k (dict_pop name d) = dict_get k d.
Proof.
  intros Hne. induction d as [|[k1 v1] d IH]; simpl; [done|].
  destruct (String.eqb name k1) eqn:E; simpl.
  - apply String.eqb_eq in E. subst k1.
    destruct (String.eqb k name) eqn:E'; [|done]. by apply String.eqb_eq in E'.
  - by rewrite IH.
Qed.

Lemma dict_get_pop_eq name d : NoDup (map fst d) -> dict_get name (dict_pop name d) = None.
Proof.
  induction d as [|[k1 v1] d IH]; simpl; intros Hnd; [done|].
  apply NoDup_cons in Hnd as [Hk1 Hnd].
  destruct (String.eqb name k1) eqn:E; simpl.
  - apply String.eqb_eq in E. subst k1. by apply dict_get_None_keys.
  - rewrite E. by apply IH.
Qed.

Lemma dict_pop_set_absent name v d : dict_get name d = None -> dict_pop name (dict_set name v d) = d.
Proof.
  induction d as [|[k1 v1] d IH]; simpl; intros H.
  - by rewrite String.eqb_refl.
  - destruct (String.eqb name k1) eqn:E; [done|]. simpl. rewrite E. by rewrite IH.
Qed.

(** Unsetting a dependency at a scope whose dependency map the lookup
    returns: a name that is set to something other than [None] is taken out
    of the map, every other name keeps its value, and the run reports
    success; a name that is not set (or is set to [None]) is reported as not
    set, and the store stays as the lookup left it. *)
Theorem unset_dependency_spec
    (flow : val) (name : string) (platform stage : option string)
    (s s1 : state) (d : nat) (items : pydict) :
  _get_dep_dict flow platform stage s = (Ok (VRef d), s1) ->
  heap s1 !! d = Some (ODict items) ->
  (forall v,
     dict_get name items = Some v -> is_None v = false ->
     unset_dependency flow name platform stage s
       = (Ok true, mkState (<[d := ODict (dict_pop name items)]> (heap s1)) (stdout s1))
     /\ (NoDup (map fst items) -> dict_get name (dict_pop name items) = None)
     /\ (forall k, k <> name -> dict_get k (dict_pop name items) = dict_get k items))
  /\
  (default VNone (dict_get name items) = VNone ->
   unset_dependency flow name platform stage s
     = (Ok false,
        mkState (heap s1) (stdout s1 ++ ["Dependency `" +:+ name +:+ "` is not set!"]))).
Proof.
  intros Hget Hd. split.
  - intros v Hv Hnn. split; [|split].
    + unfold unset_dependency. rewrite (bind_ok _ _ _ _ _ Hget).
      rewrite (bind_ok _ _ _ _ _ (py_get_dict _ name _ _ Hd)). rewrite Hv.
      change (default VNone (Some v)) with v. rewrite Hnn.
      erewrite bind_ok; [reflexivity|].
      unfold py_dict_pop. by rewrite Hd, Hv.
    + apply dict_get_pop_eq.
    + intros k Hk. by apply dict_get_pop_ne.
  - intros Hn. unfold unset_dependency. rewrite (bind_ok _ _ _ _ _ Hget).
    rewrite (bind_ok _ _ _ _ _ (py_get_dict _ name _ _ Hd)). by rewrite Hn.
Qed.

Lemma unset_dependency_spec_witness :
  unset_dependency (VRef 0) "build_dir" None None doc_two_dependencies
    = (Ok true,
       mkState [ODict [("dependencies", VRef 1)]; ODict [("xdc", VRef 2)];
                OList [VStr "a.xdc"]] [])
  /\ unset_dependency (VRef 0) "xdc" None None doc_empty
    = (Ok false,
       mkState [ODict [("dependencies", VRef 1)]; ODict []]
               ["Dependency `xdc` is not set!"]).
Proof.
  split.
  - exact (proj1 (proj1 (unset_dependency_spec (VRef 0) "build_dir" None None
                           doc_two_dependencies doc_two_dependencies 1
                           [("build_dir", VStr "build"); ("xdc", VRef 2)] eq_refl eq_refl)
                    (VStr "build") eq_refl eq_refl)).
  - exact (proj2 (unset_dependency_spec (VRef 0) "xdc" None None doc_empty
                    (mkState [ODict [("dependencies", VRef 1)]; ODict []] []) 1 []
                    eq_refl eq_refl) eq_refl).
Defined.

(** ** Setting a dependency and unsetting it again *)

Lemma add_ov_unset_run getter failstr flow name values platform stage s s1 d items :
  getter flow platform stage s = (Ok (VRef d), s1) ->
  heap s1 !! d = Some (ODict items) ->
  default VNone (dict_get name items) = VNone ->
  _add_ov getter failstr flow name values platform stage s
    = (Ok true, mkState (<[d := ODict (dict_set name values items)]> (heap s1)) (stdout s1)).
Proof.
  intros Hget Hd Hn. unfold _add_ov. rewrite (bind_ok _ _ _ _ _ Hget).
  rewrite (bind_ok _ _ _ _ _ (py_get_dict _ name _ _ Hd)). rewrite Hn.
  rewrite (bind_ok _ _ s1 TyNoneType s1 eq_refl). simpl.
  by rewrite (bind_ok _ _ _ _ _ (py_setitem_dict _ name values _ _ Hd)).
Qed.

(** Round trip at a scope whose dependency map exists: setting a name that
    the map does not have, to a value other than [None], and unsetting it
    again, both succeed and give back the store they started from, so the
    document is exactly as before. *)
Theorem add_then_unset_dependency_restores
    (failstr : string -> string) (flow : val) (name : string) (values : val)
    (platform stage : option string) (s : state) (d : nat) (items : pydict) :
  _get_dep_dict flow platform stage s = (Ok (VRef d), s) ->
  heap s !! d = Some (ODict items) ->
  dict_get name items = None ->
  is_None values = false ->
  let s2 := mkState (<[d := ODict (dict_set name values items)]> (heap s)) (stdout s) in
  _get_dep_dict flow platform stage s2 = (Ok (VRef d), s2) ->
  (let* added := _add_ov _get_dep_dict failstr flow name values platform stage in
   let* removed := unset_dependency flow name platform stage in
   ret (added, removed)) s = (Ok (true, true), s).
Proof.
  intros Hget Hd Hn Hv s2 Hget2.
  rewrite (bind_ok _ _ _ _ _ (add_ov_unset_run _ failstr _ name values _ _ _ _ _ _ Hget Hd
                                ltac:(by rewrite Hn))).
  fold s2.
  assert (Hd2 : heap s2 !! d = Some (ODict (dict_set name values items))).
  { simpl. apply list_lookup_insert_eq. by apply lookup_lt_Some in Hd. }
  assert (Hun : unset_dependency flow name platform stage s2 = (Ok true, s)).
  { unfold unset_dependency. rewrite (bind_ok _ _ _ _ _ Hget2).
    rewrite (bind_ok _ _ _ _ _ (py_get_dict _ name _ _ Hd2)).
    rewrite dict_get_set_eq. change (default VNone (Some values)) with values. rewrite Hv.
    erewrite bind_ok; [|unfold py_dict_pop; by rewrite Hd2, dict_get_set_eq].
    unfold ret. simpl. rewrite list_insert_insert_eq, dict_pop_set_absent by done.
    rewrite list_insert_id by done. by rewrite state_eta. }
  by rewrite (bind_ok _ _ _ _ _ Hun).
Qed.

Lemma add_then_unset_dependency_restores_witness :
  (let* added := _add_ov _get_dep_dict (fun n => n) (VRef 0) "sdc" (VStr "top.sdc") None None in
   let* removed := unset_dependency (VRef 0) "sdc" None None in
   ret (added, removed)) doc_two_dependencies = (Ok (true, true), doc_two_dependencies).
Proof.
  exact (add_then_unset_dependency_restores (fun n => n) (VRef 0) "sdc" (VStr "top.sdc")
           None None doc_two_dependencies 1 [("build_dir", VStr "build"); ("xdc", VRef 2)]
           eq_refl eq_refl eq_refl eq_refl eq_refl).
Defined.

(** ** Default platform, default target, new platforms *)

Lemma py_items_dict l items s :
  heap s !! l = Some (ODict items) -> py_items (VRef l) s = (Ok items, s).
Proof. intros H. unfold py_items. by rewrite H. Qed.

Lemma platforms_run cfg flow root s :
  ProjectFlowConfig.flow_cfg cfg = VRef flow ->
  heap s !! flow = Some (ODict root) ->
  ProjectFlowConfig.platforms cfg s
    = (Ok (filter (fun platform => negb (_is_kword platform)) (map fst root)), s).
Proof.
  intros Hcfg Hroot. unfold ProjectFlowConfig.platforms. rewrite Hcfg.
  by rewrite (bind_ok _ _ _ _ _ (py_items_dict _ _ _ Hroot)).
Qed.

Lemma platform_keys_set_kword k v d :
  _is_kword k = true ->
  filter (fun platform => negb (_is_kword platform)) (map fst (dict_set k v d))
  = filter (fun platform => negb (_is_kword platform)) (map fst d).
Proof.
  intros Hk. induction d as [|[k1 v1] d IH]; simpl.
  - rewrite filter_cons_False; [done|]. rewrite Hk. simpl. tauto.
  - destruct (String.eqb k k1) eqn:E; simpl.
    + apply String.eqb_eq in E. by subst k1.
    + rewrite !filter_cons. by rewrite IH.
Qed.

(** Setting the default platform and reading it back: the setter succeeds on
    any document, the getter then returns the name that was set, and the
    platforms the configuration enumerates are the same as before. *)
Theorem default_platform_round_trip
    (cfg : ProjectFlowConfig.t) (flow : nat) (root : pydict) (device : string) (s : state) :
  ProjectFlowConfig.flow_cfg cfg = VRef flow ->
  heap s !! flow = Some (ODict root) ->
  exists s1,
    ProjectFlowConfig.set_default_platform cfg device s = (Ok true, s1) /\
    ProjectFlowConfig.get_default_platform cfg s1 = (Ok (VStr device), s1) /\
    (forall l, l <> flow -> heap s1 !! l = heap s !! l) /\
    stdout s1 = stdout s /\
    exists names,
      ProjectFlowConfig.platforms cfg s = (Ok names, s) /\
      ProjectFlowConfig.platforms cfg s1 = (Ok names, s1).
Proof.
  intros Hcfg Hroot.
  set (s1 := mkState (<[flow := ODict (dict_set "default_platform" (VStr device) root)]>
                        (heap s)) (stdout s)).
  assert (Hroot1 : heap s1 !! flow
                   = Some (ODict (dict_set "default_platform" (VStr device) root))).
  { simpl. apply list_lookup_insert_eq. by apply lookup_lt_Some in Hroot. }
  exists s1. split; [|split; [|split; [|split]]].
  - unfold ProjectFlowConfig.set_default_platform. rewrite Hcfg.
    by rewrite (bind_ok _ _ _ _ _ (py_setitem_dict _ _ _ _ _ Hroot)).
  - unfold ProjectFlowConfig.get_default_platform. rewrite Hcfg.
    rewrite (py_get_dict _ _ _ _ Hroot1). by rewrite dict_get_set_eq.
  - intros l Hl. simpl. by rewrite list_lookup_insert_ne.
  - done.
  - eexists. split; [by apply (platforms_run cfg flow root)|].
    rewrite (platforms_run cfg flow _ s1 Hcfg Hroot1).
    by rewrite platform_keys_set_kword.
Qed.

Lemma default_platform_round_trip_witness :
  exists s1,
    ProjectFlowConfig.set_default_platform cfg0 "p" doc_defaults = (Ok true, s1) /\
    ProjectFlowConfig.get_default_platform cfg0 s1 = (Ok (VStr "p"), s1) /\
    ProjectFlowConfig.platforms cfg0 doc_defaults = (Ok ["p"; "q"], doc_defaults) /\
    ProjectFlowConfig.platforms cfg0 s1 = (Ok ["p"; "q"], s1).
Proof.
  destruct (default_platform_round_trip cfg0 0
              [("default_platform", VStr "q"); ("p", VRef 1); ("q", VRef 2)] "p"
              doc_defaults eq_refl eq_refl)
    as (s1 & Hset & Hget & _ & _ & names & Hbefore & Hafter).
  exists s1. split; [exact Hset|]. split; [exact Hget|].
  assert (E : names = ["p"; "q"]).
  { pose proof Hbefore as H. vm_compute in H. by injection H. }
  rewrite <- E. by split.
Defined.

(** Setting a platform's default target and reading it back.  For a platform
    that the document does not have, both the setter and the getter raise
    [KeyError] and change nothing.  For a platform that is there, the setter
    succeeds, the getter then returns the target that was set, and only the
    platform's own map has changed. *)
Theorem default_target_round_trip
    (cfg : ProjectFlowConfig.t) (flow : nat) (root : pydict) (p target : string) (s : state) :
  ProjectFlowConfig.flow_cfg cfg = VRef flow ->
  heap s !! flow = Some (ODict root) ->
  (dict_get p root = None ->
   ProjectFlowConfig.set_default_target cfg p target s = (Raise (KeyError p), s) /\
   ProjectFlowConfig.get_default_target cfg p s = (Raise (KeyError p), s))
  /\
  (forall pl pitems,
     dict_get p root = Some (VRef pl) ->
     heap s !! pl = Some (ODict pitems) ->
     pl <> flow ->
     exists s1,
       ProjectFlowConfig.set_default_target cfg p target s = (Ok true, s1) /\
       ProjectFlowConfig.get_default_target cfg p s1 = (Ok (VStr target), s1) /\
       heap s1 !! pl = Some (ODict (dict_set "default_target" (VStr target) pitems)) /\
       (forall l, l <> pl -> heap s1 !! l = heap s !! l) /\
       stdout s1 = stdout s).
Proof.
  intros Hcfg Hroot. split.
  - intros Hp. unfold ProjectFlowConfig.set_default_target,
      ProjectFlowConfig.get_default_target. rewrite Hcfg.
    by rewrite !(bind_raise _ _ _ _ _ (py_getitem_absent _ _ _ _ Hroot Hp)).
  - intros pl pitems Hp Hpl Hne.
    set (s1 := mkState (<[pl := ODict (dict_set "default_target" (VStr target) pitems)]>
                          (heap s)) (stdout s)).
    assert (Hpl1 : heap s1 !! pl
                   = Some (ODict (dict_set "default_target" (VStr target) pitems))).
    { simpl. apply list_lookup_insert_eq. by apply lookup_lt_Some in Hpl. }
    assert (Hroot1 : heap s1 !! flow = Some (ODict root)).
    { simpl. by rewrite list_lookup_insert_ne. }
    exists s1. split; [|split; [|split; [|split]]].
    + unfold ProjectFlowConfig.set_default_target. rewrite Hcfg.
      rewrite (bind_ok _ _ _ _ _ (py_getitem_dict _ _ _ _ _ Hroot Hp)).
      by rewrite (bind_ok _ _ _ _ _ (py_setitem_dict _ _ _ _ _ Hpl)).
    + unfold ProjectFlowConfig.get_default_target. rewrite Hcfg.
      rewrite (bind_ok _ _ _ _ _ (py_getitem_dict _ _ _ _ _ Hroot1 Hp)).
      rewrite (py_get_dict _ _ _ _ Hpl1). by rewrite dict_get_set_eq.
    + done.
    + intros l Hl. simpl. by rewrite list_lookup_insert_ne.
    + done.
Qed.

Lemma default_target_round_trip_witness :
  (ProjectFlowConfig.set_default_target cfg0 "r" "route" doc_defaults
     = (Raise (KeyError "r"), doc_defaults))
  /\
  (exists s1,
     ProjectFlowConfig.set_default_target cfg0 "q" "route" doc_defaults = (Ok true, s1) /\
     ProjectFlowConfig.get_default_target cfg0 "q" s1 = (Ok (VStr "route"), s1) /\
     heap s1 !! 2 = Some (ODict [("default_target", VStr "route")])).
Proof.
  destruct (default_target_round_trip cfg0 0
              [("default_platform", VStr "q"); ("p", VRef 1); ("q", VRef 2)] "r" "route"
              doc_defaults eq_refl eq_refl) as [Hmissing _].
  destruct (default_target_round_trip cfg0 0
              [("default_platform", VStr "q"); ("p", VRef 1); ("q", VRef 2)] "q" "route"
              doc_defaults eq_refl eq_refl) as [_ Hthere].
  split; [exact (proj1 (Hmissing eq_refl))|].
  destruct (Hthere 2 [] eq_refl eq_refl ltac:(lia)) as (s1 & Hset & Hget & Hcell & _).
  by exists s1.
Defined.

(** Adding a platform under a name the document does not have: the run
    succeeds and prints nothing, the name is bound to a new empty map at the
    end of the document, and the enumeration of platforms afterwards is the
    one before followed by the new name, unless the name is a reserved
    keyword, in which case the enumeration does not change. *)
Theorem add_platform_new_name
    (cfg : ProjectFlowConfig.t) (flow : nat) (root : pydict) (device : string) (s : state) :
  ProjectFlowConfig.flow_cfg cfg = VRef flow ->
  heap s !! flow = Some (ODict root) ->
  dict_get device root = None ->
  exists s1,
    ProjectFlowConfig.add_platform cfg device s = (Ok true, s1) /\
    heap s1 !! flow = Some (ODict (root ++ [(device, VRef (length (heap s)))])) /\
    heap s1 !! length (heap s) = Some (ODict []) /\
    (forall l, l <> flow -> l < length (heap s) -> heap s1 !! l = heap s !! l) /\
    stdout s1 = stdout s /\
    exists names,
      ProjectFlowConfig.platforms cfg s = (Ok names, s) /\
      ProjectFlowConfig.platforms cfg s1
        = (Ok (if _is_kword device then names else names ++ [device]), s1).
Proof.
  intros Hcfg Hroot Hdev.
  assert (Hlt : flow < length (heap s)) by (by apply lookup_lt_Some in Hroot).
  set (n := length (heap s)).
  set (s1 := mkState (<[flow := ODict (root ++ [(device, VRef n)])]> (heap s ++ [ODict []]))
                     (stdout s)).
  assert (Hroot1 : heap s1 !! flow = Some (ODict (root ++ [(device, VRef n)]))).
  { simpl. apply list_lookup_insert_eq. rewrite length_app. lia. }
  exists s1. split; [|split; [done|split; [|split; [|split]]]].
  - unfold ProjectFlowConfig.add_platform. rewrite Hcfg.
    rewrite (bind_ok _ _ _ _ _ (py_get_dict _ device _ _ Hroot)). rewrite Hdev.
    rewrite (bind_ok _ _ s false s eq_refl). cbv iota.
    rewrite (bind_ok (alloc _) _ s (VRef n) (mkState (heap s ++ [ODict []]) (stdout s)) eq_refl).
    erewrite bind_ok.
    2:{ apply (py_setitem_dict flow device _ root). simpl. by apply lookup_alloc_old. }
    unfold ret. simpl. by rewrite dict_set_absent.
  - simpl. rewrite list_lookup_insert_ne by (unfold n; lia). apply lookup_alloc_new.
  - intros l Hne Hl. simpl. rewrite list_lookup_insert_ne by done. by rewrite lookup_app_l.
  - done.
  - eexists. split; [by apply (platforms_run cfg flow root)|].
    rewrite (platforms_run cfg flow _ s1 Hcfg Hroot1).
    rewrite map_app, filter_app. simpl map.
    destruct (_is_kword device) eqn:Ek.
    + rewrite filter_cons_False by (rewrite Ek; simpl; tauto).
      by rewrite filter_nil, app_nil_r.
    + rewrite filter_cons_True by (rewrite Ek; simpl; tauto). by rewrite filter_nil.
Qed.

Lemma add_platform_new_name_witness :
  exists s1,
    ProjectFlowConfig.add_platform cfg0 "xc7" doc_defaults = (Ok true, s1) /\
    ProjectFlowConfig.platforms cfg0 s1 = (Ok ["p"; "q"; "xc7"], s1) /\
    exists s2,
      ProjectFlowConfig.add_platform cfg0 "values" doc_defaults = (Ok true, s2) /\
      ProjectFlowConfig.platforms cfg0 s2 = (Ok ["p"; "q"], s2).
Proof.
  destruct (add_platform_new_name cfg0 0
              [("default_platform", VStr "q"); ("p", VRef 1); ("q", VRef 2)] "xc7"
              doc_defaults eq_refl eq_refl eq_refl)
    as (s1 & Hadd1 & _ & _ & _ & _ & names1 & Hb1 & Ha1).
  destruct (add_platform_new_name cfg0 0
              [("default_platform", VStr "q"); ("p", VRef 1); ("q", VRef 2)] "values"
              doc_defaults eq_refl eq_refl eq_refl)
    as (s2 & Hadd2 & _ & _ & _ & _ & names2 & Hb2 & Ha2).
  assert (E1 : names1 = ["p"; "q"]).
  { pose proof Hb1 as H. vm_compute in H. by injection H. }
  assert (E2 : names2 = ["p"; "q"]).
  { pose proof Hb2 as H. vm_compute in H. by injection H. }
  subst names1 names2.
  exists s1. split; [exact Hadd1|]. split; [exact Ha1|].
  exists s2. by split.
Defined.

(** ** The raw aggregator where it does not reach a platform or a stage *)

(** Aggregation that reads the global scope only.  Without a platform the
    stage argument is not looked at and nothing is written: the result is
    the document's own global map (the same object, not a copy) or, when the
    document has none, a new empty map outside the document.  With a platform
    the document does not have, the run raises [KeyError] and no cell of the
    store that existed has changed. *)
Theorem get_ovs_raw_global_only
    (dict_name : string) (flow : nat) (root : pydict) (stage : option string) (s : state) :
  heap s !! flow = Some (ODict root) ->
  (forall v, dict_get dict_name root = Some v -> is_None v = false ->
     _get_ovs_raw dict_name (VRef flow) None stage s = (Ok v, s))
  /\
  (default VNone (dict_get dict_name root) = VNone ->
   _get_ovs_raw dict_name (VRef flow) None stage s
     = (Ok (VRef (length (heap s))), mkState (heap s ++ [ODict []]) (stdout s)))
  /\
  (forall p, dict_get p root = None ->
     exists s',
       _get_ovs_raw dict_name (VRef flow) (Some p) stage s = (Raise (KeyError p), s') /\
       (forall l, l < length (heap s) -> heap s' !! l = heap s !! l) /\
       stdout s' = stdout s).
Proof.
  intros Hroot. split; [|split].
  - intros v Hv Hnn. unfold _get_ovs_raw.
    rewrite (bind_ok _ _ _ _ _ (py_get_dict _ dict_name _ _ Hroot)). rewrite Hv.
    change (default VNone (Some v)) with v. by rewrite Hnn.
  - intros Hn. unfold _get_ovs_raw.
    rewrite (bind_ok _ _ _ _ _ (py_get_dict _ dict_name _ _ Hroot)). by rewrite Hn.
  - intros p Hp. unfold _get_ovs_raw.
    rewrite (bind_ok _ _ _ _ _ (py_get_dict _ dict_name _ _ Hroot)).
    destruct (is_None (default VNone (dict_get dict_name root))) eqn:En.
    + set (s0 := mkState (heap s ++ [ODict []]) (stdout s)).
      rewrite (bind_ok (alloc _) _ s (VRef (length (heap s))) s0 eq_refl).
      assert (Hroot0 : heap s0 !! flow = Some (ODict root)) by (by apply lookup_alloc_old).
      exists s0. split; [|split; [|done]].
      * erewrite bind_raise; [reflexivity|].
        by rewrite (bind_raise _ _ _ _ _ (py_getitem_absent _ _ _ _ Hroot0 Hp)).
      * intros l Hl. simpl. by rewrite lookup_app_l.
    + exists s. split; [|done].
      cbv iota. rewrite (bind_ok (ret _) _ s _ s eq_refl).
      erewrite bind_raise; [reflexivity|].
      by rewrite (bind_raise _ _ _ _ _ (py_getitem_absent _ _ _ _ Hroot Hp)).
Qed.

Lemma get_ovs_raw_global_only_witness :
  _get_ovs_raw "dependencies" (VRef 0) None (Some "s") doc_two_dependencies
    = (Ok (VRef 1), doc_two_dependencies)
  /\ _get_ovs_raw "values" (VRef 0) None None doc_two_dependencies
    = (Ok (VRef 3), mkState (heap doc_two_dependencies ++ [ODict []]) [])
  /\ exists s',
       _get_ovs_raw "values" (VRef 0) (Some "p") None doc_two_dependencies
         = (Raise (KeyError "p"), s') /\
       heap s' !! 0 = Some (ODict [("dependencies", VRef 1)]).
Proof.
  destruct (get_ovs_raw_global_only "dependencies" 0 [("dependencies", VRef 1)] (Some "s")
              doc_two_dependencies eq_refl) as (H1 & _ & _).
  destruct (get_ovs_raw_global_only "values" 0 [("dependencies", VRef 1)] None
              doc_two_dependencies eq_refl) as (_ & H2 & H3).
  split; [exact (H1 (VRef 1) eq_refl eq_refl)|]. split; [exact (H2 eq_refl)|].
  destruct (H3 "p" eq_refl) as (s' & R & Hold & _).
  exists s'. split; [exact R|]. rewrite Hold; [reflexivity | simpl; lia].
Defined.

(** Aggregation at a stage the platform does not have: the run raises
    [KeyError] for the stage, but only after the platform's slot map has been
    laid over the global map, so the document's global map is left holding
    the platform's values. *)
Theorem get_ovs_raw_missing_stage
    (dict_name p st : string) (flow pl : nat) (root pitems gd pd : pydict) (s : state) :
  heap s !! flow = Some (ODict root) ->
  dict_get p root = Some (VRef pl) ->
  heap s !! pl = Some (ODict pitems) ->
  dict_get st pitems = None ->
  slot_items (heap s) (default VNone (dict_get dict_name root)) = Some gd ->
  slot_items (heap s) (default VNone (dict_get dict_name pitems)) = Some pd ->
  apart (default VNone (dict_get dict_name root)) [VRef flow; VRef pl] ->
  let gv := default VNone (dict_get dict_name root) in
  let r := match gv with VRef gl => gl | _ => length (heap s) end in
  exists s',
    _get_ovs_raw dict_name (VRef flow) (Some p) (Some st) s = (Raise (KeyError st), s') /\
    heap s' !! r = Some (ODict (dict_update gd pd)) /\
    (forall l, l <> r -> l < length (heap s) -> heap s' !! l = heap s !! l) /\
    stdout s' = stdout s.
Proof.
  intros Hflow Hp Hpl Hst Hgd Hpd Hap gv r.
  assert (Hflt : flow < length (heap s)) by (by apply lookup_lt_Some in Hflow).
  assert (Hplt : pl < length (heap s)) by (by apply lookup_lt_Some in Hpl).
  destruct (ovs_start dict_name flow root gd
              (fun vals =>
                 let* _ :=
                   (let* platform_dict := py_getitem (VRef flow) p in
                    let* platform_vals := py_get platform_dict dict_name in
                    let* _ := if negb (is_None platform_vals)
                              then py_update vals platform_vals else ret tt in
                    let* platform_dict := py_getitem (VRef flow) p in
                    let* stage_dict := py_getitem platform_dict st in
                    let* stage_deps := py_get stage_dict dict_name in
                    if negb (is_None stage_deps)
                    then py_update vals stage_deps else ret tt) in
                 ret vals) s Hflow Hgd)
    as (s0 & Hrun & Hr & Hold & Hlen & Hfresh & Hout).
  fold gv r in Hrun, Hr, Hfresh. cbv beta in Hrun.
  assert (Hdiff : r <> flow /\ r <> pl).
  { subst r gv. unfold apart in Hap.
    destruct (default VNone (dict_get dict_name root)) as [| | | |gl] eqn:Egv;
      try (simpl in Hgd; discriminate).
    - split; lia.
    - specialize (Hap gl eq_refl). rewrite !not_elem_of_cons in Hap.
      destruct Hap as (H1 & H2 & _). split; congruence. }
  destruct Hdiff as (Hrf & Hrp).
  set (s' := mkState (<[r := ODict (dict_update gd pd)]> (heap s0)) (stdout s0)).
  assert (Hflow' : heap s' !! flow = Some (ODict root)).
  { simpl. rewrite list_lookup_insert_ne by done. by rewrite Hold. }
  assert (Hpl' : heap s' !! pl = Some (ODict pitems)).
  { simpl. rewrite list_lookup_insert_ne by done. by rewrite Hold. }
  exists s'. split; [|split; [|split]].
  - unfold _get_ovs_raw. rewrite Hrun.
    erewrite bind_raise; [reflexivity|].
    rewrite (ovs_platform_step dict_name flow p pl root pitems r gd pd _ s0);
      rewrite ?Hold by done; try done.
    2:{ by apply (slot_items_agree (heap s)). }
    fold s'.
    rewrite (bind_ok _ _ _ _ _ (py_getitem_dict _ _ _ _ _ Hflow' Hp)).
    by rewrite (bind_raise _ _ _ _ _ (py_getitem_absent _ _ _ _ Hpl' Hst)).
  - simpl. rewrite list_lookup_insert_eq; [done|]. by apply lookup_lt_Some in Hr.
  - intros l Hne Hl. simpl. rewrite list_lookup_insert_ne by done. by apply Hold.
  - done.
Qed.

Lemma get_ovs_raw_missing_stage_witness :
  exists s',
    ProjectFlowConfig.get_values_raw cfg0 (Some "p") (Some "s") doc_global_and_platform
      = (Raise (KeyError "s"), s') /\
    heap doc_global_and_platform !! 1 = Some (ODict [("X", VRef 2)]) /\
    heap s' !! 1 = Some (ODict [("X", VRef 5)]).
Proof.
  destruct (get_ovs_raw_missing_stage "values" "p" "s" 0 3
              [("values", VRef 1); ("p", VRef 3)] [("values", VRef 4)]
              [("X", VRef 2)] [("X", VRef 5)] doc_global_and_platform
              eq_refl eq_refl eq_refl eq_refl eq_refl eq_refl)
    as (s' & R & Hr & _).
  - intros l E. injection E as <-. rewrite !not_elem_of_cons.
    repeat split; try discriminate. apply not_elem_of_nil.
  - exists s'. split; [exact R|]. split; [reflexivity | exact Hr].
Defined.

(** ** Removal by value on a list slot *)

Lemma keep_unless_in_elem vs elems x :
  x ∈ keep_unless_in vs elems <-> x ∈ elems /\ existsb (py_eqb x) vs = false.
Proof.
  unfold keep_unless_in. rewrite !list_elem_of_In, filter_In, negb_true_iff. tauto.
Qed.

Lemma keep_unless_in_sublist vs elems : sublist (keep_unless_in vs elems) elems.
Proof.
  unfold keep_unless_in. induction elems as [|x rest IH]; simpl; [constructor|].
  destruct (negb (existsb (py_eqb x) vs)); by constructor.
Qed.

(** Removal by value, for any accessor that returns the slot's map: on a slot
    that holds a list the slot is given a new list object, and the old list
    object is left as it was.  The new list holds the elements of the old one
    that equal none of the given values, in the order they had: it is a
    sublist of the old list, and an element of the old list is in it exactly
    when no given value equals it. *)
Theorem rm_ov_by_values_filters
    (getter : val -> option string -> option string -> M val)
    (notset notlist : string -> string) (flow : val) (name : string) (vals : val)
    (platform stage : option string)
    (s s1 : state) (d vl : nat) (items : pydict) (elems vs : list val) :
  getter flow platform stage s = (Ok (VRef d), s1) ->
  heap s1 !! d = Some (ODict items) ->
  dict_get name items = Some (VRef vl) ->
  heap s1 !! vl = Some (OList elems) ->
  py_iter vals s1 = (Ok vs, s1) ->
  forallb hashable vs = true ->
  forallb hashable elems = true ->
  exists kept s2,
    _rm_ov_by_values getter notset notlist flow name vals platform stage s
      = (Ok true, s2) /\
    heap s2 !! d = Some (ODict (dict_set name (VRef (length (heap s1))) items)) /\
    heap s2 !! length (heap s1) = Some (OList kept) /\
    (forall l, l <> d -> l < length (heap s1) -> heap s2 !! l = heap s1 !! l) /\
    stdout s2 = stdout s1 /\
    sublist kept elems /\
    (forall x, x ∈ kept <-> x ∈ elems /\ existsb (py_eqb x) vs = false).
Proof.
  intros Hget Hd Hname Hvl Hit Hvs Hel.
  assert (Hlt : d < length (heap s1)) by (by apply lookup_lt_Some in Hd).
  exists (keep_unless_in vs elems). eexists.
  split; [exact (rm_ov_by_values_list_run getter notset notlist flow name vals platform stage
                   s s1 d vl items elems vs Hget Hd Hname Hvl Hit Hvs Hel)|].
  simpl. split; [|split; [|split; [|split; [done|split]]]].
  - apply list_lookup_insert_eq. rewrite length_app. lia.
  - rewrite list_lookup_insert_ne by lia. apply lookup_alloc_new.
  - intros l Hne Hl. rewrite list_lookup_insert_ne by done. by rewrite lookup_app_l.
  - apply keep_unless_in_sublist.
  - apply keep_unless_in_elem.
Qed.

Lemma rm_ov_by_values_filters_witness :
  exists kept s2,
    _remove_values_by_values (VRef 0) "X" (VRef 3) None None doc_values_with_repeats
      = (Ok true, s2) /\
    heap s2 !! 1 = Some (ODict [("X", VRef 4)]) /\
    heap s2 !! 4 = Some (OList kept) /\
    heap s2 !! 2 = Some (OList [VStr "a"; VStr "b"; VStr "a"; VStr "c"]) /\
    kept = [VStr "b"; VStr "c"].
Proof.
  destruct (rm_ov_by_values_filters _get_vals_dict
              (fun vname => "Value `" +:+ vname +:+ "` is not set. Nothing to remove.")
              (fun vname => "Value `" +:+ vname +:+ "` is not a list! Use unsetv instead.")
              (VRef 0) "X" (VRef 3) None None
              doc_values_with_repeats doc_values_with_repeats 1 2
              [("X", VRef 2)] [VStr "a"; VStr "b"; VStr "a"; VStr "c"] [VStr "a"; VStr "z"]
              eq_refl eq_refl eq_refl eq_refl eq_refl eq_refl eq_refl)
    as (kept & s2 & R & Hd & Hnew & Hold & _).
  exists kept, s2. split; [exact R|]. split; [exact Hd|]. split; [exact Hnew|].
  split; [rewrite Hold; [reflexivity | lia | simpl; lia]|].
  pose proof R as R'. vm_compute in R'. injection R' as R'. subst s2.
  simpl in Hnew. by injection Hnew as <-.
Defined.

(** Removal by value where the membership test cannot be made.  An empty
    list slot is replaced by a new empty list whatever the values argument
    is, since no element is tested.  On a list slot with elements the run
    raises [TypeError], and leaves the store as the accessor left it, when
    the values cannot be iterated, when one of them is a list or a
    dictionary, or when the first element of the slot's list is one. *)
Theorem rm_ov_by_values_type_errors
    (getter : val -> option string -> option string -> M val)
    (notset notlist : string -> string) (flow : val) (name : string) (vals : val)
    (platform stage : option string)
    (s s1 : state) (d vl : nat) (items : pydict) :
  getter flow platform stage s = (Ok (VRef d), s1) ->
  heap s1 !! d = Some (ODict items) ->
  dict_get name items = Some (VRef vl) ->
  (heap s1 !! vl = Some (OList []) ->
   _rm_ov_by_values getter notset notlist flow name vals platform stage s
     = (Ok true,
        mkState (<[d := ODict (dict_set name (VRef (length (heap s1))) items)]>
                   (heap s1 ++ [OList []]))
                (stdout s1)))
  /\
  (forall x rest,
     heap s1 !! vl = Some (OList (x :: rest)) ->
     (py_iter vals s1 = (Raise TypeError, s1) ->
      _rm_ov_by_values getter notset notlist flow name vals platform stage s
        = (Raise TypeError, s1))
     /\
     (forall vs,
        py_iter vals s1 = (Ok vs, s1) ->
        forallb hashable vs = false \/ hashable x = false ->
        _rm_ov_by_values getter notset notlist flow name vals platform stage s
          = (Raise TypeError, s1))).
Proof.
  intros Hget Hd Hname.
  assert (Hstart : forall elems,
    heap s1 !! vl = Some (OList elems) ->
    _rm_ov_by_values getter notset notlist flow name vals platform stage s
    = (let* kept := comprehension elems (fun v =>
                      let* st := py_set vals in
                      let* found := py_in_set v st in
                      ret (negb found)) in
       let* filtered := alloc (OList kept) in
       let* _ := py_setitem (VRef d) name filtered in
       ret true) s1).
  { intros elems Hvl. unfold _rm_ov_by_values.
    rewrite (bind_ok _ _ _ _ _ Hget).
    rewrite (bind_ok _ _ _ _ _ (py_get_dict _ name _ _ Hd)). rewrite Hname.
    change (default VNone (Some (VRef vl))) with (VRef vl).
    rewrite (bind_ok _ _ _ _ _ (py_type_list _ _ _ Hvl)).
    change (is_list_type TyList) with true. cbv iota.
    by rewrite (bind_ok _ _ _ _ _ (py_iter_list _ _ _ Hvl)). }
  split.
  - intros Hvl. rewrite (Hstart _ Hvl).
    rewrite (bind_ok (comprehension [] _) _ s1 [] s1 eq_refl).
    set (s2 := mkState (heap s1 ++ [OList []]) (stdout s1)).
    rewrite (bind_ok (alloc _) _ s1 (VRef (length (heap s1))) s2 eq_refl).
    assert (Hd2 : heap s2 !! d = Some (ODict items)) by (by apply lookup_alloc_old).
    by rewrite (bind_ok _ _ _ _ _ (py_setitem_dict d name _ items s2 Hd2)).
  - intros x rest Hvl. split.
    + intros Hit. rewrite (Hstart _ Hvl).
      apply bind_raise. cbn [comprehension]. apply bind_raise. apply bind_raise.
      unfold py_set. by apply bind_raise.
    + intros vs Hit Hbad. rewrite (Hstart _ Hvl).
      apply bind_raise. cbn [comprehension]. apply bind_raise.
      destruct (forallb hashable vs) eqn:Hvs.
      * destruct Hbad as [|Hx]; [done|].
        assert (Hset : py_set vals s1 = (Ok vs, s1)).
        { unfold py_set. rewrite (bind_ok _ _ _ _ _ Hit). by rewrite Hvs. }
        rewrite (bind_ok _ _ _ _ _ Hset). apply bind_raise.
        unfold py_in_set. by rewrite Hx.
      * apply bind_raise. unfold py_set. rewrite (bind_ok _ _ _ _ _ Hit). by rewrite Hvs.
Qed.

Lemma rm_ov_by_values_type_errors_witness :
  _remove_values_by_values (VRef 0) "E" (VInt 7) None None doc_nested_values
    = (Ok true,
       mkState [ODict [("values", VRef 1)]; ODict [("X", VRef 2); ("E", VRef 5)];
                OList [VStr "a"]; OList []; OList [VRef 2]; OList []] [])
  /\ _remove_values_by_values (VRef 0) "X" (VInt 7) None None doc_nested_values
       = (Raise TypeError, doc_nested_values)
  /\ _remove_values_by_values (VRef 0) "X" (VRef 4) None None doc_nested_values
       = (Raise TypeError, doc_nested_values).
Proof.
  unfold _remove_values_by_values. split; [|split].
  - exact (proj1 (rm_ov_by_values_type_errors _get_vals_dict _ _ (VRef 0) "E" (VInt 7)
                    None None doc_nested_values doc_nested_values 1 3
                    [("X", VRef 2); ("E", VRef 3)] eq_refl eq_refl eq_refl) eq_refl).
  - exact (proj1 (proj2 (rm_ov_by_values_type_errors _get_vals_dict _ _ (VRef 0) "X" (VInt 7)
                           None None doc_nested_values doc_nested_values 1 2
                           [("X", VRef 2); ("E", VRef 3)] eq_refl eq_refl eq_refl)
                    (VStr "a") [] eq_refl) eq_refl).
  - exact (proj2 (proj2 (rm_ov_by_values_type_errors _get_vals_dict _ _ (VRef 0) "X" (VRef 4)
                           None None doc_nested_values doc_nested_values 1 2
                           [("X", VRef 2); ("E", VRef 3)] eq_refl eq_refl eq_refl)
                    (VStr "a") [] eq_refl) [VRef 2] eq_refl (or_introl eq_refl)).
Defined.

Lemma dict_set_set k v v' d : dict_set k v' (dict_set k v d) = dict_set k v' d.
Proof.
  induction d as [|[k1 v1] d IH]; simpl.
  - by rewrite String.eqb_refl.
  - destruct (String.eqb k k1) eqn:E; simpl.
    + by rewrite String.eqb_refl.
    + by rewrite E, IH.
Qed.

(** Removal by value is idempotent: removing the same values a second time
    succeeds again and gives the slot a list with the same elements as the
    first removal left. *)
Theorem rm_ov_by_values_twice
    (getter : val -> option string -> option string -> M val)
    (notset notlist : string -> string) (flow : val) (name : string) (vals : val)
    (platform stage : option string)
    (s s1 : state) (d vl : nat) (items : pydict) (elems vs : list val) :
  getter flow platform stage s = (Ok (VRef d), s1) ->
  heap s1 !! d = Some (ODict items) ->
  dict_get name items = Some (VRef vl) ->
  heap s1 !! vl = Some (OList elems) ->
  py_iter vals s1 = (Ok vs, s1) ->
  forallb hashable vs = true ->
  forallb hashable elems = true ->
  let n := length (heap s1) in
  let once := mkState (<[d := ODict (dict_set name (VRef n) items)]>
                         (heap s1 ++ [OList (keep_unless_in vs elems)])) (stdout s1) in
  getter flow platform stage once = (Ok (VRef d), once) ->
  py_iter vals once = (Ok vs, once) ->
  _rm_ov_by_values getter notset notlist flow name vals platform stage s = (Ok true, once)
  /\
  exists twice,
    (let* _ := _rm_ov_by_values getter notset notlist flow name vals platform stage in
     _rm_ov_by_values getter notset notlist flow name vals platform stage) s
      = (Ok true, twice) /\
    heap once !! d = Some (ODict (dict_set name (VRef n) items)) /\
    heap once !! n = Some (OList (keep_unless_in vs elems)) /\
    heap twice !! d = Some (ODict (dict_set name (VRef (S n)) items)) /\
    heap twice !! S n = Some (OList (keep_unless_in vs elems)) /\
    stdout twice = stdout s1.
Proof.
  intros Hget Hd Hname Hvl Hit Hvs Hel n once Hget2 Hit2.
  assert (Hlt : d < n) by (by apply lookup_lt_Some in Hd).
  assert (R1 := rm_ov_by_values_list_run getter notset notlist flow name vals platform stage
                  s s1 d vl items elems vs Hget Hd Hname Hvl Hit Hvs Hel).
  fold n once in R1. split; [exact R1|].
  assert (Hd1 : heap once !! d = Some (ODict (dict_set name (VRef n) items))).
  { simpl. apply list_lookup_insert_eq. rewrite length_app. lia. }
  assert (Hn1 : heap once !! n = Some (OList (keep_unless_in vs elems))).
  { simpl. rewrite list_lookup_insert_ne by lia. apply lookup_alloc_new. }
  assert (Hkept : forallb hashable (keep_unless_in vs elems) = true).
  { rewrite forallb_forall in Hel |- *. intros x Hx.
    apply list_elem_of_In, keep_unless_in_elem in Hx as [Hx _].
    by apply Hel, list_elem_of_In. }
  assert (R2 := rm_ov_by_values_list_run getter notset notlist flow name vals platform stage
                  once once d n (dict_set name (VRef n) items) (keep_unless_in vs elems) vs
                  Hget2 Hd1 (dict_get_set_eq _ _ _) Hn1 Hit2 Hvs Hkept).
  assert (Hlen : length (heap once) = S n).
  { simpl. rewrite length_insert, length_app. simpl. lia. }
  rewrite Hlen, dict_set_set, keep_unless_in_idempotent in R2.
  eexists. split; [by rewrite (bind_ok _ _ _ _ _ R1)|].
  split; [done|]. split; [done|]. cbn [heap stdout]. split; [|split; [|done]].
  - apply list_lookup_insert_eq. rewrite length_app. lia.
  - rewrite list_lookup_insert_ne by lia. rewrite <- Hlen. apply lookup_alloc_new.
Qed.

Lemma rm_ov_by_values_twice_witness :
  exists twice,
    (let* _ := _remove_values_by_values (VRef 0) "X" (VRef 3) None None in
     _remove_values_by_values (VRef 0) "X" (VRef 3) None None) doc_values_with_repeats
      = (Ok true, twice) /\
    heap twice !! 1 = Some (ODict [("X", VRef 5)]) /\
    heap twice !! 5 = Some (OList [VStr "b"; VStr "c"]) /\
    heap twice !! 4 = Some (OList [VStr "b"; VStr "c"]).
Proof.
  destruct (rm_ov_by_values_twice _get_vals_dict
              (fun vname => "Value `" +:+ vname +:+ "` is not set. Nothing to remove.")
              (fun vname => "Value `" +:+ vname +:+ "` is not a list! Use unsetv instead.")
              (VRef 0) "X" (VRef 3) None None
              doc_values_with_repeats doc_values_with_repeats 1 2
              [("X", VRef 2)] [VStr "a"; VStr "b"; VStr "a"; VStr "c"] [VStr "a"; VStr "z"]
              eq_refl eq_refl eq_refl eq_refl eq_refl eq_refl eq_refl eq_refl eq_refl)
    as (_ & twice & R & _ & _ & Hd & Hnew & _).
  exists twice. split; [exact R|]. split; [exact Hd|]. split; [exact Hnew|].
  pose proof R as R'. vm_compute in R'. injection R' as R'. by subst twice.
Defined.

(** ** Appending values and removing them again by index *)

Lemma add_ov_list_run getter failstr flow name values platform stage s s1 d items vl elems ys :
  getter flow platform stage s = (Ok (VRef d), s1) ->
  heap s1 !! d = Some (ODict items) ->
  dict_get name items = Some (VRef vl) ->
  heap s1 !! vl = Some (OList elems) ->
  py_iter values s1 = (Ok ys, s1) ->
  _add_ov getter failstr flow name values platform stage s
    = (Ok true, mkState (<[vl := OList (elems ++ ys)]> (heap s1)) (stdout s1)).
Proof.
  intros Hget Hd Hname Hvl Hit. unfold _add_ov. rewrite (bind_ok _ _ _ _ _ Hget).
  rewrite (bind_ok _ _ _ _ _ (py_get_dict _ name _ _ Hd)). rewrite Hname.
  change (default VNone (Some (VRef vl))) with (VRef vl).
  rewrite (bind_ok _ _ _ _ _ (py_type_list _ _ _ Hvl)).
  change (is_list_type TyList) with true. cbv iota.
  by rewrite (bind_ok _ _ _ _ _ (py_list_iadd_list _ _ _ _ _ Hvl Hit)).
Qed.

Lemma rm_ov_by_idx_in_range_run getter notset notlist flow name idcs platform stage
    s s1 d items vl elems :
  idcs <> [] ->
  getter flow platform stage s = (Ok (VRef d), s1) ->
  heap s1 !! d = Some (ODict items) ->
  dict_get name items = Some (VRef vl) ->
  heap s1 !! vl = Some (OList elems) ->
  NoDup idcs ->
  (forall i, i ∈ idcs -> (0 <= i <= Z.of_nat (length elems) - 1)%Z) ->
  _rm_ov_by_idx getter notset notlist flow name idcs platform stage s
    = (Ok true,
       mkState (<[vl := OList (remove_positions idcs elems)]> (heap s1)) (stdout s1)).
Proof.
  intros Hne Hget Hd Hname Hvl Hnd Hrange.
  assert (Hsne := sort_reverse_nonempty idcs Hne).
  assert (Hlen : (length (sort_reverse idcs) =? 0)%nat = false).
  { destruct (sort_reverse idcs); [done|]. reflexivity. }
  assert (E1 : (Z.of_nat (length elems) <=? List.hd 0%Z (sort_reverse idcs))%Z = false).
  { apply Z.leb_gt. assert (H := hd_elem _ Hsne). apply (proj1 (sort_reverse_elem _ _)) in H.
    apply Hrange in H. lia. }
  assert (E2 : (List.last (sort_reverse idcs) 0 <? 0)%Z = false).
  { apply Z.ltb_ge. assert (H := last_elem _ Hsne). apply (proj1 (sort_reverse_elem _ _)) in H.
    apply Hrange in H. lia. }
  unfold _rm_ov_by_idx. cbv zeta. rewrite Hlen.
  rewrite (bind_ok _ _ _ _ _ Hget).
  rewrite (bind_ok _ _ _ _ _ (py_get_dict _ name _ _ Hd)). rewrite Hname.
  change (default VNone (Some (VRef vl))) with (VRef vl).
  rewrite (bind_ok _ _ _ _ _ (py_type_list _ _ _ Hvl)).
  change (is_list_type TyList) with true. cbv iota.
  rewrite (bind_ok _ _ _ _ _ (py_len_list _ _ _ Hvl)). rewrite E1, E2.
  change (false || false) with false. cbv iota.
  rewrite (bind_ok _ _ s1 tt
    (mkState (<[vl := OList (keep_from 0 (sort_reverse idcs) elems)]> (heap s1)) (stdout s1))).
  - unfold ret, remove_positions.
    rewrite (keep_from_ext 0 (sort_reverse idcs) idcs); [done|].
    intros x. apply sort_reverse_elem.
  - apply pops_descending; [| |done].
    + apply sorted_NoDup_strict; [apply sort_reverse_sorted | by apply sort_reverse_NoDup].
    + intros i Hi. apply (proj1 (sort_reverse_elem _ _)) in Hi. apply Hrange in Hi. lia.
Qed.

Lemma keep_from_app {A} (idcs : list Z) (a b : list A) : forall k,
  keep_from k idcs (a ++ b)
  = keep_from k idcs a ++ keep_from (k + Z.of_nat (length a)) idcs b.
Proof.
  induction a as [|x a IH]; intros k; simpl.
  - by rewrite Z.add_0_r.
  - rewrite IH. replace (k + 1 + Z.of_nat (length a))%Z with (k + Z.pos (Pos.of_succ_nat (length a)))%Z by lia.
    by destruct (existsb (Z.eqb k) idcs).
Qed.

Lemma keep_from_none {A} (idcs : list Z) (l : list A) : forall k,
  (forall j, j ∈ idcs -> (j < k \/ k + Z.of_nat (length l) <= j)%Z) ->
  keep_from k idcs l = l.
Proof.
  induction l as [|x l IH]; intros k H; simpl; [done|].
  destruct (existsb (Z.eqb k) idcs) eqn:E.
  - apply existsb_eqb_elem in E. apply H in E. simpl in E. lia.
  - rewrite IH; [done|]. intros j Hj. apply H in Hj. simpl in Hj. lia.
Qed.

Lemma keep_from_all {A} (idcs : list Z) (l : list A) : forall k,
  (forall j, (k <= j < k + Z.of_nat (length l))%Z -> j ∈ idcs) ->
  keep_from k idcs l = [].
Proof.
  induction l as [|x l IH]; intros k H; simpl; [done|].
  assert (E : existsb (Z.eqb k) idcs = true).
  { apply existsb_eqb_elem. apply H. simpl. lia. }
  rewrite E. apply IH. intros j Hj. apply H. simpl. lia.
Qed.

Lemma appended_positions_elem elems ys j :
  j ∈ appended_positions elems ys
  <-> (Z.of_nat (length elems) <= j < Z.of_nat (length elems) + Z.of_nat (length ys))%Z.
Proof.
  unfold appended_positions. rewrite list_elem_of_fmap. split.
  - intros (i & -> & Hi). apply elem_of_seq in Hi. lia.
  - intros Hj. exists (Z.to_nat j). split; [lia|]. apply elem_of_seq. lia.
Qed.

Lemma remove_appended_positions elems ys :
  remove_positions (appended_positions elems ys) (elems ++ ys) = elems.
Proof.
  unfold remove_positions. rewrite keep_from_app, Z.add_0_l.
  rewrite keep_from_none, keep_from_all; [by rewrite app_nil_r | |].
  - intros j Hj. by apply appended_positions_elem.
  - intros j Hj. apply appended_positions_elem in Hj. lia.
Qed.

Lemma sort_reverse_descending (l : list Z) :
  StronglySorted (fun a b => (b <= a)%Z) l -> sort_reverse l = l.
Proof.
  induction 1 as [|x l Hs IH Hall]; [done|].
  change (sort_reverse (x :: l)) with (insert_desc x (sort_reverse l)). rewrite IH.
  destruct l as [|y rest]; [done|]. simpl.
  apply Forall_cons in Hall as [Hy _].
  by rewrite (proj2 (Z.leb_le y x) Hy).
Qed.

Lemma elem_of_rev_iff {A} (x : A) (l : list A) : x ∈ rev l <-> x ∈ l.
Proof. rewrite !list_elem_of_In. symmetry. apply in_rev. Qed.

Lemma rev_appended_positions_sorted elems ys :
  StronglySorted (fun a b => (b <= a)%Z) (rev (appended_positions elems ys)).
Proof.
  unfold appended_positions. generalize (length elems) as n.
  induction (length ys) as [|m IH]; intros n; [constructor|].
  rewrite seq_S, map_app, rev_app_distr. simpl. constructor; [apply IH|].
  apply Forall_forall. intros j Hj.
  apply elem_of_rev_iff, list_elem_of_fmap in Hj as (i & -> & Hi).
  apply elem_of_seq in Hi. lia.
Qed.

(** Round trip on a slot that holds a list: appending values to it and then
    removing by index the positions the appended values took, listed from
    the highest down, both succeed and leave the list, and the store, as they
    were before the append.  Listed in that order the index list is already
    as the removal sorts it, so the sort leaves the caller's list as it
    is. *)
Theorem add_then_remove_by_idx_restores
    (getter : val -> option string -> option string -> M val)
    (failstr notset notlist : string -> string) (flow : val) (name : string) (values : val)
    (platform stage : option string)
    (s s1 : state) (d vl : nat) (items : pydict) (elems ys : list val) :
  getter flow platform stage s = (Ok (VRef d), s1) ->
  heap s1 !! d = Some (ODict items) ->
  dict_get name items = Some (VRef vl) ->
  heap s1 !! vl = Some (OList elems) ->
  py_iter values s1 = (Ok ys, s1) ->
  ys <> [] ->
  let s2 := mkState (<[vl := OList (elems ++ ys)]> (heap s1)) (stdout s1) in
  getter flow platform stage s2 = (Ok (VRef d), s2) ->
  let idcs := rev (appended_positions elems ys) in
  sort_reverse idcs = idcs /\
  (let* added := _add_ov getter failstr flow name values platform stage in
   let* removed := _rm_ov_by_idx getter notset notlist flow name idcs platform stage in
   ret (added, removed)) s = (Ok (true, true), s1).
Proof.
  intros Hget Hd Hname Hvl Hit Hys s2 Hget2 idcs.
  split; [apply sort_reverse_descending, rev_appended_positions_sorted|].
  assert (Hvlt : vl < length (heap s1)) by (by apply lookup_lt_Some in Hvl).
  assert (Hne : d <> vl) by (intros ->; congruence).
  rewrite (bind_ok _ _ _ _ _ (add_ov_list_run _ failstr _ _ _ _ _ _ _ _ _ _ _ _
                                Hget Hd Hname Hvl Hit)).
  fold s2.
  assert (Hd2 : heap s2 !! d = Some (ODict items)).
  { simpl. by rewrite list_lookup_insert_ne. }
  assert (Hvl2 : heap s2 !! vl = Some (OList (elems ++ ys))).
  { simpl. by apply list_lookup_insert_eq. }
  assert (Helem : forall i, i ∈ idcs <-> i ∈ appended_positions elems ys).
  { intros i. unfold idcs. apply elem_of_rev_iff. }
  erewrite bind_ok.
  2:{ apply (rm_ov_by_idx_in_range_run getter notset notlist flow name idcs platform stage
               s2 s2 d items vl (elems ++ ys)); try done.
      - intros E. apply (f_equal (@length Z)) in E. unfold idcs in E.
        rewrite length_rev in E. unfold appended_positions in E.
        rewrite length_map, length_seq in E. by destruct ys.
      - unfold idcs, appended_positions.
        apply NoDup_ListNoDup, List.NoDup_rev, NoDup_ListNoDup.
        apply NoDup_fmap; [|apply NoDup_seq]. intros a b Hab. lia.
      - intros i Hi. apply Helem, appended_positions_elem in Hi. rewrite length_app. lia. }
  unfold ret. simpl. unfold remove_positions.
  rewrite (keep_from_ext 0 idcs (appended_positions elems ys)) by done.
  fold (remove_positions (appended_positions elems ys) (elems ++ ys)).
  rewrite remove_appended_positions, list_insert_insert_eq.
  rewrite list_insert_id by done. by rewrite state_eta.
Qed.

Lemma add_then_remove_by_idx_restores_witness :
  rev (appended_positions [VStr "a.xdc"] [VStr "b.xdc"; VStr "c.xdc"]) = [2%Z; 1%Z]
  /\
  sort_reverse [2%Z; 1%Z] = [2%Z; 1%Z]
  /\
  (let* added := _add_ov _get_dep_dict (fun n => n) (VRef 0) "xdc" (VRef 3) None None in
   let* removed := _remove_dependencies_by_idx (VRef 0) "xdc" [2%Z; 1%Z] None None in
   ret (added, removed))
    (mkState (heap doc_two_dependencies ++ [OList [VStr "b.xdc"; VStr "c.xdc"]]) [])
  = (Ok (true, true),
     mkState (heap doc_two_dependencies ++ [OList [VStr "b.xdc"; VStr "c.xdc"]]) []).
Proof.
  split; [reflexivity|].
  refine (add_then_remove_by_idx_restores _get_dep_dict (fun n => n) _ _ (VRef 0) "xdc"
           (VRef 3) None None
           (mkState (heap doc_two_dependencies ++ [OList [VStr "b.xdc"; VStr "c.xdc"]]) [])
           (mkState (heap doc_two_dependencies ++ [OList [VStr "b.xdc"; VStr "c.xdc"]]) [])
           1 2 [("build_dir", VStr "build"); ("xdc", VRef 2)]
           [VStr "a.xdc"] [VStr "b.xdc"; VStr "c.xdc"]
           eq_refl eq_refl eq_refl eq_refl eq_refl _ eq_refl).
  discriminate.
Defined.

(** ** Construction of a flow definition *)

Section DefinitionConstructor.

Variable new_Stage : string -> val -> val -> M Stage.t.

(** The stage constructor succeeds and leaves the objects that exist as they
    are. *)
Hypothesis new_Stage_frame : forall n m o t,
  exists st t',
    new_Stage n m o t = (Ok st, t') /\
    (forall l, l < length (heap t) -> heap t' !! l = heap t !! l) /\
    length (heap t) <= length (heap t').

Lemma build_stages_run mo modopts : forall items t,
  heap t !! mo = Some (ODict modopts) ->
  exists stages t',
    FlowDefinition.build_stages new_Stage (VRef mo) items t = (Ok stages, t') /\
    map fst stages = map fst items /\
    Forall2 (fun item entry =>
               exists u u',
                 new_Stage (fst item) (snd item)
                           (default VNone (dict_get (fst item) modopts)) u
                 = (Ok (snd entry), u'))
            items stages /\
    (forall l, l < length (heap t) -> heap t' !! l = heap t !! l) /\
    length (heap t) <= length (heap t').
Proof.
  induction items as [|[n m] rest IH]; intros t Hmo.
  - exists [], t. split; [done|]. split; [done|]. split; [constructor|]. done.
  - destruct (new_Stage_frame n m (default VNone (dict_get n modopts)) t)
      as (st & t1 & R1 & Hold1 & Hlen1).
    assert (Hmo1 : heap t1 !! mo = Some (ODict modopts)).
    { rewrite Hold1; [done | by apply lookup_lt_Some in Hmo]. }
    destruct (IH t1 Hmo1) as (stages & t' & R & Hkeys & Hall & Hold & Hlen).
    exists ((n, st) :: stages), t'. split; [|split; [|split; [|split]]].
    + cbn [FlowDefinition.build_stages].
      rewrite (bind_ok _ _ _ _ _ (py_get_dict _ n _ _ Hmo)).
      rewrite (bind_ok _ _ _ _ _ R1). by rewrite (bind_ok _ _ _ _ _ R).
    + simpl. by rewrite Hkeys.
    + constructor; [by exists t, t1 | done].
    + intros l Hl. rewrite Hold by lia. by apply Hold1.
    + lia.
Qed.

(** Construction of a flow definition from a pipeline template.  The
    template's global values, if any, are laid over the mapping of the
    environment it is given, and the definition keeps that environment object
    itself.  If the template has no [stages] entry the constructor raises
    [KeyError], after the environment has been changed.  Otherwise the
    definition gets one stage per entry of the template's stages, under the
    same names and in the same order, each made by the stage constructor from
    the entry's name, its module reference and the options the template holds
    under that name ([None] if it holds none). *)
Theorem flow_definition_init
    (fd e : nat) (tmpl base vals : pydict) (env : ResolutionEnv.t) (s : state) :
  heap s !! fd = Some (ODict tmpl) ->
  ResolutionEnv.values env = VRef e ->
  heap s !! e = Some (ODict base) ->
  e <> fd ->
  slot_items (heap s) (default VNone (dict_get "values" tmpl)) = Some vals ->
  (dict_get "stages" tmpl = None ->
   exists s',
     FlowDefinition.__init__ new_Stage (VRef fd) env s = (Raise (KeyError "stages"), s') /\
     heap s' !! e = Some (ODict (dict_update base vals)))
  /\
  (forall sd sitems modopts,
     dict_get "stages" tmpl = Some (VRef sd) ->
     heap s !! sd = Some (ODict sitems) ->
     sd <> e ->
     slot_items (heap s) (default VNone (dict_get "stage_options" tmpl)) = Some modopts ->
     default VNone (dict_get "stage_options" tmpl) <> VRef e ->
     exists D s',
       FlowDefinition.__init__ new_Stage (VRef fd) env s = (Ok D, s') /\
       FlowDefinition.r_env D = env /\
       FlowDefinition.flow_def D = VRef fd /\
       FlowDefinition.stage_names D = map fst sitems /\
       Forall2 (fun item entry =>
                  exists u u',
                    new_Stage (fst item) (snd item)
                              (default VNone (dict_get (fst item) modopts)) u
                    = (Ok (snd entry), u'))
               sitems (FlowDefinition.stages D) /\
       heap s' !! e = Some (ODict (dict_update base vals))).
Proof.
  intros Hfd Henv Hbase Hne Hvals.
  assert (Helt : e < length (heap s)) by (by apply lookup_lt_Some in Hbase).
  set (sU := mkState (<[e := ODict (dict_update base vals)]> (heap s)) (stdout s)).
  assert (HeU : heap sU !! e = Some (ODict (dict_update base vals))).
  { simpl. by apply list_lookup_insert_eq. }
  assert (HfdU : heap sU !! fd = Some (ODict tmpl)).
  { simpl. by rewrite list_lookup_insert_ne. }
  assert (Hstart : forall A (K : M A),
            (let* global_vals := py_get (VRef fd) "values" in
             let* _ := if negb (is_None global_vals)
                       then ResolutionEnv.add_values env global_vals else ret tt in
             K) s = K sU).
  { intros A K. rewrite (bind_ok _ _ _ _ _ (py_get_dict _ "values" _ _ Hfd)).
    unfold ResolutionEnv.add_values. rewrite Henv.
    by rewrite (bind_ok _ _ _ _ _ (update_if_present _ _ _ _ _ Hbase Hvals)). }
  split.
  - intros Hst. exists sU. split; [|done].
    unfold FlowDefinition.__init__. rewrite Hstart.
    by rewrite (bind_raise _ _ _ _ _ (py_getitem_absent _ _ _ _ HfdU Hst)).
  - intros sd sitems modopts Hst Hsd Hsde Hmo Hmoe.
    assert (HsdU : heap sU !! sd = Some (ODict sitems)).
    { simpl. by rewrite list_lookup_insert_ne. }
    assert (HmoU : slot_items (heap sU) (default VNone (dict_get "stage_options" tmpl))
                   = Some modopts).
    { by apply slot_items_insert_ne. }
    assert (Hmodopts : exists mo t0,
              (forall A (K : val -> M A),
                 (let* modopts_d := py_get (VRef fd) "stage_options" in
                  let* modopts_d := if is_None modopts_d then alloc (ODict [])
                                    else ret modopts_d in
                  K modopts_d) sU = K (VRef mo) t0) /\
              heap t0 !! mo = Some (ODict modopts) /\
              (forall l, l < length (heap sU) -> heap t0 !! l = heap sU !! l)).
    { destruct (default VNone (dict_get "stage_options" tmpl)) as [| | | |mo] eqn:Emo;
        try (simpl in HmoU; discriminate).
      - injection HmoU as <-. exists (length (heap sU)), (mkState (heap sU ++ [ODict []]) (stdout sU)).
        split; [|split].
        + intros A K. rewrite (bind_ok _ _ _ _ _ (py_get_dict _ "stage_options" _ _ HfdU)).
          by rewrite Emo.
        + apply lookup_alloc_new.
        + intros l Hl. simpl. by rewrite lookup_app_l.
      - unfold slot_items in HmoU.
        destruct (heap sU !! mo) as [[|dd]|] eqn:E; try done.
        injection HmoU as ->. exists mo, sU. split; [|done].
        intros A K. rewrite (bind_ok _ _ _ _ _ (py_get_dict _ "stage_options" _ _ HfdU)).
        by rewrite Emo. }
    destruct Hmodopts as (mo & t0 & Hrun0 & Hmo0 & Hold0).
    assert (Hsd0 : heap t0 !! sd = Some (ODict sitems)).
    { rewrite Hold0; [done | by apply lookup_lt_Some in HsdU]. }
    destruct (build_stages_run mo modopts sitems t0 Hmo0)
      as (stages & t' & R & Hkeys & Hall & Hold & Hlen).
    exists (FlowDefinition.mk (VRef fd) env stages), t'.
    split; [|split; [done|split; [done|split; [done|split; [done|]]]]].
    + unfold FlowDefinition.__init__. rewrite Hstart.
      rewrite (bind_ok _ _ _ _ _ (py_getitem_dict _ _ _ _ _ HfdU Hst)).
      rewrite Hrun0.
      rewrite (bind_ok _ _ _ _ _ (py_items_dict _ _ _ Hsd0)).
      by rewrite (bind_ok _ _ _ _ _ R).
    + assert (He0 : heap t0 !! e = Some (ODict (dict_update base vals))).
      { rewrite Hold0; [done | by apply lookup_lt_Some in HeU]. }
      rewrite Hold; [done | by apply lookup_lt_Some in He0].
Qed.

End DefinitionConstructor.

Lemma new_stage_with_empty_overrides_frame n m o t :
  exists st t',
    new_stage_with_empty_overrides n m o t = (Ok st, t') /\
    (forall l, l < length (heap t) -> heap t' !! l = heap t !! l) /\
    length (heap t) <= length (heap t').
Proof.
  eexists _, _. split; [reflexivity|]. simpl. split.
  - intros l Hl. by rewrite lookup_app_l.
  - rewrite length_app. lia.
Qed.

Lemma flow_definition_init_witness :
  exists D s',
    FlowDefinition.__init__ new_stage_with_empty_overrides (VRef 0) (ResolutionEnv.mk (VRef 5))
      doc_template = (Ok D, s') /\
    FlowDefinition.stage_names D = ["synth"; "route"] /\
    heap s' !! 5 = Some (ODict [("Z", VInt 9); ("Y", VInt 1)]).
Proof.
  destruct (flow_definition_init new_stage_with_empty_overrides
              new_stage_with_empty_overrides_frame 0 5
              [("values", VRef 1); ("stages", VRef 2); ("stage_options", VRef 3)]
              [("Z", VInt 9)] [("Y", VInt 1)] (ResolutionEnv.mk (VRef 5)) doc_template
              eq_refl eq_refl eq_refl ltac:(lia) eq_refl) as [_ H].
  destruct (H 2 [("synth", VStr "synth"); ("route", VStr "route")] [("route", VRef 4)]
              eq_refl eq_refl ltac:(lia) eq_refl ltac:(discriminate))
    as (D & s' & R & _ & _ & Hnames & _ & He).
  by exists D, s'.
Defined.

(** ** Asking a flow configuration for a stage *)

Lemma lookup_stage_missing stages n s :
  n ∉ map fst stages ->
  FlowDefinition.lookup_stage stages n s = (Raise (KeyError n), s).
Proof.
  unfold FlowDefinition.lookup_stage.
  induction stages as [|[n1 st1] rest IH]; intros Hn; [done|].
  simpl in *. apply not_elem_of_cons in Hn as [Hne Hn].
  destruct (String.eqb n n1) eqn:E; [|by apply IH].
  by apply String.eqb_eq in E.
Qed.

Lemma stage_env_state stages n stage env e vo E V s :
  NoDup (map fst stages) -> (n, stage) ∈ stages ->
  ResolutionEnv.values env = VRef e -> heap s !! e = Some (ODict E) ->
  Stage.value_overrides stage = VRef vo -> heap s !! vo = Some (ODict V) ->
  (let* stage := FlowDefinition.lookup_stage stages n in
   let* r_env := ResolutionEnv.__copy__ env in
   let* _ := ResolutionEnv.add_values r_env (Stage.value_overrides stage) in
   ret r_env) s
  = (Ok (ResolutionEnv.mk (VRef (length (heap s)))),
     mkState (heap s ++ [ODict (dict_update E V)]) (stdout s)).
Proof.
  intros Hnd Hin He HE Hvo HV.
  rewrite (bind_ok _ _ _ _ _ (lookup_stage_found _ _ _ s Hnd Hin)).
  set (s1 := mkState (heap s ++ [ODict E]) (stdout s)).
  assert (R1 : ResolutionEnv.__copy__ env s = (Ok (ResolutionEnv.mk (VRef (length (heap s)))), s1)).
  { unfold ResolutionEnv.__copy__. rewrite He.
    by rewrite (bind_ok _ _ _ _ _ (py_items_dict _ _ _ HE)). }
  rewrite (bind_ok _ _ _ _ _ R1). rewrite Hvo.
  unfold ResolutionEnv.add_values. simpl ResolutionEnv.values.
  erewrite bind_ok.
  2:{ apply (py_update_dicts _ _ E V); simpl;
        [apply lookup_alloc_new | by apply lookup_alloc_old]. }
  unfold ret. simpl. rewrite insert_app_r_alt by lia. by rewrite Nat.sub_diag.
Qed.

(** A stage environment is a copy.  For a name that is no stage of the
    configuration, [get_r_env] and [get_stage] raise [KeyError] and change
    nothing.  For a stage of the configuration, [get_stage] returns it, and
    [get_r_env] returns a new environment whose mapping is the
    configuration's with the stage's overrides laid over it; no object that
    existed before is changed, so asking again gives another new environment
    with an equal mapping. *)
Theorem get_r_env_is_a_copy
    (Resolved : Type) (fc : FlowConfig.t Resolved) (n : string) (s : state) :
  NoDup (map fst (FlowConfig.stages fc)) ->
  (n ∉ map fst (FlowConfig.stages fc) ->
   FlowConfig.get_r_env fc n s = (Raise (KeyError n), s) /\
   FlowConfig.get_stage fc n s = (Raise (KeyError n), s))
  /\
  (forall stage e vo E V,
     (n, stage) ∈ FlowConfig.stages fc ->
     ResolutionEnv.values (FlowConfig.r_env fc) = VRef e ->
     heap s !! e = Some (ODict E) ->
     Stage.value_overrides stage = VRef vo ->
     heap s !! vo = Some (ODict V) ->
     FlowConfig.get_stage fc n s = (Ok stage, s) /\
     exists s1 s2,
       FlowConfig.get_r_env fc n s = (Ok (ResolutionEnv.mk (VRef (length (heap s)))), s1) /\
       FlowConfig.get_r_env fc n s1
         = (Ok (ResolutionEnv.mk (VRef (S (length (heap s))))), s2) /\
       heap s1 !! length (heap s) = Some (ODict (dict_update E V)) /\
       heap s2 !! S (length (heap s)) = Some (ODict (dict_update E V)) /\
       (forall l, l < length (heap s) -> heap s2 !! l = heap s !! l) /\
       stdout s2 = stdout s).
Proof.
  intros Hnd. split.
  - intros Hn. unfold FlowConfig.get_r_env, FlowConfig.get_stage.
    rewrite (bind_raise _ _ _ _ _ (lookup_stage_missing _ _ s Hn)).
    split; [done|]. by apply lookup_stage_missing.
  - intros stage e vo E V Hin He HE Hvo HV.
    split; [by apply lookup_stage_found|].
    set (after := fun t : state => mkState (heap t ++ [ODict (dict_update E V)]) (stdout t)).
    assert (R1 := stage_env_state (FlowConfig.stages fc) n stage (FlowConfig.r_env fc)
                    e vo E V s Hnd Hin He HE Hvo HV).
    assert (HE1 : heap (after s) !! e = Some (ODict E)) by (by apply lookup_alloc_old).
    assert (HV1 : heap (after s) !! vo = Some (ODict V)) by (by apply lookup_alloc_old).
    assert (R2 := stage_env_state (FlowConfig.stages fc) n stage (FlowConfig.r_env fc)
                    e vo E V (after s) Hnd Hin He HE1 Hvo HV1).
    assert (Hlen1 : length (heap (after s)) = S (length (heap s))).
    { simpl. rewrite length_app. simpl. lia. }
    rewrite Hlen1 in R2.
    exists (after s), (after (after s)).
    split; [exact R1|]. split; [exact R2|]. split; [apply lookup_alloc_new|].
    split; [rewrite <- Hlen1; apply lookup_alloc_new|]. split; [|done].
    intros l Hl. simpl. rewrite !lookup_app_l; [done | lia | rewrite length_app; lia].
Qed.

Lemma get_r_env_is_a_copy_witness :
  let fc := FlowConfig.mk val "p" (ResolutionEnv.mk (VRef 5)) VNone
              [("s", Stage.mk "s" (VRef 4))] in
  FlowConfig.get_r_env fc "route" doc_flow_precedence
    = (Raise (KeyError "route"), doc_flow_precedence)
  /\
  exists s1 s2,
    FlowConfig.get_r_env fc "s" doc_flow_precedence = (Ok (ResolutionEnv.mk (VRef 9)), s1) /\
    FlowConfig.get_r_env fc "s" s1 = (Ok (ResolutionEnv.mk (VRef 10)), s2) /\
    heap s1 !! 9 = Some (ODict [("Y", VInt 3); ("Z", VInt 9)]) /\
    heap s2 !! 10 = Some (ODict [("Y", VInt 3); ("Z", VInt 9)]) /\
    heap s2 !! 5 = Some (ODict [("Y", VInt 1); ("Z", VInt 9)]).
Proof.
  intros fc.
  destruct (get_r_env_is_a_copy val fc "route" doc_flow_precedence
              ltac:(simpl; apply NoDup_singleton)) as [Hmissing _].
  destruct (get_r_env_is_a_copy val fc "s" doc_flow_precedence
              ltac:(simpl; apply NoDup_singleton)) as [_ Hthere].
  split.
  - apply Hmissing. simpl. rewrite not_elem_of_cons. split; [done | apply not_elem_of_nil].
  - destruct (Hthere (Stage.mk "s" (VRef 4)) 5 4
                [("Y", VInt 1); ("Z", VInt 9)] [("Y", VInt 3)]
                ltac:(simpl; left) eq_refl eq_refl eq_refl eq_refl)
      as (_ & s1 & s2 & R1 & R2 & H1 & H2 & Hold & _).
    exists s1, s2. split; [exact R1|]. split; [exact R2|]. split; [exact H1|].
    split; [exact H2|]. rewrite Hold; [reflexivity | simpl; lia].
Defined.

(** ** Scope lookup without a platform *)

(** A scope lookup whose platform argument is [None] or the empty string is
    a lookup at the global scope, whatever the stage argument is: the root's
    override subsection is returned if the root has one, and otherwise it is
    created as an empty map, bound in the root, and returned. *)
Theorem get_ov_dict_without_platform
    (dname : string) (flow : nat) (root : pydict) (platform stage : option string)
    (s : state) :
  str_truthy platform = false ->
  heap s !! flow = Some (ODict root) ->
  (forall v, dict_get dname root = Some v -> is_None v = false ->
     _get_ov_dict dname (VRef flow) platform stage s = (Ok v, s))
  /\
  (default VNone (dict_get dname root) = VNone ->
   _get_ov_dict dname (VRef flow) platform stage s
     = (Ok (VRef (length (heap s))),
        mkState (<[flow := ODict (dict_set dname (VRef (length (heap s))) root)]>
                   (heap s ++ [ODict []])) (stdout s))).
Proof.
  intros Hp Hroot. unfold _get_ov_dict. rewrite Hp. simpl negb. cbv iota. split.
  - intros v Hv Hnn. by apply (get_lazy_dict_existing flow dname root).
  - intros Hn. by apply get_lazy_dict_creates.
Qed.

Lemma get_ov_dict_without_platform_witness :
  _get_ov_dict "dependencies" (VRef 0) (Some "") (Some "s") doc_two_dependencies
    = (Ok (VRef 1), doc_two_dependencies)
  /\ _get_ov_dict "values" (VRef 0) (Some "") (Some "s") doc_two_dependencies
    = (Ok (VRef 3),
       mkState [ODict [("dependencies", VRef 1); ("values", VRef 3)];
                ODict [("build_dir", VStr "build"); ("xdc", VRef 2)];
                OList [VStr "a.xdc"]; ODict []] []).
Proof.
  split.
  - exact (proj1 (get_ov_dict_without_platform "dependencies" 0 [("dependencies", VRef 1)]
                    (Some "") (Some "s") doc_two_dependencies eq_refl eq_refl)
             (VRef 1) eq_refl eq_refl).
  - exact (proj2 (get_ov_dict_without_platform "values" 0 [("dependencies", VRef 1)]
                    (Some "") (Some "s") doc_two_dependencies eq_refl eq_refl) eq_refl).
Defined.

(** ** Reading a stage's overrides from the project *)

(** The project's value overrides for a stage are read without writing to
    the document.  For a platform the document does not have the getter
    raises [KeyError].  Otherwise it returns a map that holds the stage's
    values: the document's own map when the platform has the stage and the
    stage has values, and a new empty map outside the document when either
    is missing.  Every object that existed is left as it was and nothing is
    printed. *)
Theorem get_stage_value_overrides_reads
    (cfg : ProjectFlowConfig.t) (flow : nat) (root : pydict) (p n : string) (s : state) :
  ProjectFlowConfig.flow_cfg cfg = VRef flow ->
  heap s !! flow = Some (ODict root) ->
  (dict_get p root = None ->
   ProjectFlowConfig.get_stage_value_overrides cfg p n s = (Raise (KeyError p), s))
  /\
  (forall pl pitems proj,
     dict_get p root = Some (VRef pl) ->
     heap s !! pl = Some (ODict pitems) ->
     stage_values (heap s) pitems n = Some proj ->
     exists c s1,
       ProjectFlowConfig.get_stage_value_overrides cfg p n s = (Ok (VRef c), s1) /\
       heap s1 !! c = Some (ODict proj) /\
       (c ∈ stage_cells (heap s) pitems n \/ (length (heap s) <= c /\ proj = [])) /\
       (forall l, l < length (heap s) -> heap s1 !! l = heap s !! l) /\
       stdout s1 = stdout s).
Proof.
  intros Hcfg Hroot. split.
  - intros Hp. unfold ProjectFlowConfig.get_stage_value_overrides. rewrite Hcfg.
    by rewrite (bind_raise _ _ _ _ _ (py_getitem_absent _ _ _ _ Hroot Hp)).
  - intros pl pitems proj Hp Hpl Hsv.
    destruct (get_stage_value_overrides_run cfg flow p pl root pitems n proj s
                Hcfg Hroot Hp Hpl Hsv) as (c & s1 & R & Hc & Hwhere & Hold & Hlen & Hout).
    exists c, s1. split; [done|]. split; [done|]. split; [|done].
    destruct Hwhere as [Hin|Hge]; [by left|]. right. split; [done|].
    unfold ProjectFlowConfig.get_stage_value_overrides in R.
    rewrite Hcfg in R.
    rewrite (bind_ok _ _ _ _ _ (py_getitem_dict _ _ _ _ _ Hroot Hp)) in R.
    rewrite (bind_ok _ _ _ _ _ (py_get_dict _ n _ _ Hpl)) in R.
    unfold stage_values in Hsv.
    destruct (default VNone (dict_get n pitems)) as [| | | |sl]; try done; simpl in R.
    + by injection Hsv as <-.
    + destruct (heap s !! sl) as [[|sitems]|] eqn:Esl; try done.
      rewrite (bind_ok _ _ _ _ _ (py_get_dict _ "values" _ _ Esl)) in R.
      destruct (default VNone (dict_get "values" sitems)) as [| | | |svl]; try done;
        simpl in R, Hsv.
      * by injection Hsv as <-.
      * destruct (heap s !! svl) eqn:E; [|done]. apply lookup_lt_Some in E.
        unfold ret in R. injection R as Ec _. lia.
Qed.

Lemma get_stage_value_overrides_reads_witness :
  ProjectFlowConfig.get_stage_value_overrides cfg0 "q" "s" doc_flow_precedence
    = (Raise (KeyError "q"), doc_flow_precedence)
  /\ (exists s1,
        ProjectFlowConfig.get_stage_value_overrides cfg0 "p" "s" doc_flow_precedence
          = (Ok (VRef 4), s1) /\
        heap s1 !! 4 = Some (ODict [("Y", VInt 3)]))
  /\ (exists c s1,
        ProjectFlowConfig.get_stage_value_overrides cfg0 "p" "route" doc_flow_precedence
          = (Ok (VRef c), s1) /\
        heap s1 !! c = Some (ODict []) /\
        heap s1 !! 0 = Some (ODict [("p", VRef 1)])).
Proof.
  destruct (get_stage_value_overrides_reads cfg0 0 [("p", VRef 1)] "q" "s"
              doc_flow_precedence eq_refl eq_refl) as [Hmissing _].
  destruct (get_stage_value_overrides_reads cfg0 0 [("p", VRef 1)] "p" "s"
              doc_flow_precedence eq_refl eq_refl) as [_ Hs].
  destruct (get_stage_value_overrides_reads cfg0 0 [("p", VRef 1)] "p" "route"
              doc_flow_precedence eq_refl eq_refl) as [_ Hroute].
  split; [exact (Hmissing eq_refl)|]. split.
  - destruct (Hs 1 [("values", VRef 2); ("s", VRef 3)] [("Y", VInt 3)]
                eq_refl eq_refl eq_refl) as (c & s1 & R & Hc & _).
    pose proof R as R'. vm_compute in R'. injection R' as Ec _.
    subst c. by exists s1.
  - destruct (Hroute 1 [("values", VRef 2); ("s", VRef 3)] []
                eq_refl eq_refl eq_refl) as (c & s1 & R & Hc & _ & Hold & _).
    exists c, s1. split; [exact R|]. split; [exact Hc|].
    rewrite Hold; [reflexivity | simpl; lia].
Defined.

(** ** Defects shown on concrete documents *)

(** C2.  The raw accessors write to the document.  On
    [{"values": {"X": [1, 2]}, "p": {"values": {"X": [3]}}}], reading the raw
    values of platform [p] returns the document's own global map after
    updating it in place: the document's global [X] is now [[3]].  Building
    a flow configuration for [p] changes the document in the same way. *)
Theorem get_values_raw_mutates_document :
  reify 5 (heap doc_global_and_platform) (VRef 0)
    = Some (JDict [("values", JDict [("X", JList [JInt 1; JInt 2])]);
                   ("p", JDict [("values", JDict [("X", JList [JInt 3])])])])
  /\ result_of (ProjectFlowConfig.get_values_raw cfg0 (Some "p") None
                  doc_global_and_platform) = Ok (VRef 1)
  /\ reify 5 (heap (state_of (ProjectFlowConfig.get_values_raw cfg0 (Some "p") None
                                doc_global_and_platform))) (VRef 0)
     = Some (JDict [("values", JDict [("X", JList [JInt 3])]);
                    ("p", JDict [("values", JDict [("X", JList [JInt 3])])])])
  /\ forall (Resolved : Type) (resolve_paths : list obj -> ResolutionEnv.t -> val -> Resolved),
       reify 5 (heap (state_of
                  (FlowConfig.__init__ resolve_paths cfg0
                     (FlowDefinition.mk VNone (ResolutionEnv.mk (VRef 6)) []) "p"
                     doc_global_and_platform))) (VRef 0)
       = Some (JDict [("values", JDict [("X", JList [JInt 3])]);
                      ("p", JDict [("values", JDict [("X", JList [JInt 3])])])]).
Proof.
  do 3 (split; [vm_compute; reflexivity|]).
  intros Resolved resolve_paths. vm_compute. reflexivity.
Qed.

(** C4.  Indexed removal with a repeated index is neither all nor nothing.
    On the list [["a"]] the index list [[0, 0]] passes the range check, the
    first pop empties the list and the second raises [IndexError]: an
    exception after a partial change.  On [["a", "b", "c", "d"]] the index
    list [[1, 1]] reports success and removes [b] and [c], of which only [b]
    was designated. *)
Theorem rm_ov_by_idx_repeated_index :
  _remove_values_by_idx (VRef 0) "X" [0; 0]%Z None None doc_single_value
    = (Raise IndexError,
       mkState [ODict [("values", VRef 1)]; ODict [("X", VRef 2)]; OList []] [])
  /\ _remove_values_by_idx (VRef 0) "X" [1; 1]%Z None None doc_four_values
    = (Ok true,
       mkState [ODict [("values", VRef 1)]; ODict [("X", VRef 2)];
                OList [VStr "a"; VStr "d"]] []).
Proof. split; reflexivity. Qed.

(** C6.  Removal by value on a slot that is not set reports the wrong error:
    the test [type(vallist) is None] never holds, so the run falls through to
    the message for a slot that is not a list. *)
Theorem rm_ov_by_values_unset_reports_not_a_list :
  _remove_values_by_values (VRef 0) "X" (VRef 2) None None doc_empty_values
    = (Ok false,
       mkState (heap doc_empty_values)
               ["Value `X` is not a list! Use unsetv instead."]).
Proof. reflexivity. Qed.

(** C8.  Adding a platform that is already present succeeds when the present
    entry is an empty map: twice in a row on a new configuration, on
    [{"p": {}}], and for the keyword [values] on [{"values": {}}]. *)
Theorem add_platform_accepts_present_empty_platform :
  result_of ((let* first := ProjectFlowConfig.add_platform cfg0 "xc7" in
              let* second := ProjectFlowConfig.add_platform cfg0 "xc7" in
              ret (first, second)) doc_empty) = Ok (true, true)
  /\ result_of (ProjectFlowConfig.add_platform cfg0 "p" doc_one_platform) = Ok true
  /\ result_of (ProjectFlowConfig.add_platform cfg0 "values" doc_empty_values) = Ok true.
Proof. split; [reflexivity|]. split; reflexivity. Qed.
